(** * CMSIS debug adapter: process supervisor and debug session

    A shallow embedding of [src/abstract-server.ts] (the supervisor of the
    gdb server process) and of [src/cmsis-debug-session.ts] (breakpoint
    reconciliation, stop classification, scope handles and the variable
    cache), with the properties the specification states about them.

    Conventions of the embedding:
    - a JavaScript string is a [string] of 8-bit code units;
    - a JavaScript [number] that holds an integer is a [Z]; a number that
      may be [NaN] is an [option Z] with [None] for [NaN];
    - an optional property ([x?: T]) is an [option T];
    - [await] is sequential: the reply of a command is at hand when the
      command returns, and a rejected promise is a thrown exception. *)

From stdpp Require Import gmap strings list pretty.
From Stdlib Require Import ZArith Ascii.
From Stdlib Require String.

Local Open Scope Z_scope.

(** ** The JavaScript primitives the two files rely on *)

Module JS.

(** A number that may be [NaN]. *)
Definition number : Type := option Z.
Definition NaN : number := None.

Definition isNaN (n : number) : bool :=
  match n with None => true | Some _ => false end.

(** [a + b] on numbers: [NaN] is absorbing. *)
Definition add (a b : number) : number :=
  match a, b with
  | Some x, Some y => Some (x + y)
  | _, _ => NaN
  end.

(** Truthiness of an optional string: [undefined] and [''] are falsy. *)
Definition truthy (s : option string) : bool :=
  match s with
  | Some (String _ _) => true
  | _ => false
  end.

(** [s || undefined]: an empty string becomes [undefined]. *)
Definition orUndefined (s : option string) : option string :=
  if truthy s then s else None.

Definition LF : ascii := ascii_of_nat 10.

(** The characters matched by [\s] and skipped by [parseInt], among the
    code units below 256. *)
Definition isWhiteSpace (c : ascii) : bool :=
  bool_decide (nat_of_ascii c ∈ [9; 10; 11; 12; 13; 32; 160]%nat).

Definition digitValue (c : ascii) : option Z :=
  let n := Z.of_nat (nat_of_ascii c) in
  if (48 <=? n) && (n <=? 57) then Some (n - 48) else None.

Fixpoint skipWhiteSpace (s : string) : string :=
  match s with
  | String c s' => if isWhiteSpace c then skipWhiteSpace s' else s
  | EmptyString => EmptyString
  end.

(** The value of the longest prefix of decimal digits, read left to
    right onto [acc]. *)
Fixpoint parseDigits (acc : Z) (s : string) : Z :=
  match s with
  | String c s' =>
      match digitValue c with
      | Some d => parseDigits (acc * 10 + d) s'
      | None => acc
      end
  | EmptyString => acc
  end.

(** [parseInt(s, 10)]: leading white space, an optional sign, then the
    longest run of digits; [NaN] when there is no digit.  The result is
    the exact integer (a double agrees with it below 2^53). *)
Definition parseInt (s : string) : number :=
  let s1 := skipWhiteSpace s in
  let '(sign, s2) :=
    match s1 with
    | String "-"%char r => (-1, r)
    | String "+"%char r => (1, r)
    | _ => (1, s1)
    end in
  match s2 with
  | String c _ =>
      match digitValue c with
      | Some _ => Some (sign * parseDigits 0 s2)
      | None => NaN
      end
  | EmptyString => NaN
  end.

(** [parseInt(x, 10)] on an optional string: [undefined] is converted to
    the text "undefined", which holds no digit. *)
Definition parseIntOpt (s : option string) : number :=
  match s with
  | Some s => parseInt s
  | None => NaN
  end.

(** [String(n)] for an integer. *)
Definition toString (n : Z) : string := pretty n.

(** [s.lastIndexOf(c)]; [None] is the source's [-1]. *)
Fixpoint lastIndexOf (c : ascii) (s : string) : option nat :=
  match s with
  | EmptyString => None
  | String a s' =>
      match lastIndexOf c s' with
      | Some i => Some (S i)
      | None => if Ascii.eqb a c then Some 0%nat else None
      end
  end.

(** [s.substring(from, to)] for [from <= to], and [s.substring(from)]. *)
Definition substring (from to : nat) (s : string) : string :=
  String.substring from (to - from) s.

Fixpoint substringFrom (from : nat) (s : string) : string :=
  match from, s with
  | O, _ => s
  | S n, String _ s' => substringFrom n s'
  | S _, EmptyString => EmptyString
  end.

(** [s.startsWith(p)]. *)
Definition startsWith (p s : string) : bool := String.prefix p s.

(** [s.split(sep)[0]] for a separator that is not empty: the text before
    the first occurrence of [sep], or all of [s]. *)
Definition splitHead (sep s : string) : string :=
  match String.index 0 sep s with
  | Some i => String.substring 0 i s
  | None => s
  end.

(** [s.replace(re, '')] for a global regular expression that matches
    single characters: every matching character is dropped. *)
Fixpoint removeAll (re : ascii -> bool) (s : string) : string :=
  match s with
  | EmptyString => EmptyString
  | String c s' =>
      if re c then removeAll re s' else String c (removeAll re s')
  end.

End JS.

(** ** [abstract-server.ts]: the supervisor of the gdb server process *)

Module AbstractServer.

(** The abstract methods a concrete server supplies
    ([abstract-server.ts], lines 163-164), and the line separator of the
    host ([os.EOL]). *)
Class ConcreteServer := {
  EOL : string;
  serverStarted : string -> bool;
  serverError : string -> bool;
}.

Inductive Stream := stdout | stderr.

(** The [code] argument of the process's exit event. *)
Inductive ExitCode :=
| CodeUndefined
| CodeNull
| CodeNumber (n : Z).

(** [!!code] *)
Definition codeTruthy (code : ExitCode) : bool :=
  match code with
  | CodeNumber n => negb (n =? 0)
  | _ => false
  end.

(** [`${code}`] *)
Definition codeToString (code : ExitCode) : string :=
  match code with
  | CodeUndefined => "undefined"
  | CodeNull => "null"
  | CodeNumber n => JS.toString n
  end.

(** What the supervisor does to the outside, in the order it does it:
    the events it emits (a listener of [exit], [stdout] or [stderr] is
    taken to return; for those of [error] see [ErrorListeners]), the
    timer it clears, the start promise it settles. *)
Inductive Effect :=
| EmitExit (code : ExitCode) (signal : option string)
| EmitError (message : string)
| EmitData (event : Stream) (data : string)
| ClearTimeout (timer : nat)
| LaunchResolve (promise : nat)
| LaunchReject (promise : nat) (error : string).

(** The fields of the class; [launchResolve] and [launchReject] hold the
    pending start promise, [log] the effects so far. *)
Record Server := mkServer {
  outBuffer : string;
  errBuffer : string;
  launchResolve : option nat;
  launchReject : option nat;
  timer : option nat;
  log : list Effect;
}.

(** An effect is written at the end of the log. *)
Definition emit (e : Effect) (s : Server) : Server :=
  mkServer (outBuffer s) (errBuffer s) (launchResolve s) (launchReject s)
           (timer s) (log s ++ [e]).

(** [onExit], lines 101-108. *)
Definition onExit (code : ExitCode) (signal : option string) (s : Server)
  : Server :=
  let s := emit (EmitExit code signal) s in
  if codeTruthy code
  then emit (EmitError ("GDB server stopped unexpectedly with exit code "
                        +:+ codeToString code)) s
  else s.

(** [clearTimer], lines 151-156. *)
Definition clearTimer (s : Server) : Server :=
  match timer s with
  | Some t =>
      let s := emit (ClearTimeout t) s in
      mkServer (outBuffer s) (errBuffer s) (launchResolve s)
               (launchReject s) None (log s)
  | None => s
  end.

(** [clearPromises], lines 158-161. *)
Definition clearPromises (s : Server) : Server :=
  mkServer (outBuffer s) (errBuffer s) None None (timer s) (log s).

(** [onSpawnError], lines 110-116. *)
Definition onSpawnError (error : string) (s : Server) : Server :=
  match launchReject s with
  | Some p => clearPromises (emit (LaunchReject p error) (clearTimer s))
  | None => s
  end.

(** The listeners of the supervisor's [error] event, by whether they
    return for a message.  [emit('error', m)] throws when no listener is
    registered, and when a listener throws; the only listener of the
    repository, the one the debug session registers
    ([cmsis-debug-session.ts], lines 367-370), throws the message it is
    given. *)
Class ErrorListeners := {
  errorListenersReturn : string -> bool;
}.

Section Methods.
Context `{ConcreteServer} `{ErrorListeners}.

(** [handleData], lines 139-149: the state it leaves, also when its
    last statement, the [emit('error', ...)] of line 147, throws. *)
Definition handleData (data : string) (s : Server) : Server :=
  let s :=
    match launchResolve s with
    | Some p =>
        if serverStarted data
        then clearPromises (emit (LaunchResolve p) (clearTimer s))
        else s
    | None => s
    end in
  if serverError data
  then emit (EmitError (JS.splitHead EOL data)) s
  else s.

(** [this[bufferName]], read and written. *)
Definition buffer (event : Stream) (s : Server) : string :=
  match event with stdout => outBuffer s | stderr => errBuffer s end.

Definition setBuffer (event : Stream) (b : string) (s : Server) : Server :=
  match event with
  | stdout => mkServer b (errBuffer s) (launchResolve s) (launchReject s)
                       (timer s) (log s)
  | stderr => mkServer (outBuffer s) b (launchResolve s) (launchReject s)
                       (timer s) (log s)
  end.

(** [handleData] is left by an exception: the data is a server error
    and the [emit('error', ...)] of line 147 throws. *)
Definition handleDataThrows (data : string) : bool :=
  serverError data && negb (errorListenersReturn (JS.splitHead EOL data)).

(** [onData], lines 126-137; [chunk] is the text of the chunk (a
    [Buffer] is decoded first).  When [handleData] throws, line 135 is
    not reached and the buffer keeps all of its text; the state is the
    one the method leaves, by a return or by the exception. *)
Definition onData (chunk : string) (event : Stream) (s : Server) : Server :=
  let s := setBuffer event (buffer event s +:+ chunk) s in
  match JS.lastIndexOf JS.LF (buffer event s) with
  | Some e =>
      let data := JS.substring 0 e (buffer event s) in
      let s := emit (EmitData event data) s in
      let s := handleData data s in
      if handleDataThrows data then s
      else setBuffer event (JS.substringFrom (e + 1) (buffer event s)) s
  | None => s
  end.

Definition onStdout (chunk : string) : Server -> Server := onData chunk stdout.
Definition onStderr (chunk : string) : Server -> Server := onData chunk stderr.

(** Lines handed to [handleData] one after the other. *)
Definition feed (lines : list string) (s : Server) : Server :=
  foldl (fun s data => handleData data s) s lines.

End Methods.

(** *** Reading the log *)

(** The promises resolved, in order. *)
Definition resolutions (l : list Effect) : list nat :=
  omap (fun e => match e with LaunchResolve p => Some p | _ => None end) l.

(** The timers cleared, in order. *)
Definition clearedTimers (l : list Effect) : list nat :=
  omap (fun e => match e with ClearTimeout t => Some t | _ => None end) l.

(** The [stdout] and [stderr] events emitted, in order. *)
Definition dataEvents (l : list Effect) : list (Stream * string) :=
  omap (fun e => match e with EmitData ev d => Some (ev, d) | _ => None end) l.

(** An [exit] event, an [error] event. *)
Definition isExit (e : Effect) : bool :=
  match e with EmitExit _ _ => true | _ => false end.
Definition isError (e : Effect) : bool :=
  match e with EmitError _ => true | _ => false end.

(** Some effect satisfying [first] is logged ahead of one satisfying
    [second]. *)
Definition loggedBefore (first second : Effect -> bool) (l : list Effect) : Prop :=
  exists l1 a l2 b l3,
    l = l1 ++ a :: l2 ++ b :: l3 /\ first a = true /\ second b = true.

(** The complete lines of a text, as the specification words the
    draining of a buffer: every newline-terminated line, without the
    trailing partial line. *)
Fixpoint spec_completeLines (current : string) (s : string) : list string :=
  match s with
  | EmptyString => []
  | String c s' =>
      if Ascii.eqb c JS.LF
      then current :: spec_completeLines EmptyString s'
      else spec_completeLines (current +:+ String c EmptyString) s'
  end.

(** [s.includes(pattern)] *)
Definition includes (pattern s : string) : bool :=
  match String.index 0 pattern s with Some _ => true | None => false end.

(** Modelled from the spec: the concrete server (pyocd-server.ts is not
    among the sources), of which the specification fixes the interface
    only, [serverStarted(line) -> bool] and [serverError(line) -> bool].
    This one is started once the text holds a start banner and in error
    when it holds an error tag. *)
Definition exampleServer : ConcreteServer := {|
  EOL := String JS.LF EmptyString;
  serverStarted := includes "GDB server started";
  serverError := includes ":ERROR:";
|}.

(** The listener the debug session registers on its server,
    [cmsis-debug-session.ts], lines 367-370: it sends a terminated event
    and throws the message. *)
Definition sessionListeners : ErrorListeners := {|
  errorListenersReturn := fun _ => false;
|}.

Definition idle : Server := mkServer "" "" None None None [].

(** Sample output of a server that boots and announces its start
    twice, and a chunk of two complete lines and the start of a third. *)
Definition bootLines : list string := ["pyocd booting"].
Definition banner : string := "GDB server started on port 3333".
Definition laterLines : list string := ["GDB server started on port 3334"].
Definition twoLinesAndMore : string :=
  "a" +:+ String JS.LF ("b" +:+ String JS.LF "c").

(** A chunk whose complete line the example server takes for an
    error, and the start of a further line. *)
Definition errorLineAndMore : string :=
  ":ERROR: no probe" +:+ String JS.LF "c".

(** The state [spawn] leaves: promise [p] pending, timer [t] armed. *)
Definition starting (p t : nat) : Server := mkServer "" "" (Some p) (Some p) (Some t) [].

(** *** The life of a start: [spawn] and the callbacks it registers *)

(** The message of the startup timer, line 55. *)
Definition TIMEOUT_MESSAGE : string := "Timeout waiting for gdb server to start".

(** [spawn], lines 49-81, as far as the state goes: the promise it
    returns is [promise] and [timeout] is the timer [setTimeout] hands
    out.  What follows in its [try] block registers the callbacks; an
    exception there is passed by the [catch] to [onSpawnError], as an
    [error] of the process is. *)
Definition spawn (promise timeout : nat) (s : Server) : Server :=
  let s := mkServer (outBuffer s) (errBuffer s) (Some promise) (Some promise)
                    (timer s) (log s) in
  mkServer (outBuffer s) (errBuffer s) (launchResolve s) (launchReject s)
           (Some timeout) (log s).

(** What calls the supervisor back once [spawn] has begun: the
    listeners it registers on the process and on its two streams (lines
    68-75), its [catch] clause (line 77, a [ProcessError] as well) and
    the startup timer (line 55). *)
Inductive Callback :=
| ProcessExit (code : ExitCode) (signal : option string)
| ProcessError (error : string)
| StdoutData (chunk : string)
| StderrData (chunk : string)
| TimerFired.

Section Lifecycle.
Context `{ConcreteServer} `{ErrorListeners}.

(** The method each callback is bound to. *)
Definition dispatch (c : Callback) (s : Server) : Server :=
  match c with
  | ProcessExit code signal => onExit code signal s
  | ProcessError error => onSpawnError error s
  | StdoutData chunk => onStdout chunk s
  | StderrData chunk => onStderr chunk s
  | TimerFired => onSpawnError TIMEOUT_MESSAGE s
  end.

(** Callbacks run one after the other; each leaves the state it had
    reached when it returned or threw. *)
Definition receive (cbs : list Callback) (s : Server) : Server :=
  foldl (fun s c => dispatch c s) s cbs.

(** [handleData] returns for the data. *)
Definition handleDataReturns (data : string) : bool := negb (handleDataThrows data).

End Lifecycle.

(** The start promise being settled: resolved or rejected. *)
Definition isSettlement (e : Effect) : bool :=
  match e with
  | LaunchResolve _ | LaunchReject _ _ => true
  | _ => false
  end.

Definition settlements (l : list Effect) : list Effect := List.filter isSettlement l.

(** A start is pending on promise [p] with the timer [t] armed; no
    start is pending and no timer is armed. *)
Definition pendingOn (p t : nat) (s : Server) : Prop :=
  launchResolve s = Some p /\ launchReject s = Some p /\ timer s = Some t.

Definition quiet (s : Server) : Prop :=
  launchResolve s = None /\ launchReject s = None /\ timer s = None.

(** The messages of the [error] events, in order. *)
Definition errorsOf (l : list Effect) : list string :=
  omap (fun e => match e with EmitError m => Some m | _ => None end) l.

(** The data of the events emitted for one stream, in order. *)
Definition eventsOn (event : Stream) (l : list Effect) : list string :=
  omap (fun e => match e, event with
                 | EmitData stdout d, stdout => Some d
                 | EmitData stderr d, stderr => Some d
                 | _, _ => None
                 end) l.

(** The text a callback brings on a stream, and the text a sequence of
    callbacks brings on it. *)
Definition chunkOn (event : Stream) (c : Callback) : string :=
  match c, event with
  | StdoutData chunk, stdout => chunk
  | StderrData chunk, stderr => chunk
  | _, _ => ""
  end.

Definition received (event : Stream) (cbs : list Callback) : string :=
  foldr (fun c text => chunkOn event c +:+ text) "" cbs.

(** The data of events written back with the newline that ended each. *)
Definition terminated (data : list string) : string :=
  foldr (fun d text => d +:+ String JS.LF text) "" data.

(** Sample output: two chunks that cut a line in two; a start banner
    that arrives in two pieces with a line of the other stream in
    between; an error line followed by the end of a further line. *)
Definition twoChunks : list Callback :=
  [StdoutData ("a" +:+ String JS.LF "b"); StdoutData ("c" +:+ String JS.LF "d")].
Definition bannerInPieces : list Callback :=
  [StdoutData "GDB server "; StderrData ("warming up" +:+ String JS.LF "");
   StdoutData ("started" +:+ String JS.LF "")].
Definition endOfLine : string := "d" +:+ String JS.LF "".

End AbstractServer.

(** ** [cmsis-debug-session.ts]: the debug session *)

Module CmsisDebugSession.

Definition GLOBAL_HANDLE_ID : Z := 0xFE.
Definition STATIC_HANDLES_START : Z := 0x010000.
Definition STATIC_HANDLES_FINISH : Z := 0x01FFFF.

(** Allow a single number for ignore count or the form '> [number]':
    the characters [ignoreCountRegex] matches. *)
Definition ignoreCountRegex (c : ascii) : bool :=
  JS.isWhiteSpace c || Ascii.eqb c ">"%char.

(** *** Machine-interface data (the fields the session reads) *)

(** Modelled from the spec: the declarations of the machine-interface
    module (mi.ts is not among the sources).  An installed breakpoint as
    the debugger lists it: its backend id [number], its file [fullname],
    its [line] and its condition [cond]. *)
Record MIBreakpointInfo := mkMIBreakpointInfo {
  bkpt_number : string;
  bkpt_fullname : option string;
  bkpt_line : option string;
  bkpt_cond : option string;
}.

(** Modelled from the spec: the options of [mi.sendBreak], as the call
    at lines 225-230 gives them. *)
Record MIBreakInsertOptions := mkMIBreakInsertOptions {
  location : string;
  condition : option string;
  temporary : bool;
  ignoreCount : option Z;
}.

(** Modelled from the spec: an entry of the change list of
    [mi.sendVarUpdate], with the fields line 471 reads and line 472
    copies. *)
Record MIVarUpdate := mkMIVarUpdate {
  update_name : string;
  update_value : option string;
  update_in_scope : string;
}.

(** Modelled from the spec: the answer of [mi.sendVarCreate], the
    backend name, child count, value and type of a tracked variable. *)
Record MIVarCreateResponse := mkMIVarCreateResponse {
  create_name : string;
  create_numchild : string;
  create_value : option string;
  create_type : string;
}.

(** Modelled from the spec: the commands the session sends through
    [mi.send...], each with the arguments the call site gives it. *)
Inductive MICommand :=
| ExecContinue
| BreakList
| BreakInsert (options : MIBreakInsertOptions)
| BreakDelete (breakpoints : list string)
| VarUpdate (name : string)
| VarCreate (name frame expression : string)
| StackInfoFrame (threadId frameId : Z)
| StackInfoDepth (maxDepth : Z).

(** *** Front-end protocol data *)

Record SourceBreakpoint := mkSourceBreakpoint {
  vsbp_line : Z;
  vsbp_condition : option string;
  vsbp_hitCondition : option string;
  vsbp_logMessage : option string;
}.

Record SetBreakpointsArguments := mkSetBreakpointsArguments {
  source_path : string;
  breakpoints : option (list SourceBreakpoint);
}.

Record Breakpoint := mkBreakpoint {
  bp_id : JS.number;
  bp_line : JS.number;
  bp_verified : bool;
}.

Record Scope := mkScope {
  scope_name : string;
  scope_variablesReference : JS.number;
  scope_expensive : bool;
}.

(** [DebugProtocol.Variable]. *)
Record Variable_ := mkVariable {
  var_name : string;
  var_value : string;
  var_type : string;
  var_variablesReference : Z;
}.

Inductive Event :=
| OutputEvent (output : string)
| TerminatedEvent
| StoppedEvent (reason : string) (threadId : JS.number)
               (allThreadsStopped : bool).

Inductive ResponseBody :=
| BreakpointsBody (breakpoints : list Breakpoint)
| ScopesBody (scopes : list Scope)
| VariablesBody (variables : list Variable_).

(** The [result] that [handleGDBStopped] receives: the record of a
    [*stopped] notification, with the fields the method reads. *)
Record StopResult := mkStopResult {
  stop_reason : string;
  stop_bkptno : option string;
  stop_thread_id : option string;
  stop_stopped_threads : option string;
  stop_signal_name : option string;
}.

(** What the session does to the outside, in the order it does it:
    [gdb.pause()], a command through [mi.send...], an event or a response
    to the front end, the call of [waitPaused]. *)
Inductive Action :=
| PauseTarget
| Command (c : MICommand)
| SendEvent (e : Event)
| SendResponse (body : ResponseBody)
| SendErrorResponse (code : Z) (message : string)
| ResolveWaitPaused.

(** *** Handle tables and the variable cache of the base adapter *)

Record FrameReference := mkFrameReference {
  threadId : Z;
  frameId : Z;
}.

Inductive VariableReference :=
| FrameVariableReference (frameHandle : Z)
| ObjectVariableReference (frameHandle : option Z) (varobjName : string).

(** Modelled from the spec: the handle table ([Handles<T>] of the
    adapter library, not among the sources), a growable table from handle
    to descriptor whose allocation is monotonic: [create] hands out the
    next number, from 1000 on, and [get] looks a handle up. *)
Record Handles (T : Type) := mkHandles {
  nextHandle : Z;
  handleMap : gmap Z T;
}.
Arguments mkHandles {T}.
Arguments nextHandle {T}.
Arguments handleMap {T}.

Definition START_HANDLE : Z := 1000.

Definition Handles_new {T} : Handles T := mkHandles START_HANDLE ∅.

Definition Handles_create {T} (value : T) (h : Handles T) : Z * Handles T :=
  (nextHandle h, mkHandles (nextHandle h + 1) (<[nextHandle h := value]> (handleMap h))).

Definition Handles_get {T} (handle : Z) (h : Handles T) : option T :=
  handleMap h !! handle.

(** Modelled from the spec: the cache of tracked variables
    ([varManager] of the base adapter, not among the sources).  An entry
    holds the backend name [varname], the display name [expression] it is
    looked up by, the value, the type and the child count. *)
Record VarObjType := mkVarObjType {
  varname : string;
  expression : string;
  numchild : string;
  value : option string;
  type : string;
  isVar : bool;
  isChild : bool;
}.

(** Modelled from the spec: the cache keeps, for every (frameId,
    threadId, depth), the list of the variables tracked there, so that an
    entry is keyed by (frameId, threadId, depth, displayName). *)
Definition VarKey : Type := Z * Z * JS.number.

(** [o.value = v] *)
Definition setValue (v : option string) (o : VarObjType) : VarObjType :=
  mkVarObjType (varname o) (expression o) (numchild o) v (type o)
               (isVar o) (isChild o).

(** *** The session and its effects *)

(** The fields of the session; [gdb] is the state of the debugger
    behind the machine interface. *)
Record Session (G : Type) := mkSession {
  gdb : G;
  isRunning : bool;
  waitPaused : bool;
  logPointMessages : gmap string string;
  globalHandle : option Z;
  variableHandles : Handles VariableReference;
  frameHandles : Handles FrameReference;
  variableMap : gmap VarKey (list VarObjType);
}.
Arguments mkSession {G}.
Arguments gdb {G}.
Arguments isRunning {G}.
Arguments waitPaused {G}.
Arguments logPointMessages {G}.
Arguments globalHandle {G}.
Arguments variableHandles {G}.
Arguments frameHandles {G}.
Arguments variableMap {G}.

Inductive Result (A : Type) :=
| Ok (a : A)
| Throw (message : string).
Arguments Ok {A}.
Arguments Throw {A}.

(** A method of the session: from the session before to the result (or
    the exception), the session after, and the actions performed. *)
Definition M (G A : Type) : Type :=
  Session G -> Result A * Session G * list Action.

Section Monad.
Context {G : Type}.

Definition ret {A} (a : A) : M G A := fun s => (Ok a, s, []).

Definition throw {A} (message : string) : M G A :=
  fun s => (Throw message, s, []).

Definition bind {A B} (m : M G A) (f : A -> M G B) : M G B :=
  fun s =>
    match m s with
    | (Ok a, s1, acts1) =>
        match f a s1 with
        | (r, s2, acts2) => (r, s2, acts1 ++ acts2)
        end
    | (Throw e, s1, acts1) => (Throw e, s1, acts1)
    end.

(** [try { m } catch (err) { handler(err.message) }] *)
Definition tryCatch {A} (m : M G A) (handler : string -> M G A) : M G A :=
  fun s =>
    match m s with
    | (Ok a, s1, acts1) => (Ok a, s1, acts1)
    | (Throw e, s1, acts1) =>
        match handler e s1 with
        | (r, s2, acts2) => (r, s2, acts1 ++ acts2)
        end
    end.

(** A call whose promise is not awaited: a failure is not seen here. *)
Definition unawaited {A} (m : M G A) : M G unit :=
  fun s =>
    match m s with
    | (_, s1, acts1) => (Ok tt, s1, acts1)
    end.

(** Reading the fields ([this]) and doing something to the outside. *)
Definition get : M G (Session G) := fun s => (Ok s, s, []).
Definition perform (a : Action) : M G unit := fun s => (Ok tt, s, [a]).

Definition when (b : bool) (m : M G unit) : M G unit :=
  if b then m else ret tt.

Definition sendEvent (e : Event) : M G unit := perform (SendEvent e).
Definition sendResponse (body : ResponseBody) : M G unit :=
  perform (SendResponse body).
Definition sendErrorResponse (code : Z) (message : string) : M G unit :=
  perform (SendErrorResponse code message).

Definition setGdb (g : G) (s : Session G) : Session G :=
  mkSession g (isRunning s) (waitPaused s) (logPointMessages s)
            (globalHandle s) (variableHandles s) (frameHandles s)
            (variableMap s).
Definition setWaitPaused (b : bool) (s : Session G) : Session G :=
  mkSession (gdb s) (isRunning s) b (logPointMessages s)
            (globalHandle s) (variableHandles s) (frameHandles s)
            (variableMap s).
Definition setLogPointMessages (m : gmap string string) (s : Session G)
  : Session G :=
  mkSession (gdb s) (isRunning s) (waitPaused s) m
            (globalHandle s) (variableHandles s) (frameHandles s)
            (variableMap s).
Definition setGlobalHandle (h : option Z) (s : Session G) : Session G :=
  mkSession (gdb s) (isRunning s) (waitPaused s) (logPointMessages s)
            h (variableHandles s) (frameHandles s) (variableMap s).
Definition setVariableHandles (h : Handles VariableReference)
           (s : Session G) : Session G :=
  mkSession (gdb s) (isRunning s) (waitPaused s) (logPointMessages s)
            (globalHandle s) h (frameHandles s) (variableMap s).
Definition setFrameHandles (h : Handles FrameReference) (s : Session G)
  : Session G :=
  mkSession (gdb s) (isRunning s) (waitPaused s) (logPointMessages s)
            (globalHandle s) (variableHandles s) h (variableMap s).
Definition setVariableMap (m : gmap VarKey (list VarObjType))
           (s : Session G) : Session G :=
  mkSession (gdb s) (isRunning s) (waitPaused s) (logPointMessages s)
            (globalHandle s) (variableHandles s) (frameHandles s) m.

Definition modify (f : Session G -> Session G) : M G unit :=
  fun s => (Ok tt, f s, []).

End Monad.

Global Instance M_ret {G} : MRet (M G) := fun A => @ret G A.
Global Instance M_bind {G} : MBind (M G) := fun A B f m => bind m f.

(** *** The collaborators of the session *)

(** Modelled from the spec: what a command of the machine interface
    answers, with the fields the session reads of the answer. *)
Definition Reply (c : MICommand) : Type :=
  match c with
  | ExecContinue => unit
  | BreakList => list MIBreakpointInfo
  | BreakInsert _ => MIBreakpointInfo
  | BreakDelete _ => unit
  | VarUpdate _ => list MIVarUpdate
  | VarCreate _ _ _ => MIVarCreateResponse
  | StackInfoFrame _ _ => option string
  | StackInfoDepth _ => string
  end.

(** Modelled from the spec: a symbol of the symbol table (symbols.ts is
    not among the sources), [getGlobalVariables() -> [{name}]]. *)
Record SymbolInformation := mkSymbolInformation {
  symbol_name : string;
}.

(** What the session is given: the debugger ([execute] answers a
    command of [mi.send...] or fails it, [interrupt] is what
    [gdb.pause()] does to it), the symbol table, [path.normalize] and the
    methods inherited from the base adapter. *)
Class Environment (G : Type) := {
  execute : forall c : MICommand, G -> G * Result (Reply c);
  interrupt : G -> G;
  symbolTable_getGlobalVariables : list SymbolInformation;
  symbolTable_getStaticVariables : string -> list SymbolInformation;
  normalize : string -> string;
  super_stackTraceRequest : M G unit;
  handleVariableRequestFrame : Z -> M G (list Variable_);
  handleVariableRequestObject : option Z -> string -> M G (list Variable_);
}.

(** *** [varManager] *)

(** Modelled from the spec: the lookup of a tracked variable by
    (frameId, threadId, depth, displayName). *)
Definition getVar (key : VarKey) (expr : string)
           (m : gmap VarKey (list VarObjType)) : option VarObjType :=
  match m !! key with
  | Some vars => List.find (fun o => String.eqb (expression o) expr) vars
  | None => None
  end.

(** Modelled from the spec: the insertion of the answer of a create
    command into the cache under the key. *)
Definition addVar (key : VarKey) (expr : string) (isVar isChild : bool)
           (r : MIVarCreateResponse) (m : gmap VarKey (list VarObjType))
  : VarObjType * gmap VarKey (list VarObjType) :=
  let varobj := mkVarObjType (create_name r) expr (create_numchild r)
                             (create_value r) (create_type r) isVar isChild in
  (varobj, <[key := default [] (m !! key) ++ [varobj]]> m).

(** [global.value = v] on the object [getVar] returned: the cache holds
    that very object, the first of its list with the expression. *)
Fixpoint assignValue (expr : string) (v : option string)
         (vars : list VarObjType) : list VarObjType :=
  match vars with
  | [] => []
  | o :: rest =>
      if String.eqb (expression o) expr
      then setValue v o :: rest
      else o :: assignValue expr v rest
  end.

(** The cache after [global.value = v]. *)
Definition assignVarValue (key : VarKey) (expr : string) (v : option string)
           (m : gmap VarKey (list VarObjType)) : gmap VarKey (list VarObjType) :=
  match m !! key with
  | Some vars => <[key := assignValue expr v vars]> m
  | None => m
  end.

(** *** Breakpoint reconciliation: the pass over the installed table *)

(** [createActual], lines 169-175. *)
Definition createActual (breakpoint : MIBreakpointInfo) : Breakpoint :=
  mkBreakpoint
    (JS.parseInt (bkpt_number breakpoint))
    (if JS.truthy (bkpt_line breakpoint)
     then JS.parseIntOpt (bkpt_line breakpoint) else Some 0)
    true.

(** [vsbp.line === line] *)
Definition lineIs (line : JS.number) (vsbp : SourceBreakpoint) : bool :=
  bool_decide (Some (vsbp_line vsbp) = line).

(** [insertCond !== tableCond] *)
Definition condDiffers (gdbbp : MIBreakpointInfo) (vsbp : SourceBreakpoint)
  : bool :=
  let insertCond := JS.orUndefined (vsbp_condition vsbp) in
  let tableCond := JS.orUndefined (bkpt_cond gdbbp) in
  negb (bool_decide (insertCond = tableCond)).

(** The locals of the [try] block and the log-point table. *)
Record Reconciliation := mkReconciliation {
  inserts : list SourceBreakpoint;
  deletes : list string;
  actual : list Breakpoint;
  messages : gmap string string;
}.

(** [inserts.filter(vsbp => ...)], lines 188-206, with what its
    callback does to [actual] and to the log-point table on the entries
    it drops; [breakpoint] is what [breakpoints.find] returned. *)
Fixpoint filterInserts (gdbbp : MIBreakpointInfo) (line : JS.number)
         (breakpoint : option SourceBreakpoint)
         (todo : list SourceBreakpoint)
         (actual : list Breakpoint) (messages : gmap string string)
  : list SourceBreakpoint * list Breakpoint * gmap string string :=
  match todo with
  | [] => ([], actual, messages)
  | vsbp :: rest =>
      if negb (lineIs line vsbp) || condDiffers gdbbp vsbp
      then
        match filterInserts gdbbp line breakpoint rest actual messages with
        | (kept, actual, messages) => (vsbp :: kept, actual, messages)
        end
      else
        let actual := actual ++ [createActual gdbbp] in
        let messages :=
          match breakpoint with
          | Some b =>
              match vsbp_logMessage b with
              | Some msg =>
                  if JS.truthy (Some msg)
                  then <[bkpt_number gdbbp := msg]> messages
                  else messages
              | None => messages
              end
          | None => messages
          end in
        filterInserts gdbbp line breakpoint rest actual messages
  end.

(** The callback of [result.BreakpointTable.body.forEach], lines
    178-208. *)
Definition visit (file : string) (breakpoints : list SourceBreakpoint)
           (r : Reconciliation) (gdbbp : MIBreakpointInfo) : Reconciliation :=
  if bool_decide (bkpt_fullname gdbbp = Some file) && JS.truthy (bkpt_line gdbbp)
  then
    let line := JS.parseIntOpt (bkpt_line gdbbp) in
    let breakpoint := List.find (lineIs line) breakpoints in
    let deletes :=
      match breakpoint with
      | Some _ => deletes r
      | None => deletes r ++ [bkpt_number gdbbp]
      end in
    match filterInserts gdbbp line breakpoint (inserts r) (actual r) (messages r) with
    | (kept, actual, messages) => mkReconciliation kept deletes actual messages
    end
  else r.

(** From [let inserts = breakpoints.slice()] to the end of the
    [forEach]; [table] is the log-point table at that point. *)
Definition reconcile (file : string) (breakpoints : list SourceBreakpoint)
           (table : gmap string string) (body : list MIBreakpointInfo)
  : Reconciliation :=
  foldl (visit file breakpoints) (mkReconciliation breakpoints [] [] table) body.

(** *** The methods of the session *)

Section Methods.
Context {G : Type} `{!Environment G}.

(** [await mi.send...(this.gdb, ...)]: the command is recorded, and it
    returns the reply or throws. *)
Definition send (c : MICommand) : M G (Reply c) :=
  fun s =>
    match execute c (gdb s) with
    | (g, r) => (r, setGdb g s, [Command c])
    end.

(** [this.gdb.pause()] *)
Definition pause : M G unit :=
  fun s => (Ok tt, setGdb (interrupt (gdb s)) s, [PauseTarget]).

(** [this.frameHandles.create(value)] and
    [this.variableHandles.create(value)] *)
Definition frameHandles_create (value : FrameReference) : M G Z :=
  fun s =>
    match Handles_create value (frameHandles s) with
    | (h, t) => (Ok h, setFrameHandles t s, [])
    end.

Definition variableHandles_create (value : VariableReference) : M G Z :=
  fun s =>
    match Handles_create value (variableHandles s) with
    | (h, t) => (Ok h, setVariableHandles t s, [])
    end.

(** [stackTraceRequest], lines 109-120.  The promise of the base method
    is returned, not awaited, so the [catch] covers the allocation only,
    which does not throw. *)
Definition stackTraceRequest : M G unit :=
  h ← frameHandles_create (mkFrameReference (-1) (-1));
  modify (setGlobalHandle (Some h));;
  super_stackTraceRequest.

(** [scopesRequest], lines 122-141. *)
Definition scopesRequest (args_frameId : Z) : M G unit :=
  tryCatch
    (local ← variableHandles_create (FrameVariableReference args_frameId);
     sendResponse (ScopesBody [
       mkScope "Local" (Some local) false;
       mkScope "Global" (Some GLOBAL_HANDLE_ID) false;
       mkScope "Static"
               (JS.add (Some STATIC_HANDLES_START)
                       (JS.parseInt (JS.toString args_frameId)))
               false ]))
    (sendErrorResponse 1).

(** One turn of [for (const vsbp of inserts)] past the decoding of the
    hit condition, lines 225-235: the insertion, [actual.push] and the
    log point. *)
Definition insertOne (file : string) (vsbp : SourceBreakpoint)
           (temporary : bool) (ignoreCount : option Z)
           (actual : list Breakpoint) : M G (list Breakpoint) :=
  gdbbp ← send (BreakInsert
                  (mkMIBreakInsertOptions
                     (file +:+ ":" +:+ JS.toString (vsbp_line vsbp))
                     (vsbp_condition vsbp) temporary ignoreCount));
  match vsbp_logMessage vsbp with
  | Some msg =>
      when (JS.truthy (Some msg))
           (modify (fun s => setLogPointMessages
                               (<[bkpt_number gdbbp := msg]> (logPointMessages s)) s))
  | None => mret tt
  end;;
  mret (actual ++ [createActual gdbbp]).

(** [for (const vsbp of inserts) { ... }], lines 210-236; [continue] is
    the call on the rest without an insertion. *)
Fixpoint insertAll (file : string) (todo : list SourceBreakpoint)
         (actual : list Breakpoint) : M G (list Breakpoint) :=
  match todo with
  | [] => mret actual
  | vsbp :: rest =>
      match vsbp_hitCondition vsbp with
      | Some hitCondition =>
          (* Allow hit condition continuously above the count *)
          let temporary := negb (JS.startsWith ">" hitCondition) in
          match JS.parseInt (JS.removeAll ignoreCountRegex hitCondition) with
          | None =>
              sendEvent (OutputEvent
                           ("Unable to decode expression: " +:+ hitCondition));;
              insertAll file rest actual
          | Some ignoreCount =>
              actual ← insertOne file vsbp temporary (Some ignoreCount) actual;
              insertAll file rest actual
          end
      | None =>
          actual ← insertOne file vsbp false None actual;
          insertAll file rest actual
      end
  end.

(** The body of the [try] block of [setBreakPointsRequest], lines
    158-246. *)
Definition tryBody (args : SetBreakpointsArguments) : M G unit :=
  (* Need to get the list of current breakpoints in the file and then make sure
     that we end up with the requested set of breakpoints for that file
     deleting ones not requested and inserting new ones. *)
  let file := source_path args in
  let breakpoints := default [] (breakpoints args) in
  result ← send BreakList;
  s ← get;
  let r := reconcile file breakpoints (logPointMessages s) result in
  modify (setLogPointMessages (messages r));;
  actual ← insertAll file (inserts r) (actual r);
  when (bool_decide (deletes r ≠ []))
       (send (BreakDelete (deletes r)));;
  sendResponse (BreakpointsBody actual).

(** [setBreakPointsRequest], lines 143-254.  When the target runs it is
    paused first and the method waits for [waitPaused] to be called; the
    stop that calls it is a step of [handleGDBStopped] of its own, and
    the method is taken up here where it goes on after it. *)
Definition setBreakPointsRequest (args : SetBreakpointsArguments) : M G unit :=
  s ← get;
  let neededPause := isRunning s in
  when neededPause (modify (setWaitPaused true);; pause);;
  (* Reset logPoint messages *)
  modify (setLogPointMessages ∅);;
  tryCatch (tryBody args) (sendErrorResponse 1);;
  when neededPause (unawaited (send ExecContinue)).

(** The two helpers of [handleGDBStopped], lines 257-260. *)
Definition getThreadId (resultData : StopResult) : JS.number :=
  JS.parseIntOpt (stop_thread_id resultData).

Definition getAllThreadsStopped (resultData : StopResult) : bool :=
  JS.truthy (stop_stopped_threads resultData)
  && bool_decide (stop_stopped_threads resultData = Some "all").

(** [sendStoppedEvent] of the base adapter: a stopped event with the
    reason, the thread and whether all threads stopped. *)
Definition sendStoppedEvent (reason : string) (threadId : JS.number)
           (allThreadsStopped : bool) : M G unit :=
  sendEvent (StoppedEvent reason threadId allThreadsStopped).

(** The key [result.bkptno] indexes the table with. *)
Definition bkptnoKey (result : StopResult) : string :=
  default "undefined" (stop_bkptno result).

(** [handleGDBStopped], lines 256-289. *)
Definition handleGDBStopped (result : StopResult) : M G unit :=
  let reason := stop_reason result in
  if String.eqb reason "exited" || String.eqb reason "exited-normally" then
    sendEvent TerminatedEvent
  else if String.eqb reason "breakpoint-hit" then
    s ← get;
    match logPointMessages s !! bkptnoKey result with
    | Some message =>
        if JS.truthy (Some message) then
          sendEvent (OutputEvent message);;
          unawaited (send ExecContinue)
        else
          sendStoppedEvent "breakpoint" (getThreadId result)
                           (getAllThreadsStopped result)
    | None =>
        sendStoppedEvent "breakpoint" (getThreadId result)
                         (getAllThreadsStopped result)
    end
  else if String.eqb reason "end-stepping-range"
          || String.eqb reason "function-finished" then
    sendStoppedEvent "step" (getThreadId result) (getAllThreadsStopped result)
  else if String.eqb reason "signal-received" then
    let name :=
      if JS.truthy (stop_signal_name result)
      then default "signal" (stop_signal_name result) else "signal" in
    sendStoppedEvent name (getThreadId result) (getAllThreadsStopped result);;
    s ← get;
    when (waitPaused s) (perform ResolveWaitPaused)
  else
    sendStoppedEvent "generic" (getThreadId result) (getAllThreadsStopped result).

(** The [return] statement of [getVariables], lines 485-496: the handle
    for the children, then the answer. *)
Definition answer (expr : string) (global : VarObjType) : M G Variable_ :=
  variablesReference ←
    match JS.parseInt (numchild global) with
    | Some n =>
        if 0 <? n then
          s ← get;
          variableHandles_create
            (ObjectVariableReference (globalHandle s) (varname global))
        else mret 0
    | None => mret 0
    end;
  mret (mkVariable expr (default "<unknown>" (value global))
                   (type global) variablesReference).

(** [getVariables], lines 464-497; [frame] is what [frameHandles.get]
    returned, and reading a property of [undefined] throws. *)
Definition getVariables (frame : option FrameReference) (name : string)
           (expr : string) (depth : JS.number) : M G Variable_ :=
  match frame with
  | None => throw "Cannot read property 'frameId' of undefined"
  | Some frame =>
      let key : VarKey := (frameId frame, threadId frame, depth) in
      s ← get;
      global ←
        match getVar key name (variableMap s) with
        | Some global =>
            (* Update value if it is already loaded *)
            changelist ← send (VarUpdate name);
            match changelist with
            | update :: _ =>
                if String.eqb (update_in_scope update) "true"
                   && String.eqb (update_name update) (varname global)
                then
                  modify (fun s => setVariableMap
                            (assignVarValue key name (update_value update)
                                            (variableMap s)) s);;
                  mret (setValue (update_value update) global)
                else mret global
            | [] => mret global
            end
        | None =>
            (* create var in GDB and store it in the varMgr *)
            varCreateResponse ← send (VarCreate name "current" expr);
            s ← get;
            match addVar key name true false varCreateResponse (variableMap s) with
            | (varobj, m) => modify (setVariableMap m);; mret varobj
            end
        end;
      answer expr global
  end.

(** [for (const symbol of symbolInfo) { ...; variables.push(variable) }] *)
Fixpoint forSymbols (body : SymbolInformation -> M G Variable_)
         (symbolInfo : list SymbolInformation) : M G (list Variable_) :=
  match symbolInfo with
  | [] => mret []
  | symbol :: rest =>
      variable ← body symbol;
      variables ← forSymbols body rest;
      mret (variable :: variables)
  end.

(** [getGlobalVariables], lines 430-442. *)
Definition getGlobalVariables (frameHandle : option Z) : M G (list Variable_) :=
  s ← get;
  let frame := h ← frameHandle; Handles_get h (frameHandles s) in
  forSymbols
    (fun symbol =>
       getVariables frame ("global_var_" +:+ symbol_name symbol)
                    (symbol_name symbol) (Some (-1)))
    symbolTable_getGlobalVariables.

(** [getStaticVariables], lines 444-462. *)
Definition getStaticVariables (frameHandle : Z) : M G (list Variable_) :=
  s ← get;
  match Handles_get frameHandle (frameHandles s) with
  | None => throw "Cannot read property 'threadId' of undefined"
  | Some frame =>
      result_frame_file ← send (StackInfoFrame (threadId frame) (frameId frame));
      let file :=
        normalize (if JS.truthy result_frame_file
                   then default "" result_frame_file else "") in
      let symbolInfo := symbolTable_getStaticVariables file in
      (* Fetch stack depth to obtain frameId/threadId/depth tuple *)
      stackDepth ← send (StackInfoDepth 100);
      let depth := JS.parseInt stackDepth in
      forSymbols
        (fun symbol =>
           getVariables (Some frame)
                        (file +:+ "_static_var_" +:+ symbol_name symbol)
                        (symbol_name symbol) depth)
        symbolInfo
  end.

(** [variablesRequest], lines 291-318. *)
Definition variablesRequest (args_variablesReference : Z) : M G unit :=
  tryCatch
    (s ← get;
     let ref := Handles_get args_variablesReference (variableHandles s) in
     variables ←
       (if args_variablesReference =? GLOBAL_HANDLE_ID then
          (* Use hardcoded global handle to load and store global variables *)
          getGlobalVariables (globalHandle s)
        else if (STATIC_HANDLES_START <=? args_variablesReference)
                && (args_variablesReference <=? STATIC_HANDLES_FINISH) then
          (* Use STATIC_HANDLES_START to shift the framehandles back *)
          let frameHandle := args_variablesReference - STATIC_HANDLES_START in
          getStaticVariables frameHandle
        else
          match ref with
          | Some (FrameVariableReference frameHandle) =>
              (* List variables for current frame *)
              handleVariableRequestFrame frameHandle
          | Some (ObjectVariableReference frameHandle varobjName) =>
              (* List data under any variable *)
              handleVariableRequestObject frameHandle varobjName
          | None => mret []
          end);
     sendResponse (VariablesBody variables))
    (sendErrorResponse 1).

(** The Static branch of [variablesRequest], and its branches through
    the handle table, each as [variablesRequest] runs it. *)
Definition staticBranch (frameHandle : Z) : M G unit :=
  tryCatch
    (variables ← getStaticVariables frameHandle;
     sendResponse (VariablesBody variables))
    (sendErrorResponse 1).

Definition tableBranch (variablesReference : Z) : M G unit :=
  tryCatch
    (s ← get;
     variables ←
       match Handles_get variablesReference (variableHandles s) with
       | Some (FrameVariableReference frameHandle) =>
           handleVariableRequestFrame frameHandle
       | Some (ObjectVariableReference frameHandle varobjName) =>
           handleVariableRequestObject frameHandle varobjName
       | None => mret []
       end;
     sendResponse (VariablesBody variables))
    (sendErrorResponse 1).

(** A breakpoint id has a registered log-point message: the table of
    the session is one a reconciliation pass left, and holds the
    message under the id. *)
Definition registered (s : Session G) (id message : string) : Prop :=
  (exists args s0,
      logPointMessages s = logPointMessages (setBreakPointsRequest args s0).1.2)
  /\ logPointMessages s !! id = Some message.

End Methods.

(** The value a reply to [-var-update] reports for the cached variable
    [global]: that of the first entry of its change list, when the entry
    is in scope and carries the cached backend name. *)
Definition reportedValue (reply : Result (list MIVarUpdate)) (global : VarObjType)
  : option (option string) :=
  match reply with
  | Ok (update :: _) =>
      if String.eqb (update_in_scope update) "true"
         && String.eqb (update_name update) (varname global)
      then Some (update_value update) else None
  | _ => None
  end.

(** *** The vocabulary of the statements about breakpoints *)

(** The guard of the [forEach] callback: the entry is of the file and
    has a line. *)
Definition inFile (file : string) (gdbbp : MIBreakpointInfo) : bool :=
  bool_decide (bkpt_fullname gdbbp = Some file) && JS.truthy (bkpt_line gdbbp).

(** The installed entry and the desired one have the same line and the
    same condition, an absent condition and an empty one being equal:
    what makes the [filter] callback drop the desired entry. *)
Definition matches (gdbbp : MIBreakpointInfo) (vsbp : SourceBreakpoint) : bool :=
  lineIs (JS.parseIntOpt (bkpt_line gdbbp)) vsbp && negb (condDiffers gdbbp vsbp).

(** The line and condition an installed entry is compared by. *)
Definition installedKey (gdbbp : MIBreakpointInfo) : JS.number * option string :=
  (JS.parseIntOpt (bkpt_line gdbbp), JS.orUndefined (bkpt_cond gdbbp)).

(** What the loop makes of a hit condition: [temporary] and
    [ignoreCount], or nothing when the condition does not decode. *)
Definition decodeHitCondition (hitCondition : option string)
  : option (bool * option Z) :=
  match hitCondition with
  | Some hc =>
      match JS.parseInt (JS.removeAll ignoreCountRegex hc) with
      | Some n => Some (negb (JS.startsWith ">" hc), Some n)
      | None => None
      end
  | None => Some (false, None)
  end.

(** The options the loop inserts a desired breakpoint with. *)
Definition insertOptions (file : string) (vsbp : SourceBreakpoint)
           (temporary : bool) (ignoreCount : option Z) : MIBreakInsertOptions :=
  mkMIBreakInsertOptions (file +:+ ":" +:+ JS.toString (vsbp_line vsbp))
                         (vsbp_condition vsbp) temporary ignoreCount.

(** A text of white space only. *)
Fixpoint isBlank (s : string) : bool :=
  match s with
  | EmptyString => true
  | String c s' => JS.isWhiteSpace c && isBlank s'
  end.

(** A desired breakpoint is at the line of the installed entry. *)
Definition lineTaken (breakpoints : list SourceBreakpoint)
           (gdbbp : MIBreakpointInfo) : bool :=
  existsb (lineIs (JS.parseIntOpt (bkpt_line gdbbp))) breakpoints.

(** No installed entry of the file matches the desired breakpoint. *)
Definition unmatched (file : string) (body : list MIBreakpointInfo)
           (vsbp : SourceBreakpoint) : bool :=
  forallb (fun j => negb (inFile file j && matches j vsbp)) body.

(** The first entry of a table that is of the file and has the line
    and condition of a desired breakpoint. *)
Definition firstMatch (file : string) (body : list MIBreakpointInfo)
           (vsbp : SourceBreakpoint) : option MIBreakpointInfo :=
  List.find (fun j => inFile file j && matches j vsbp) body.

(** What the insertion loop may do: insert, or report a hit condition. *)
Definition loopAction (a : Action) : Prop :=
  match a with
  | Command (BreakInsert _) => True
  | SendEvent (OutputEvent _) => True
  | _ => False
  end.

(** Every message of a log-point table is a non-empty text. *)
Definition truthyMessages (m : gmap string string) : Prop :=
  forall k v, m !! k = Some v -> JS.truthy (Some v) = true.

Section Vocabulary.
Context {G : Type} `{!Environment G}.

(** The session as the [try] block of [setBreakPointsRequest] finds
    it: paused if it ran, the log-point table reset. *)
Definition atTry (s : Session G) : Session G :=
  setLogPointMessages ∅
    (if isRunning s
     then setGdb (interrupt (gdb s)) (setWaitPaused true s)
     else s).

(** What [insertOne] does to the log-point table once the debugger
    has answered with [gdbbp]. *)
Definition registerLogPoint (vsbp : SourceBreakpoint) (gdbbp : MIBreakpointInfo)
           (s : Session G) : Session G :=
  match vsbp_logMessage vsbp with
  | Some msg =>
      if JS.truthy (Some msg)
      then setLogPointMessages (<[bkpt_number gdbbp := msg]> (logPointMessages s)) s
      else s
  | None => s
  end.

(** A method keeps a property of the session, however it ends. *)
Definition preserves (P : Session G -> Prop) {A} (m : M G A) : Prop :=
  forall s, P s -> P (m s).1.2.

Definition tableOk (s : Session G) : Prop := truthyMessages (logPointMessages s).

End Vocabulary.

(** *** A debugger that keeps its table *)

(** Modelled from the spec: the installed breakpoints are owned by the
    backend debugger, which the reconciler only observes and mutates
    through commands.  The laws of such a debugger towards its table:
    listing answers the table; an insertion at [file:line] appends one
    entry for that place under an unused number; a deletion removes the
    numbers named; nothing else, and no failed command, changes the
    table. *)
Class Debugger (G : Type) `{!Environment G} := {
  installed : G -> list MIBreakpointInfo;
  interrupt_keeps : forall g, installed (interrupt g) = installed g;
  continue_keeps : forall g, installed (execute ExecContinue g).1 = installed g;
  list_answers : forall g,
      (execute BreakList g).2 = Ok (installed g)
      /\ installed (execute BreakList g).1 = installed g;
  insert_appends : forall file line cond temporary ignoreCount g,
      match execute (BreakInsert
                       (mkMIBreakInsertOptions (file +:+ ":" +:+ JS.toString line)
                                               cond temporary ignoreCount)) g with
      | (g', Ok b) =>
          installed g' = installed g ++ [b]
          /\ bkpt_fullname b = Some file
          /\ bkpt_line b = Some (JS.toString line)
          /\ bkpt_cond b = cond
          /\ bkpt_number b ∉ map bkpt_number (installed g)
      | (g', Throw _) => installed g' = installed g
      end;
  delete_removes : forall ids g,
      match execute (BreakDelete ids) g with
      | (g', Ok _) =>
          installed g'
          = List.filter (fun b => negb (bool_decide (bkpt_number b ∈ ids))) (installed g)
      | (g', Throw _) => installed g' = installed g
      end;
}.

(** *** Reading the actions *)

(** The commands sent to the debugger, in order. *)
Definition commandsOf (acts : list Action) : list MICommand :=
  omap (fun a => match a with Command c => Some c | _ => None end) acts.

(** The events sent to the front end, in order. *)
Definition eventsOf (acts : list Action) : list Event :=
  omap (fun a => match a with SendEvent e => Some e | _ => None end) acts.

Definition isBreakInsert (c : MICommand) : bool :=
  match c with BreakInsert _ => true | _ => false end.

Definition isBreakDelete (c : MICommand) : bool :=
  match c with BreakDelete _ => true | _ => false end.

Definition isStoppedEvent (e : Event) : bool :=
  match e with StoppedEvent _ _ _ => true | _ => false end.

(** *** Reading the answers *)

(** The answer to a request: its response or its error response. *)
Definition isAnswer (a : Action) : bool :=
  match a with
  | SendResponse _ | SendErrorResponse _ _ => true
  | _ => false
  end.

Definition answersOf (acts : list Action) : list Action := List.filter isAnswer acts.

(** The installed entries of the file that the pass deletes: those at
    a line no desired breakpoint is at. *)
Definition stale (file : string) (breakpoints : list SourceBreakpoint)
           (body : list MIBreakpointInfo) : list MIBreakpointInfo :=
  List.filter (fun j => inFile file j && negb (lineTaken breakpoints j)) body.

(** The variable has children: [parseInt(global.numchild, 10) > 0]. *)
Definition hasChildren (global : VarObjType) : bool :=
  match JS.parseInt (numchild global) with
  | Some n => 0 <? n
  | None => false
  end.

(** A handle outside the two reserved ranges, which [variablesRequest]
    therefore takes through the handle table. *)
Definition unreserved (handle : Z) : Prop :=
  handle <> GLOBAL_HANDLE_ID
  /\ ~ (STATIC_HANDLES_START <= handle <= STATIC_HANDLES_FINISH).

Section Branches.
Context {G : Type} `{!Environment G}.

(** The frame and the object branch of [variablesRequest], lines
    306-311, each as [variablesRequest] runs it. *)
Definition frameBranch (frameHandle : Z) : M G unit :=
  tryCatch
    (variables ← handleVariableRequestFrame frameHandle;
     sendResponse (VariablesBody variables))
    (sendErrorResponse 1).

Definition objectBranch (frameHandle : option Z) (varobjName : string) : M G unit :=
  tryCatch
    (variables ← handleVariableRequestObject frameHandle varobjName;
     sendResponse (VariablesBody variables))
    (sendErrorResponse 1).

(** The Global branch of [variablesRequest], lines 299-301, as
    [variablesRequest] runs it. *)
Definition globalBranch : M G unit :=
  tryCatch
    (s ← get;
     variables ← getGlobalVariables (globalHandle s);
     sendResponse (VariablesBody variables))
    (sendErrorResponse 1).


(** [`global_var_${symbol.name}`] and [`${file}_static_var_${symbol.name}`]
    (lines 436 and 456). *)
Definition globalName (name : string) : string := "global_var_" +:+ name.

End Branches.

End CmsisDebugSession.

(** ** A reference debugger

    A small debugger for the far side of the machine interface: it owns
    the table of installed breakpoints, a set of variable objects and the
    values of the target.  The session is run against it where a concrete
    debugger is needed. *)

Module ReferenceDebugger.
Import CmsisDebugSession.

(** Modelled from the spec: the state of the backend debugger, the
    installed breakpoints, the values of the target by expression, the
    tracked variables (expression and value last reported), and the file
    and depth of the current frame. *)
Record Gdb := mkGdb {
  table : list MIBreakpointInfo;
  memory : gmap string string;
  varobjs : gmap string (string * option string);
  currentFile : option string;
  stackDepth : string;
}.

Definition setTable (t : list MIBreakpointInfo) (g : Gdb) : Gdb :=
  mkGdb t (memory g) (varobjs g) (currentFile g) (stackDepth g).

Definition setVarobjs (v : gmap string (string * option string)) (g : Gdb) : Gdb :=
  mkGdb (table g) (memory g) v (currentFile g) (stackDepth g).

(** The number of the next breakpoint: one above every number in use. *)
Definition freshNumber (t : list MIBreakpointInfo) : Z :=
  foldr (fun b n => match JS.parseInt (bkpt_number b) with
                    | Some k => Z.max (k + 1) n
                    | None => n
                    end) 1 t.

(** [-break-insert]: the location is read as [file:line], split at its
    last colon. *)
Definition breakInsert (o : MIBreakInsertOptions) (g : Gdb)
  : Gdb * Result MIBreakpointInfo :=
  match JS.lastIndexOf ":"%char (location o) with
  | Some i =>
      let b := mkMIBreakpointInfo
                 (JS.toString (freshNumber (table g)))
                 (Some (JS.substring 0 i (location o)))
                 (Some (JS.substringFrom (i + 1) (location o)))
                 (condition o) in
      (setTable (table g ++ [b]) g, Ok b)
  | None => (g, Throw "Function not defined")
  end.

(** [-break-delete] *)
Definition breakDelete (ids : list string) (g : Gdb) : Gdb * Result unit :=
  (setTable (List.filter (fun b => negb (bool_decide (bkpt_number b ∈ ids)))
                         (table g)) g,
   Ok tt).

(** [-var-create]: the object remembers the value it last reported. *)
Definition varCreate (name expr : string) (g : Gdb)
  : Gdb * Result MIVarCreateResponse :=
  match varobjs g !! name with
  | Some _ => (g, Throw "Duplicate variable object name")
  | None =>
      let v := memory g !! expr in
      (setVarobjs (<[name := (expr, v)]> (varobjs g)) g,
       Ok (mkMIVarCreateResponse name "0" v "int"))
  end.

(** [-var-update]: the change list holds the object when its value
    differs from the one last reported. *)
Definition varUpdate (name : string) (g : Gdb) : Gdb * Result (list MIVarUpdate) :=
  match varobjs g !! name with
  | None => (g, Throw "Variable object not found")
  | Some (expr, last) =>
      let v := memory g !! expr in
      if bool_decide (v = last) then (g, Ok [])
      else (setVarobjs (<[name := (expr, v)]> (varobjs g)) g,
            Ok [mkMIVarUpdate name v "true"])
  end.

(** The answer to each command. *)
Definition run (c : MICommand) : Gdb -> Gdb * Result (Reply c) :=
  match c with
  | ExecContinue => fun g => (g, Ok tt)
  | BreakList => fun g => (g, Ok (table g))
  | BreakInsert o => breakInsert o
  | BreakDelete ids => breakDelete ids
  | VarUpdate name => varUpdate name
  | VarCreate name _ expr => varCreate name expr
  | StackInfoFrame _ _ => fun g => (g, Ok (currentFile g))
  | StackInfoDepth _ => fun g => (g, Ok (stackDepth g))
  end.

(** The session's surroundings with this debugger, no symbols and a
    base adapter that lists nothing. *)
Global Instance environment : Environment Gdb := {
  execute := run;
  interrupt := fun g => g;
  symbolTable_getGlobalVariables := [];
  symbolTable_getStaticVariables := fun _ => [];
  normalize := fun file => file;
  super_stackTraceRequest := ret tt;
  handleVariableRequestFrame := fun _ => ret [];
  handleVariableRequestObject := fun _ _ => ret [];
}.

Definition emptyGdb : Gdb := mkGdb [] ∅ ∅ None "0".

Definition newSession (g : Gdb) : Session Gdb :=
  mkSession g false false ∅ None Handles_new Handles_new ∅.

(** *** Sample tables, requests and sessions *)

Definition at10 : MIBreakpointInfo :=
  mkMIBreakpointInfo "1" (Some "main.c") (Some "10") None.
Definition at10again : MIBreakpointInfo :=
  mkMIBreakpointInfo "2" (Some "main.c") (Some "10") None.
Definition at20when : MIBreakpointInfo :=
  mkMIBreakpointInfo "2" (Some "main.c") (Some "20") (Some "x>1").
Definition elsewhere : MIBreakpointInfo :=
  mkMIBreakpointInfo "3" (Some "util.c") (Some "10") None.
Definition at10when : MIBreakpointInfo :=
  mkMIBreakpointInfo "1" (Some "main.c") (Some "10") (Some "x").
Definition at10whenY : MIBreakpointInfo :=
  mkMIBreakpointInfo "2" (Some "main.c") (Some "10") (Some "y").

(** A session that has just attached to a debugger with this table. *)
Definition debugging (table : list MIBreakpointInfo) : Session Gdb :=
  newSession (mkGdb table ∅ ∅ None "0").

(** A set-breakpoints request for main.c. *)
Definition request (desired : list SourceBreakpoint) : SetBreakpointsArguments :=
  mkSetBreakpointsArguments "main.c" (Some desired).

Definition line10 : SourceBreakpoint := mkSourceBreakpoint 10 None None None.
Definition line10empty : SourceBreakpoint := mkSourceBreakpoint 10 (Some "") None None.
Definition line20when : SourceBreakpoint :=
  mkSourceBreakpoint 20 (Some "x>1") None None.
Definition line10whenY : SourceBreakpoint :=
  mkSourceBreakpoint 10 (Some "y") None None.
Definition line10whenYabc : SourceBreakpoint :=
  mkSourceBreakpoint 10 (Some "y") (Some "abc") None.
Definition line10hit7 : SourceBreakpoint := mkSourceBreakpoint 10 None (Some "7") None.
Definition line20above7 : SourceBreakpoint :=
  mkSourceBreakpoint 20 None (Some "> 7") None.
Definition line10hit3abc : SourceBreakpoint :=
  mkSourceBreakpoint 10 None (Some "3abc") None.
Definition line10hitabc : SourceBreakpoint :=
  mkSourceBreakpoint 10 None (Some "abc") None.
Definition logpoint20 : SourceBreakpoint :=
  mkSourceBreakpoint 20 None None (Some "tick").

(** The session after the log point at line 20 was set, and the
    notification that breakpoint 1 was hit. *)
Definition logging : Session Gdb :=
  (setBreakPointsRequest (request [logpoint20]) (debugging [])).1.2.
Definition hit1 : StopResult :=
  mkStopResult "breakpoint-hit" (Some "1") (Some "1") (Some "all") None.

(** The global [counter]: a target where it is 1, the session once the
    variable is cached, and that session after the target counted on. *)
Definition pseudoFrame : FrameReference := mkFrameReference (-1) (-1).
Definition counterKey : VarKey := (-1, -1, Some (-1)).
Definition counting : Session Gdb :=
  newSession (mkGdb [] {[ "counter" := "1" ]} ∅ None "0").
Definition counted : Session Gdb :=
  (getVariables (Some pseudoFrame) "global_var_counter" "counter" (Some (-1)) counting).1.2.
Definition countedOn : Session Gdb :=
  setGdb (mkGdb [] {[ "counter" := "2" ]} (varobjs (gdb counted)) None "0") counted.
Definition cachedCounter : VarObjType :=
  mkVarObjType "global_var_counter" "global_var_counter" "0" (Some "1") "int" true false.

(** *** Other surroundings *)

(** A debugger that has lost its connection: every command fails. *)
Definition disconnected : Environment Gdb := {|
  execute := fun c g => (g, Throw "Not connected");
  interrupt := fun g => g;
  symbolTable_getGlobalVariables := [];
  symbolTable_getStaticVariables := fun _ => [];
  normalize := fun file => file;
  super_stackTraceRequest := ret tt;
  handleVariableRequestFrame := fun _ => ret [];
  handleVariableRequestObject := fun _ _ => ret [];
|}.

(** A request for another file. *)
Definition requestIn (file : string) (desired : list SourceBreakpoint)
  : SetBreakpointsArguments :=
  mkSetBreakpointsArguments file (Some desired).

(** The reference debugger with symbols: one global, [counter], and one
    static of main.c, [ticks]. *)
Definition symbolic : Environment Gdb := {|
  execute := run;
  interrupt := fun g => g;
  symbolTable_getGlobalVariables := [mkSymbolInformation "counter"];
  symbolTable_getStaticVariables :=
    fun file => if String.eqb file "main.c" then [mkSymbolInformation "ticks"] else [];
  normalize := fun file => file;
  super_stackTraceRequest := ret tt;
  handleVariableRequestFrame := fun _ => ret [];
  handleVariableRequestObject := fun _ _ => ret [];
|}.

(** A target stopped in main.c at depth 2, a session attached to it,
    and that session after a stack trace. *)
Definition stopped : Session Gdb :=
  newSession (mkGdb [] {[ "counter" := "1"; "ticks" := "5" ]} ∅ (Some "main.c") "2").
Definition traced : Session Gdb := (@stackTraceRequest Gdb symbolic stopped).1.2.


End ReferenceDebugger.

(** * Properties *)

Module JSFacts.
Import JS.

Lemma append_nil (s : string) : EmptyString +:+ s = s.
Proof. reflexivity. Qed.

Lemma append_cons a (s t : string) : String a s +:+ t = String a (s +:+ t).
Proof. reflexivity. Qed.

Lemma append_assoc (a b c : string) : (a +:+ b) +:+ c = a +:+ (b +:+ c).
Proof.
  induction a as [|x a IH]; [done |].
  rewrite !append_cons. by rewrite IH.
Qed.

Lemma lastIndexOf_None_cons c a s :
  lastIndexOf c (String a s) = None <-> a <> c /\ lastIndexOf c s = None.
Proof.
  simpl. destruct (lastIndexOf c s) as [i|].
  - split; [done | intros [_ ?]; done].
  - destruct (Ascii.eqb_spec a c); split; try done; intros [? _]; done.
Qed.

(** The text splits around the last occurrence of [c]. *)
Lemma lastIndexOf_Some c s e :
  lastIndexOf c s = Some e ->
  s = substring 0 e s +:+ String c (substringFrom (e + 1) s)
  /\ lastIndexOf c (substringFrom (e + 1) s) = None.
Proof.
  revert e. induction s as [|a s IH]; intros e; simpl; [done |].
  destruct (lastIndexOf c s) as [i|] eqn:Hi.
  - intros [= <-]. destruct (IH i eq_refl) as [Hs Hr].
    unfold substring in *. rewrite Nat.sub_0_r in *. simpl.
    rewrite append_cons. split; [by rewrite <- Hs | done].
  - destruct (Ascii.eqb_spec a c) as [->|]; [|done].
    intros [= <-]. unfold substring. simpl. split; [|done].
    by destruct s.
Qed.

(** Conversely, a text with [c] and none after it has its last [c] there. *)
Lemma lastIndexOf_app c (pre rest : string) :
  lastIndexOf c rest = None ->
  lastIndexOf c (pre +:+ String c rest) = Some (String.length pre).
Proof.
  intros Hr. induction pre as [|a pre IH].
  - rewrite append_nil. simpl. rewrite Hr. by rewrite Ascii.eqb_refl.
  - rewrite append_cons. simpl. by rewrite IH.
Qed.

Lemma substring_app_l (pre rest : string) :
  substring 0 (String.length pre) (pre +:+ rest) = pre.
Proof.
  unfold substring. rewrite Nat.sub_0_r.
  induction pre as [|a pre IH]; [by destruct rest |].
  rewrite append_cons. simpl. by rewrite IH.
Qed.

Lemma substringFrom_app (pre : string) c (rest : string) :
  substringFrom (String.length pre + 1) (pre +:+ String c rest) = rest.
Proof. induction pre as [|a pre IH]; [done |]. rewrite append_cons. apply IH. Qed.

(** **** Decimal digits *)

Lemma digit_cases (d : N) :
  (d < 10)%N ->
  d = 0%N \/ d = 1%N \/ d = 2%N \/ d = 3%N \/ d = 4%N \/ d = 5%N
  \/ d = 6%N \/ d = 7%N \/ d = 8%N \/ d = 9%N.
Proof. lia. Qed.

Ltac each_digit d H :=
  destruct (digit_cases d H) as [->|[->|[->|[->|[->|[->|[->|[->|[->| ->]]]]]]]]].

Lemma digitValue_pretty (d : N) :
  (d < 10)%N -> digitValue (pretty_N_char d) = Some (Z.of_N d).
Proof. intros H. each_digit d H; reflexivity. Qed.

Lemma parseInt_digit (d : N) (rest : string) :
  (d < 10)%N ->
  parseInt (String (pretty_N_char d) rest)
  = Some (1 * parseDigits 0 (String (pretty_N_char d) rest)).
Proof. intros H. each_digit d H; reflexivity. Qed.

Lemma parseInt_minus_digit (d : N) (rest : string) :
  (d < 10)%N ->
  parseInt (String "-"%char (String (pretty_N_char d) rest))
  = Some (-1 * parseDigits 0 (String (pretty_N_char d) rest)).
Proof. intros H. each_digit d H; reflexivity. Qed.

(** The digits [pretty_N_go] writes in front of [s] are read back onto
    the accumulator. *)
Lemma parseDigits_pretty_N_go (x : N) :
  (0 < x)%N ->
  exists k, 0 <= k /\ forall s acc,
    parseDigits acc (pretty_N_go x s) = parseDigits (acc * 10 ^ k + Z.of_N x) s.
Proof.
  induction x as [x IH] using (well_founded_induction N.lt_wf_0). intros Hx.
  assert (Hd : (x `mod` 10 < 10)%N) by (apply N.mod_lt; lia).
  assert (Hdiv : Z.of_N x = Z.of_N (x `div` 10) * 10 + Z.of_N (x `mod` 10)).
  { rewrite (N.div_mod x 10) at 1 by lia. lia. }
  destruct (decide (x `div` 10 = 0)%N) as [Hz|Hnz].
  - exists 1. split; [lia |]. intros s acc.
    rewrite pretty_N_go_step by done. rewrite Hz, pretty_N_go_0. simpl.
    rewrite digitValue_pretty by done. f_equal. rewrite Hz in Hdiv.
    rewrite Z.pow_1_r, Hdiv. simpl. done.
  - destruct (IH (x `div` 10)%N) as (k & Hk & Hgo).
    { apply N.div_lt; lia. }
    { lia. }
    exists (k + 1). split; [lia |]. intros s acc.
    rewrite pretty_N_go_step by done. rewrite Hgo. simpl.
    rewrite digitValue_pretty by done. f_equal.
    rewrite Z.pow_add_r, Z.pow_1_r, Hdiv by lia.
    generalize (Z.of_N (x `div` 10)) (Z.of_N (x `mod` 10)) (10 ^ k). intros; lia.
Qed.

Lemma pretty_N_go_head (x : N) (s : string) :
  (0 < x)%N ->
  exists d rest, (d < 10)%N /\ pretty_N_go x s = String (pretty_N_char d) rest.
Proof.
  revert s. induction x as [x IH] using (well_founded_induction N.lt_wf_0).
  intros s Hx. rewrite pretty_N_go_step by done.
  destruct (decide (x `div` 10 = 0)%N) as [Hz|Hnz].
  - rewrite Hz, pretty_N_go_0. exists (x `mod` 10)%N, s.
    split; [apply N.mod_lt; lia | done].
  - apply IH; [apply N.div_lt; lia | by apply N.neq_0_lt_0].
Qed.

Lemma parseInt_pretty_positive (p : positive) :
  parseInt (pretty (N.pos p)) = Some (Z.pos p)
  /\ parseInt ("-" +:+ pretty (N.pos p)) = Some (Z.neg p).
Proof.
  unfold pretty, pretty_N. rewrite decide_False by done.
  destruct (pretty_N_go_head (N.pos p) "") as (d & rest & Hd & Hhead); [lia |].
  destruct (parseDigits_pretty_N_go (N.pos p)) as (k & _ & Hgo); [lia |].
  specialize (Hgo "" 0). simpl in Hgo.
  split.
  - rewrite Hhead, parseInt_digit by done. rewrite <- Hhead, Hgo. f_equal.
  - rewrite Hhead. change ("-" +:+ String (pretty_N_char d) rest)
      with (String "-"%char (String (pretty_N_char d) rest)).
    rewrite parseInt_minus_digit by done. rewrite <- Hhead, Hgo. f_equal.
Qed.

(** [parseInt(String(n), 10)] is [n]. *)
Lemma parseInt_toString (n : Z) : parseInt (toString n) = Some n.
Proof.
  unfold toString. destruct n as [|p|p].
  - reflexivity.
  - apply parseInt_pretty_positive.
  - apply parseInt_pretty_positive.
Qed.

(** The text of an integer holds no colon and is not empty. *)
Lemma pretty_N_go_no_colon (x : N) (s : string) :
  lastIndexOf ":"%char s = None -> lastIndexOf ":"%char (pretty_N_go x s) = None.
Proof.
  revert s. induction x as [x IH] using (well_founded_induction N.lt_wf_0).
  intros s Hs. destruct (decide (0 < x)%N) as [Hx|Hx].
  - rewrite pretty_N_go_step by done. apply IH; [apply N.div_lt; lia |].
    apply lastIndexOf_None_cons. split; [|done].
    assert (Hd : (x `mod` 10 < 10)%N) by (apply N.mod_lt; lia).
    each_digit (x `mod` 10)%N Hd; done.
  - assert (x = 0%N) as -> by lia. by rewrite pretty_N_go_0.
Qed.

Lemma toString_no_colon (n : Z) : lastIndexOf ":"%char (toString n) = None.
Proof.
  unfold toString. destruct n as [|p|p]; [done | |].
  - unfold pretty, pretty_Z, pretty, pretty_positive, pretty, pretty_N.
    rewrite decide_False by done. by apply pretty_N_go_no_colon.
  - unfold pretty, pretty_Z, pretty, pretty_positive, pretty, pretty_N.
    rewrite decide_False by done.
    change (lastIndexOf ":"%char (String "-"%char (pretty_N_go (N.pos p) "")) = None).
    apply lastIndexOf_None_cons. split; [done |]. by apply pretty_N_go_no_colon.
Qed.

Lemma toString_truthy (n : Z) : truthy (Some (toString n)) = true.
Proof.
  unfold toString. destruct n as [|p|p]; [done | |].
  - unfold pretty, pretty_Z, pretty, pretty_positive, pretty, pretty_N.
    rewrite decide_False by done.
    destruct (pretty_N_go_head (N.pos p) "") as (d & rest & _ & ->); [lia | done].
  - done.
Qed.

End JSFacts.

Module ReferenceDebuggerFacts.
Import CmsisDebugSession ReferenceDebugger.

Lemma freshNumber_above (t : list MIBreakpointInfo) (b : MIBreakpointInfo) (k : Z) :
  b ∈ t -> JS.parseInt (bkpt_number b) = Some k -> k < freshNumber t.
Proof.
  induction t as [|x t IH]; intros Hb Hk; [by apply elem_of_nil in Hb |].
  apply elem_of_cons in Hb as [<-|Hb]; simpl.
  - rewrite Hk. lia.
  - specialize (IH Hb Hk). destruct (JS.parseInt (bkpt_number x)); lia.
Qed.

Lemma freshNumber_fresh (t : list MIBreakpointInfo) :
  JS.toString (freshNumber t) ∉ map bkpt_number t.
Proof.
  intros Hin. apply list_elem_of_fmap in Hin as (b & Heq & Hb).
  pose proof (freshNumber_above t b (freshNumber t) Hb) as Hlt.
  rewrite <- Heq, JSFacts.parseInt_toString in Hlt. specialize (Hlt eq_refl). lia.
Qed.

(** The reference debugger obeys the laws of [Debugger]. *)
Lemma lawful : Debugger Gdb.
Proof.
  refine {| installed := table |}.
  - done.
  - done.
  - done.
  - intros file line cond temporary ignoreCount g.
    change (execute (BreakInsert ?o) g) with (breakInsert o g).
    unfold breakInsert. cbn [location condition].
    change (file +:+ ":" +:+ JS.toString line)
      with (file +:+ String ":"%char (JS.toString line)).
    rewrite (JSFacts.lastIndexOf_app ":"%char file (JS.toString line))
      by apply JSFacts.toString_no_colon.
    rewrite JSFacts.substring_app_l, JSFacts.substringFrom_app.
    repeat split. apply freshNumber_fresh.
  - intros ids g. done.
Defined.

Global Existing Instance lawful.

End ReferenceDebuggerFacts.

Module AbstractServerSpec.
Import AbstractServer.

Lemma resolutions_app l1 l2 : resolutions (l1 ++ l2) = resolutions l1 ++ resolutions l2.
Proof. apply omap_app. Qed.

Lemma clearedTimers_app l1 l2 :
  clearedTimers (l1 ++ l2) = clearedTimers l1 ++ clearedTimers l2.
Proof. apply omap_app. Qed.

Lemma dataEvents_app l1 l2 : dataEvents (l1 ++ l2) = dataEvents l1 ++ dataEvents l2.
Proof. apply omap_app. Qed.

Section Supervisor.
Context `{ConcreteServer} `{ErrorListeners}.

(** What [handleData] adds to the log, case by case. *)
Lemma handleData_log data s :
  log (handleData data s)
  = log s
    ++ match launchResolve s with
       | Some p =>
           if serverStarted data
           then match timer s with Some t => [ClearTimeout t] | None => [] end
                ++ [LaunchResolve p]
           else []
       | None => []
       end
    ++ (if serverError data then [EmitError (JS.splitHead EOL data)] else []).
Proof.
  unfold handleData, clearTimer.
  destruct (launchResolve s) as [p|], (serverStarted data), (timer s) as [t|],
    (serverError data); simpl; rewrite <- ?app_assoc, ?app_nil_r; done.
Qed.

Lemma handleData_buffers data s :
  outBuffer (handleData data s) = outBuffer s
  /\ errBuffer (handleData data s) = errBuffer s.
Proof.
  unfold handleData, clearTimer.
  destruct (launchResolve s), (serverStarted data), (timer s), (serverError data); done.
Qed.

(** A line that does not announce the start leaves the promise and the
    timer as they are. *)
Lemma handleData_not_started data s :
  serverStarted data = false ->
  launchResolve (handleData data s) = launchResolve s
  /\ timer (handleData data s) = timer s
  /\ resolutions (log (handleData data s)) = resolutions (log s)
  /\ clearedTimers (log (handleData data s)) = clearedTimers (log s).
Proof.
  intros Hno. rewrite handleData_log. unfold handleData. rewrite Hno.
  destruct (launchResolve s) eqn:Hp, (serverError data); simpl;
    rewrite ?app_nil_r, ?resolutions_app, ?clearedTimers_app; simpl;
    rewrite ?app_nil_r; done.
Qed.

(** Once the promise is gone no line resolves anything. *)
Lemma handleData_settled data s :
  launchResolve s = None ->
  launchResolve (handleData data s) = None
  /\ timer (handleData data s) = timer s
  /\ resolutions (log (handleData data s)) = resolutions (log s)
  /\ clearedTimers (log (handleData data s)) = clearedTimers (log s).
Proof.
  intros Hnone. rewrite handleData_log. unfold handleData. rewrite Hnone.
  destruct (serverError data); simpl;
    rewrite ?app_nil_r, ?resolutions_app, ?clearedTimers_app; simpl;
    rewrite ?app_nil_r; done.
Qed.

(** The line that announces the start resolves the pending promise,
    clears the timer and forgets the promise. *)
Lemma handleData_started data s p :
  launchResolve s = Some p -> serverStarted data = true ->
  launchResolve (handleData data s) = None
  /\ launchReject (handleData data s) = None
  /\ timer (handleData data s) = None
  /\ resolutions (log (handleData data s)) = resolutions (log s) ++ [p]
  /\ clearedTimers (log (handleData data s))
     = clearedTimers (log s) ++ match timer s with Some t => [t] | None => [] end.
Proof.
  intros Hp Hyes. rewrite handleData_log. unfold handleData, clearTimer.
  rewrite Hp, Hyes.
  destruct (timer s) eqn:Ht, (serverError data); simpl;
    rewrite ?resolutions_app, ?clearedTimers_app; simpl;
    rewrite ?app_nil_r; done.
Qed.

Lemma feed_app l1 l2 s : feed (l1 ++ l2) s = feed l2 (feed l1 s).
Proof. unfold feed. apply foldl_app. Qed.

Lemma feed_not_started lines s :
  Forall (fun l => serverStarted l = false) lines ->
  launchResolve (feed lines s) = launchResolve s
  /\ timer (feed lines s) = timer s
  /\ resolutions (log (feed lines s)) = resolutions (log s)
  /\ clearedTimers (log (feed lines s)) = clearedTimers (log s).
Proof.
  intros Hall. revert s. induction Hall as [|l lines Hl _ IH]; intros s; [done |].
  change (feed (l :: lines) s) with (feed lines (handleData l s)).
  destruct (IH (handleData l s)) as (-> & -> & -> & ->).
  by apply handleData_not_started.
Qed.

Lemma feed_settled lines s :
  launchResolve s = None ->
  launchResolve (feed lines s) = None
  /\ timer (feed lines s) = timer s
  /\ resolutions (log (feed lines s)) = resolutions (log s)
  /\ clearedTimers (log (feed lines s)) = clearedTimers (log s).
Proof.
  revert s. induction lines as [|l lines IH]; intros s Hnone; [done |].
  change (feed (l :: lines) s) with (feed lines (handleData l s)).
  destruct (handleData_settled l s Hnone) as (Hn & Ht & Hr & Hc).
  destruct (IH (handleData l s) Hn) as (-> & -> & -> & ->). done.
Qed.

(** C6. While a start promise [p] is pending, feeding lines of which
    [line] is the first that [serverStarted] accepts: the lines before
    it resolve nothing; [line] resolves [p] and clears the startup
    timer; and over the whole sequence [p] is resolved exactly once,
    whatever the later lines [post] are, also when they match. *)
Theorem start_resolved_exactly_once (pre post : list string) (line : string)
        (s : Server) (p : nat) :
  launchResolve s = Some p ->
  Forall (fun l => serverStarted l = false) pre ->
  serverStarted line = true ->
  resolutions (log (feed pre s)) = resolutions (log s)
  /\ resolutions (log (feed (pre ++ [line]) s)) = resolutions (log s) ++ [p]
  /\ clearedTimers (log (feed (pre ++ [line]) s))
     = clearedTimers (log s) ++ match timer s with Some t => [t] | None => [] end
  /\ timer (feed (pre ++ [line]) s) = None
  /\ launchResolve (feed (pre ++ [line]) s) = None
  /\ resolutions (log (feed (pre ++ line :: post) s)) = resolutions (log s) ++ [p]
  /\ timer (feed (pre ++ line :: post) s) = None.
Proof.
  intros Hp Hpre Hline.
  destruct (feed_not_started pre s Hpre) as (Hp1 & Ht1 & Hr1 & Hc1).
  rewrite Hp in Hp1.
  destruct (handleData_started line (feed pre s) p Hp1 Hline)
    as (Hp2 & _ & Ht2 & Hr2 & Hc2).
  rewrite Hr1 in Hr2. rewrite Hc1, Ht1 in Hc2.
  assert (Hone : feed (pre ++ [line]) s = handleData line (feed pre s))
    by (by rewrite feed_app).
  assert (Hall : feed (pre ++ line :: post) s
                 = feed post (handleData line (feed pre s))).
  { by rewrite feed_app. }
  destruct (feed_settled post _ Hp2) as (_ & Ht3 & Hr3 & _).
  rewrite Hone, Hall, Hr3, Ht3. done.
Qed.

(** C7, as the code has it. The [exit] event is emitted first; an
    exit code that is a number other than zero adds exactly one
    [error] event after it; a zero, null or undefined code adds none. *)
Theorem onExit_exit_then_error (signal : option string) (s : Server) :
  (forall n,
      log (onExit (CodeNumber n) signal s)
      = log s ++ EmitExit (CodeNumber n) signal
               :: (if n =? 0 then []
                   else [EmitError ("GDB server stopped unexpectedly with exit code "
                                     +:+ JS.toString n)]))
  /\ log (onExit CodeNull signal s) = log s ++ [EmitExit CodeNull signal]
  /\ log (onExit CodeUndefined signal s) = log s ++ [EmitExit CodeUndefined signal].
Proof.
  split; [|done]. intros n. unfold onExit. simpl.
  destruct (n =? 0); simpl; [done |]. by rewrite <- app_assoc.
Qed.

Lemma handleData_dataEvents data s :
  dataEvents (log (handleData data s)) = dataEvents (log s).
Proof.
  rewrite handleData_log.
  destruct (launchResolve s), (serverStarted data), (timer s), (serverError data);
    rewrite !dataEvents_app; simpl; rewrite ?app_nil_r; done.
Qed.

Lemma buffer_setBuffer event b s : buffer event (setBuffer event b s) = b.
Proof. by destruct event. Qed.

Lemma buffer_handleData event data s :
  buffer event (handleData data s) = buffer event s.
Proof. destruct event; simpl; apply handleData_buffers. Qed.

Lemma buffer_emit event e s : buffer event (emit e s) = buffer event s.
Proof. by destruct event. Qed.

Lemma log_setBuffer event b s : log (setBuffer event b s) = log s.
Proof. by destruct event. Qed.

(** C8, as the code has it. A chunk is appended to the buffer of its
    stream. When the buffer then reads [data], a newline, and a [rest]
    without newline, all of [data] (every complete line, the newlines
    between them included) goes out as one event and into one call of
    [handleData]. When [handleData] returns ([data] is no server
    error, or the listeners of the [error] event return), [rest] alone
    stays in the buffer; when it throws ([data] is a server error and
    the listeners do not return), nothing is removed and the buffer
    keeps [data], the newline and [rest]. When the buffer holds
    no newline nothing is emitted and the buffer keeps the appended
    text. *)
Theorem onData_drains_to_last_newline (chunk : string) (event : Stream)
        (s : Server) :
  (forall data rest,
      buffer event s +:+ chunk = data +:+ String JS.LF rest ->
      JS.lastIndexOf JS.LF rest = None ->
      dataEvents (log (onData chunk event s))
      = dataEvents (log s) ++ [(event, data)]
      /\ log (onData chunk event s)
         = log (handleData data
                  (emit (EmitData event data)
                        (setBuffer event (buffer event s +:+ chunk) s)))
      /\ (serverError data = false
          \/ errorListenersReturn (JS.splitHead EOL data) = true ->
          onData chunk event s
          = setBuffer event rest
              (handleData data
                 (emit (EmitData event data)
                       (setBuffer event (buffer event s +:+ chunk) s)))
          /\ buffer event (onData chunk event s) = rest)
      /\ (serverError data = true ->
          errorListenersReturn (JS.splitHead EOL data) = false ->
          onData chunk event s
          = handleData data
              (emit (EmitData event data)
                    (setBuffer event (buffer event s +:+ chunk) s))
          /\ buffer event (onData chunk event s)
             = data +:+ String JS.LF rest))
  /\ (JS.lastIndexOf JS.LF (buffer event s +:+ chunk) = None ->
      onData chunk event s = setBuffer event (buffer event s +:+ chunk) s).
Proof.
  split.
  - intros data rest Hsplit Hrest.
    assert (Hrun : onData chunk event s
                   = let s' := handleData data
                                 (emit (EmitData event data)
                                    (setBuffer event (buffer event s +:+ chunk) s)) in
                     if handleDataThrows data then s' else setBuffer event rest s').
    { unfold onData. rewrite buffer_setBuffer, Hsplit.
      rewrite (JSFacts.lastIndexOf_app _ _ _ Hrest).
      rewrite JSFacts.substring_app_l.
      rewrite buffer_handleData, buffer_emit, buffer_setBuffer.
      rewrite JSFacts.substringFrom_app. rewrite <- Hsplit. done. }
    rewrite Hrun. cbv zeta. unfold handleDataThrows.
    destruct (serverError data) eqn:Herror,
      (errorListenersReturn (JS.splitHead EOL data)) eqn:Hreturn; simpl;
      rewrite ?log_setBuffer;
      (split; [rewrite handleData_dataEvents; simpl;
               rewrite dataEvents_app, log_setBuffer; done |]);
      (split; [done |]).
    + split; [| done]. intros _. split; [done | apply buffer_setBuffer].
    + split; [by intros [?|?] |]. intros _ _. split; [done |].
      rewrite buffer_handleData, buffer_emit, buffer_setBuffer. done.
    + split; [| done]. intros _. split; [done | apply buffer_setBuffer].
    + split; [| done]. intros _. split; [done | apply buffer_setBuffer].
  - intros Hnone. unfold onData. rewrite buffer_setBuffer, Hnone. done.
Qed.

End Supervisor.

(** A server that boots, announces its start and announces it again:
    the promise is resolved once. *)
Lemma start_resolved_exactly_once_example :
  (launchResolve (starting 1 7) = Some 1%nat
   /\ Forall (fun l => serverStarted (ConcreteServer := exampleServer) l = false) bootLines
   /\ serverStarted (ConcreteServer := exampleServer) banner = true)
  /\ resolutions (log (feed (H := exampleServer) (bootLines ++ banner :: laterLines)
                            (starting 1 7)))
     = [1%nat].
Proof.
  assert (H1 : launchResolve (starting 1 7) = Some 1%nat) by reflexivity.
  assert (H2 : Forall (fun l => serverStarted (ConcreteServer := exampleServer) l = false)
                      bootLines).
  { repeat constructor. }
  assert (H3 : serverStarted (ConcreteServer := exampleServer) banner = true)
    by reflexivity.
  split; [done |].
  apply (@start_resolved_exactly_once exampleServer bootLines laterLines banner
           (starting 1 7) 1%nat H1 H2 H3).
Defined.

(** C7 as the specification words it fails: for exit code 1 the log
    reads [exit] then [error], and no [error] is logged ahead of an
    [exit]. *)
Lemma onExit_error_not_before_exit :
  log (onExit (CodeNumber 1) None idle)
  = [EmitExit (CodeNumber 1) None;
     EmitError "GDB server stopped unexpectedly with exit code 1"]
  /\ ~ loggedBefore isError isExit (log (onExit (CodeNumber 1) None idle)).
Proof.
  split; [reflexivity |].
  intros (l1 & a & l2 & b & l3 & Hlog & Ha & Hb).
  change (log (onExit (CodeNumber 1) None idle))
    with [EmitExit (CodeNumber 1) None;
          EmitError "GDB server stopped unexpectedly with exit code 1"] in Hlog.
  destruct l1 as [|x [|y l1]]; simpl in Hlog.
  - injection Hlog as <- _. discriminate Ha.
  - injection Hlog as _ _ Hnil. by destruct l2.
  - injection Hlog as _ _ Hnil. by destruct l1.
Qed.

(** C8 as the specification words it fails: a chunk with two complete
    lines yields one event holding both, not one event per line. *)
Lemma onData_two_lines_one_event :
  spec_completeLines "" twoLinesAndMore = ["a"; "b"]
  /\ dataEvents (log (onData (H := exampleServer) (H0 := sessionListeners)
                              twoLinesAndMore stdout idle))
     = [(stdout, "a" +:+ String JS.LF "b")]
  /\ dataEvents (log (onData (H := exampleServer) (H0 := sessionListeners)
                              twoLinesAndMore stdout idle))
     <> map (pair stdout) (spec_completeLines "" twoLinesAndMore)
  /\ outBuffer (onData (H := exampleServer) (H0 := sessionListeners)
                       twoLinesAndMore stdout idle) = "c".
Proof. vm_compute. repeat split; discriminate. Qed.

(** Under the listener of the debug session: two clean lines go out
    and leave the partial line; an error line goes out, is reported,
    and stays in the buffer with what follows it. *)
Lemma onData_drains_to_last_newline_example :
  ((buffer stdout idle +:+ twoLinesAndMore
    = ("a" +:+ String JS.LF "b") +:+ String JS.LF "c"
    /\ JS.lastIndexOf JS.LF "c" = None
    /\ serverError (ConcreteServer := exampleServer) ("a" +:+ String JS.LF "b") = false)
   /\ dataEvents (log (onData (H := exampleServer) (H0 := sessionListeners)
                               twoLinesAndMore stdout idle))
      = [(stdout, "a" +:+ String JS.LF "b")]
   /\ buffer stdout (onData (H := exampleServer) (H0 := sessionListeners)
                            twoLinesAndMore stdout idle) = "c")
  /\ ((buffer stdout idle +:+ errorLineAndMore
       = ":ERROR: no probe" +:+ String JS.LF "c"
       /\ serverError (ConcreteServer := exampleServer) ":ERROR: no probe" = true
       /\ errorListenersReturn (ErrorListeners := sessionListeners)
            (JS.splitHead (EOL (ConcreteServer := exampleServer)) ":ERROR: no probe")
          = false)
      /\ log (onData (H := exampleServer) (H0 := sessionListeners)
                     errorLineAndMore stdout idle)
         = [EmitData stdout ":ERROR: no probe"; EmitError ":ERROR: no probe"]
      /\ buffer stdout (onData (H := exampleServer) (H0 := sessionListeners)
                               errorLineAndMore stdout idle)
         = ":ERROR: no probe" +:+ String JS.LF "c").
Proof.
  assert (H1 : buffer stdout idle +:+ twoLinesAndMore
               = ("a" +:+ String JS.LF "b") +:+ String JS.LF "c") by reflexivity.
  assert (H2 : JS.lastIndexOf JS.LF "c" = None) by reflexivity.
  assert (H3 : serverError (ConcreteServer := exampleServer)
                 ("a" +:+ String JS.LF "b") = false) by reflexivity.
  assert (H4 : buffer stdout idle +:+ errorLineAndMore
               = ":ERROR: no probe" +:+ String JS.LF "c") by reflexivity.
  assert (H5 : serverError (ConcreteServer := exampleServer) ":ERROR: no probe" = true)
    by reflexivity.
  assert (H6 : errorListenersReturn (ErrorListeners := sessionListeners)
                 (JS.splitHead (EOL (ConcreteServer := exampleServer)) ":ERROR: no probe")
               = false) by reflexivity.
  split.
  - split; [done |].
    destruct (proj1 (@onData_drains_to_last_newline exampleServer sessionListeners
                       twoLinesAndMore stdout idle) _ _ H1 H2)
      as (Hevents & _ & Hreturns & _).
    split; [exact Hevents | exact (proj2 (Hreturns (or_introl H3)))].
  - split; [done |].
    destruct (proj1 (@onData_drains_to_last_newline exampleServer sessionListeners
                       errorLineAndMore stdout idle) _ _ H4 H2)
      as (_ & Hlog & _ & Hthrows).
    split; [exact Hlog | exact (proj2 (Hthrows H5 H6))].
Defined.

End AbstractServerSpec.

Module ScopesSpec.
Import CmsisDebugSession.

Section Handles.
Context {G : Type} `{!Environment G}.

Lemma bind_get {A} (f : Session G -> M G A) (s : Session G) :
  (get ≫= f) s = f s s.
Proof.
  unfold mbind, M_bind, bind, get. by destruct (f s s) as [[r s2] acts].
Qed.

(** The scopes of a frame: the response is always sent, and the Static
    handle is the sum, whatever the frame id. *)
Lemma scopesRequest_run (frameId : Z) (s : Session G) :
  scopesRequest frameId s
  = (Ok tt,
     setVariableHandles (Handles_create (FrameVariableReference frameId)
                                        (variableHandles s)).2 s,
     [SendResponse (ScopesBody [
        mkScope "Local" (Some (nextHandle (variableHandles s))) false;
        mkScope "Global" (Some GLOBAL_HANDLE_ID) false;
        mkScope "Static" (Some (STATIC_HANDLES_START + frameId)) false ])]).
Proof.
  unfold scopesRequest. rewrite JSFacts.parseInt_toString. reflexivity.
Qed.

Lemma variablesRequest_static (h : Z) (s : Session G) :
  STATIC_HANDLES_START <= h <= STATIC_HANDLES_FINISH ->
  variablesRequest h s = staticBranch (h - STATIC_HANDLES_START) s.
Proof.
  intros Hr. unfold variablesRequest, staticBranch, tryCatch.
  rewrite bind_get.
  assert ((h =? GLOBAL_HANDLE_ID) = false) as ->.
  { apply Z.eqb_neq. unfold GLOBAL_HANDLE_ID, STATIC_HANDLES_START in *. lia. }
  assert ((STATIC_HANDLES_START <=? h) && (h <=? STATIC_HANDLES_FINISH) = true) as ->.
  { apply andb_true_iff. split; apply Z.leb_le; lia. }
  reflexivity.
Qed.

Lemma variablesRequest_table (h : Z) (s : Session G) :
  STATIC_HANDLES_FINISH < h ->
  variablesRequest h s = tableBranch h s.
Proof.
  intros Hr. unfold variablesRequest, tableBranch, tryCatch.
  rewrite !bind_get.
  assert ((h =? GLOBAL_HANDLE_ID) = false) as ->.
  { apply Z.eqb_neq. unfold GLOBAL_HANDLE_ID, STATIC_HANDLES_FINISH in *. lia. }
  assert ((STATIC_HANDLES_START <=? h) && (h <=? STATIC_HANDLES_FINISH) = false) as ->.
  { apply andb_false_iff. right. apply Z.leb_gt. lia. }
  reflexivity.
Qed.

(** C4. For a frame handle below 0x10000 (handles are not negative)
    the Static scope that [scopesRequest] answers has the handle
    [STATIC_HANDLES_START + frameHandle]; that handle lies in
    [0x010000, 0x01FFFF]; [variablesRequest] on it lists the statics
    of exactly [frameHandle]; and the encoding is one-to-one and onto
    that range. *)
Theorem static_handle_round_trip (frameHandle : Z) (s s' : Session G) :
  0 <= frameHandle < 0x10000 ->
  (scopesRequest frameHandle s).2
  = [SendResponse (ScopesBody [
       mkScope "Local" (Some (nextHandle (variableHandles s))) false;
       mkScope "Global" (Some GLOBAL_HANDLE_ID) false;
       mkScope "Static" (Some (STATIC_HANDLES_START + frameHandle)) false ])]
  /\ 0x010000 <= STATIC_HANDLES_START + frameHandle <= 0x01FFFF
  /\ variablesRequest (STATIC_HANDLES_START + frameHandle) s'
     = staticBranch frameHandle s'
  /\ (forall other, 0 <= other < 0x10000 ->
        STATIC_HANDLES_START + other = STATIC_HANDLES_START + frameHandle ->
        other = frameHandle)
  /\ (forall h, 0x010000 <= h <= 0x01FFFF ->
        0 <= h - STATIC_HANDLES_START < 0x10000
        /\ STATIC_HANDLES_START + (h - STATIC_HANDLES_START) = h).
Proof.
  intros Hr. split; [by rewrite scopesRequest_run |].
  split; [unfold STATIC_HANDLES_START; lia |].
  split.
  - rewrite variablesRequest_static
      by (unfold STATIC_HANDLES_START, STATIC_HANDLES_FINISH; lia).
    f_equal. lia.
  - split; [intros; lia |]. unfold STATIC_HANDLES_START. intros; lia.
Qed.

(** C10. [scopesRequest] adds the frame id to [STATIC_HANDLES_START]
    without a bound check.  For a frame id of 0x10000 or more the
    Static handle it answers is above [STATIC_HANDLES_FINISH]; the
    handle is inside the static range exactly when the frame id is
    below 0x10000; and [variablesRequest] takes such a handle through
    the handle table, never to [getStaticVariables]. *)
Theorem static_handle_out_of_range (frameId : Z) (s s' : Session G) :
  0x10000 <= frameId ->
  (scopesRequest frameId s).2
  = [SendResponse (ScopesBody [
       mkScope "Local" (Some (nextHandle (variableHandles s))) false;
       mkScope "Global" (Some GLOBAL_HANDLE_ID) false;
       mkScope "Static" (Some (STATIC_HANDLES_START + frameId)) false ])]
  /\ STATIC_HANDLES_FINISH < STATIC_HANDLES_START + frameId
  /\ STATIC_HANDLES_START + frameId <> GLOBAL_HANDLE_ID
  /\ (forall other, 0 <= other ->
        (STATIC_HANDLES_START <= STATIC_HANDLES_START + other <= STATIC_HANDLES_FINISH
         <-> other < 0x10000))
  /\ variablesRequest (STATIC_HANDLES_START + frameId) s'
     = tableBranch (STATIC_HANDLES_START + frameId) s'.
Proof.
  intros Hr. split; [by rewrite scopesRequest_run |].
  assert (Hout : STATIC_HANDLES_FINISH < STATIC_HANDLES_START + frameId)
    by (unfold STATIC_HANDLES_START, STATIC_HANDLES_FINISH; lia).
  split; [done |].
  split; [unfold STATIC_HANDLES_START, GLOBAL_HANDLE_ID; lia |].
  split; [|by apply variablesRequest_table].
  intros other Ho. unfold STATIC_HANDLES_START, STATIC_HANDLES_FINISH. lia.
Qed.

End Handles.

Import ReferenceDebugger.

Lemma static_handle_round_trip_example :
  (0 <= 1000 < 0x10000)
  /\ variablesRequest (STATIC_HANDLES_START + 1000) (debugging [])
     = staticBranch 1000 (debugging []).
Proof.
  assert (H : 0 <= 1000 < 0x10000) by lia.
  split; [exact H |].
  apply (static_handle_round_trip 1000 (debugging []) (debugging []) H).
Defined.

Lemma static_handle_out_of_range_example :
  (0x10000 <= 0x10000)
  /\ STATIC_HANDLES_FINISH < STATIC_HANDLES_START + 0x10000
  /\ variablesRequest (STATIC_HANDLES_START + 0x10000) (debugging [])
     = tableBranch (STATIC_HANDLES_START + 0x10000) (debugging []).
Proof.
  assert (H : 0x10000 <= 0x10000) by lia.
  split; [exact H |].
  pose proof (static_handle_out_of_range 0x10000 (debugging []) (debugging []) H)
    as (_ & Hout & _ & _ & Htable).
  split; [exact Hout | exact Htable].
Defined.

End ScopesSpec.

Module StopSpec.
Import CmsisDebugSession.

Lemma truthyMessages_empty : truthyMessages ∅.
Proof. intros k v. by rewrite lookup_empty. Qed.

Lemma truthyMessages_insert k v (m : gmap string string) :
  JS.truthy (Some v) = true -> truthyMessages m -> truthyMessages (<[k := v]> m).
Proof.
  intros Hv Hm k' v'. rewrite lookup_insert.
  case_decide; [by intros [= <-] | apply Hm].
Qed.

Lemma filterInserts_messages gdbbp line breakpoint todo actual messages :
  truthyMessages messages ->
  truthyMessages (filterInserts gdbbp line breakpoint todo actual messages).2.
Proof.
  revert actual messages. induction todo as [|vsbp rest IH]; intros actual messages Hm; [exact Hm |].
  simpl. destruct (negb (lineIs line vsbp) || condDiffers gdbbp vsbp).
  - specialize (IH actual messages Hm).
    destruct (filterInserts gdbbp line breakpoint rest actual messages) as [[??]?].
    exact IH.
  - apply IH. destruct breakpoint as [b|]; [|done].
    destruct (vsbp_logMessage b) as [[|c msg]|]; [done | | done].
    by apply truthyMessages_insert.
Qed.

Lemma visit_messages file breakpoints r gdbbp :
  truthyMessages (messages r) -> truthyMessages (messages (visit file breakpoints r gdbbp)).
Proof.
  intros Hm. unfold visit.
  destruct (bool_decide _ && _); [|done].
  pose proof (filterInserts_messages gdbbp (JS.parseIntOpt (bkpt_line gdbbp))
                (List.find (lineIs (JS.parseIntOpt (bkpt_line gdbbp))) breakpoints)
                (inserts r) (actual r) (messages r) Hm) as H.
  destruct (filterInserts _ _ _ _ _ _) as [[??]?]. exact H.
Qed.

Lemma reconcile_messages file breakpoints table body :
  truthyMessages table -> truthyMessages (messages (reconcile file breakpoints table body)).
Proof.
  intros Hm. unfold reconcile.
  assert (Hr : truthyMessages (messages (mkReconciliation breakpoints [] [] table))) by done.
  revert Hr. generalize (mkReconciliation breakpoints [] [] table).
  induction body as [|gdbbp body IH]; intros r Hr; [done |].
  simpl. apply IH. by apply visit_messages.
Qed.

Section Invariant.
Context {G : Type} `{!Environment G}.

Lemma preserves_ret P {A} (a : A) : preserves P (mret a : M G A).
Proof. by intros s. Qed.

Lemma preserves_bind P {A B} (m : M G A) (f : A -> M G B) :
  preserves P m -> (forall a, preserves P (f a)) -> preserves P (m ≫= f).
Proof.
  intros Hm Hf s Hs. specialize (Hm s Hs).
  unfold mbind, M_bind, bind. destruct (m s) as [[[a|e] s1] acts1]; [|done].
  specialize (Hf a s1 Hm). by destruct (f a s1) as [[r s2] acts2].
Qed.

Lemma preserves_tryCatch P {A} (m : M G A) (h : string -> M G A) :
  preserves P m -> (forall e, preserves P (h e)) -> preserves P (tryCatch m h).
Proof.
  intros Hm Hh s Hs. specialize (Hm s Hs).
  unfold tryCatch. destruct (m s) as [[[a|e] s1] acts1]; [done |].
  specialize (Hh e s1 Hm). by destruct (h e s1) as [[r s2] acts2].
Qed.

Lemma preserves_unawaited P {A} (m : M G A) :
  preserves P m -> preserves P (unawaited m).
Proof.
  intros Hm s Hs. specialize (Hm s Hs). unfold unawaited.
  by destruct (m s) as [[r s1] acts1].
Qed.

Lemma preserves_when P b (m : M G unit) : preserves P m -> preserves P (when b m).
Proof. intros Hm. destruct b; [done | by intros s]. Qed.

Lemma preserves_perform P a : preserves P (perform a : M G unit).
Proof. by intros s. Qed.

Lemma preserves_get P : preserves P (get : M G (Session G)).
Proof. by intros s. Qed.

Lemma preserves_bind_get P {A} (f : Session G -> M G A) :
  (forall s, P s -> P (f s s).1.2) -> preserves P (get ≫= f).
Proof. intros Hf s Hs. rewrite ScopesSpec.bind_get. by apply Hf. Qed.

Lemma preserves_modify P (f : Session G -> Session G) :
  (forall s, P s -> P (f s)) -> preserves P (modify f).
Proof. intros Hf s Hs. by apply Hf. Qed.

Lemma preserves_send c : preserves tableOk (send c).
Proof. intros s Hs. unfold send. by destruct (execute c (gdb s)) as [g r]. Qed.

Lemma insertOne_tableOk file vsbp temporary ignoreCount actual :
  preserves tableOk (insertOne file vsbp temporary ignoreCount actual).
Proof.
  unfold insertOne. apply preserves_bind; [apply (preserves_send (BreakInsert _)) |]. intros gdbbp.
  apply preserves_bind; [|intros; apply preserves_ret].
  destruct (vsbp_logMessage vsbp) as [msg|]; [|apply preserves_ret].
  destruct (JS.truthy (Some msg)) eqn:Ht; [|apply preserves_ret].
  apply preserves_modify. intros s Hs. by apply truthyMessages_insert.
Qed.

Lemma insertAll_tableOk file todo actual :
  preserves tableOk (insertAll file todo actual).
Proof.
  revert actual. induction todo as [|vsbp rest IH]; intros actual; [apply preserves_ret |].
  simpl. destruct (vsbp_hitCondition vsbp) as [hc|].
  - destruct (JS.parseInt _) as [n|].
    + apply preserves_bind; [apply insertOne_tableOk | intros; apply IH].
    + apply preserves_bind; [apply preserves_perform | intros; apply IH].
  - apply preserves_bind; [apply insertOne_tableOk | intros; apply IH].
Qed.

(** Whatever the session was, a reconciliation pass leaves a table
    whose messages are all non-empty. *)
Lemma setBreakPointsRequest_tableOk args s :
  tableOk (setBreakPointsRequest args s).1.2.
Proof.
  unfold setBreakPointsRequest. rewrite ScopesSpec.bind_get.
  set (rest := (modify (setLogPointMessages ∅) ≫= _)).
  assert (Hrest : forall s1, tableOk (rest s1).1.2).
  { intros s1. unfold rest. unfold mbind at 1, M_bind at 1, bind at 1. simpl.
    match goal with |- tableOk (match ?m ?s with _ => _ end).1.2 =>
      assert (Hk : preserves tableOk m); [| specialize (Hk s truthyMessages_empty);
                                           destruct (m s) as [[??]?]; exact Hk] end.
    apply preserves_bind.
    - apply preserves_tryCatch; [|intros; apply preserves_perform].
      apply preserves_bind; [apply (preserves_send BreakList) |]. intros result.
      apply preserves_bind_get. intros s2 Hs2.
      match goal with |- tableOk (?m s2).1.2 =>
        assert (Hk : preserves tableOk m); [| exact (Hk s2 Hs2)] end.
      apply preserves_bind.
      { apply preserves_modify. intros s3 _. by apply reconcile_messages. }
      intros _. apply preserves_bind; [apply insertAll_tableOk |]. intros actual.
      apply preserves_bind; [|intros; apply preserves_perform].
      apply preserves_when, (preserves_send (BreakDelete _)).
    - intros. apply preserves_when, preserves_unawaited, (preserves_send ExecContinue). }
  unfold mbind at 1, M_bind at 1, bind at 1.
  destruct (isRunning s); simpl.
  - specialize (Hrest (setGdb (interrupt (gdb (setWaitPaused true s))) (setWaitPaused true s))).
    destruct (rest _) as [[??]?]. exact Hrest.
  - specialize (Hrest s). destruct (rest s) as [[??]?]. exact Hrest.
Qed.

(** C3. A breakpoint-hit notification whose id has a registered
    log-point message: the message goes out as an output event, one
    exec-continue is issued (unawaited), and nothing else happens; in
    particular no stopped event is sent. *)
Theorem logpoint_hit_resumes (result : StopResult) (message : string)
        (s : Session G) :
  stop_reason result = "breakpoint-hit" ->
  registered s (bkptnoKey result) message ->
  handleGDBStopped result s
  = (Ok tt, setGdb (execute ExecContinue (gdb s)).1 s,
     [SendEvent (OutputEvent message); Command ExecContinue])
  /\ eventsOf (handleGDBStopped result s).2 = [OutputEvent message]
  /\ commandsOf (handleGDBStopped result s).2 = [ExecContinue]
  /\ List.filter isStoppedEvent (eventsOf (handleGDBStopped result s).2) = [].
Proof.
  intros Hreason [(args & s0 & Htable) Hlookup].
  assert (Htruthy : JS.truthy (Some message) = true).
  { pose proof (setBreakPointsRequest_tableOk args s0) as Hok.
    unfold tableOk in Hok. rewrite <- Htable in Hok. by apply (Hok _ _ Hlookup). }
  assert (Hrun : handleGDBStopped result s
                 = (Ok tt, setGdb (execute ExecContinue (gdb s)).1 s,
                    [SendEvent (OutputEvent message); Command ExecContinue])).
  { unfold handleGDBStopped. rewrite Hreason.
    change (String.eqb "breakpoint-hit" "exited"
            || String.eqb "breakpoint-hit" "exited-normally") with false.
    change (String.eqb "breakpoint-hit" "breakpoint-hit") with true.
    cbv iota. rewrite ScopesSpec.bind_get, Hlookup, Htruthy.
    unfold mbind, M_bind, bind, unawaited, send, sendEvent, perform.
    by destruct (execute ExecContinue (gdb s)) as [g r]. }
  rewrite Hrun. done.
Qed.

End Invariant.

Import ReferenceDebugger.

(** A log point at line 20 of main.c, installed as breakpoint 1, is hit. *)
Lemma logpoint_hit_resumes_example :
  (stop_reason hit1 = "breakpoint-hit"
   /\ registered logging (bkptnoKey hit1) "tick")
  /\ (handleGDBStopped hit1 logging).2
     = [SendEvent (OutputEvent "tick"); Command ExecContinue].
Proof.
  assert (H1 : stop_reason hit1 = "breakpoint-hit") by reflexivity.
  assert (H2 : registered logging (bkptnoKey hit1) "tick").
  { split; [by exists (request [logpoint20]), (debugging []) | by vm_compute]. }
  split; [done |].
  by rewrite (proj1 (logpoint_hit_resumes hit1 "tick" logging H1 H2)).
Defined.

End StopSpec.

Module VariablesSpec.
Import CmsisDebugSession.

Lemma find_app {A} (f : A -> bool) (l1 l2 : list A) :
  List.find f (l1 ++ l2)
  = match List.find f l1 with Some x => Some x | None => List.find f l2 end.
Proof. induction l1 as [|x l1 IH]; simpl; [done |]. by destruct (f x). Qed.

Lemma getVar_addVar (key : VarKey) (name : string) (isVar isChild : bool)
      (r : MIVarCreateResponse) (m : gmap VarKey (list VarObjType)) :
  getVar key name m = None ->
  getVar key name (addVar key name isVar isChild r m).2
  = Some (mkVarObjType (create_name r) name (create_numchild r) (create_value r)
                       (create_type r) isVar isChild).
Proof.
  unfold getVar, addVar. simpl. intros Hmiss. rewrite lookup_insert_eq.
  rewrite find_app. destruct (m !! key) as [vars|]; simpl.
  - rewrite Hmiss. simpl. by rewrite String.eqb_refl.
  - by rewrite String.eqb_refl.
Qed.

Lemma find_assignValue name v vars global :
  List.find (fun o => String.eqb (expression o) name) vars = Some global ->
  List.find (fun o => String.eqb (expression o) name) (assignValue name v vars)
  = Some (setValue v global).
Proof.
  induction vars as [|o vars IH]; simpl; [done |].
  destruct (String.eqb (expression o) name) eqn:Ho.
  - intros [= <-]. simpl. by rewrite Ho.
  - intros Hfind. simpl. rewrite Ho. by apply IH.
Qed.

Lemma getVar_assignVarValue (key : VarKey) (name : string) (v : option string)
      (m : gmap VarKey (list VarObjType)) (global : VarObjType) :
  getVar key name m = Some global ->
  getVar key name (assignVarValue key name v m) = Some (setValue v global).
Proof.
  unfold getVar, assignVarValue. destruct (m !! key) as [vars|] eqn:Hk; [|done].
  intros Hfind. rewrite lookup_insert_eq. by apply find_assignValue.
Qed.

Section Resolver.
Context {G : Type} `{!Environment G}.

Lemma answer_value (expr : string) (global : VarObjType) (s : Session G) :
  exists ref h,
    answer expr global s
    = (Ok (mkVariable expr (default "<unknown>" (value global)) (type global) ref),
       setVariableHandles h s, []).
Proof.
  unfold answer. destruct (JS.parseInt (numchild global)) as [n|].
  - destruct (0 <? n).
    + eexists _, _. reflexivity.
    + exists 0, (variableHandles s). by destruct s.
  - exists 0, (variableHandles s). by destruct s.
Qed.

Lemma answer_run (expr : string) (global : VarObjType) (s : Session G) :
  exists v h, answer expr global s = (Ok v, setVariableHandles h s, []).
Proof. destruct (answer_value expr global s) as (ref & h & ->). by eexists _, _. Qed.

(** On a hit whose update is answered the resolution returns the
    variable, with the value the cache then holds. *)
Lemma getVariables_hit_value frame name expr depth s global changelist :
  getVar (frameId frame, threadId frame, depth) name (variableMap s) = Some global ->
  (execute (VarUpdate name) (gdb s)).2 = Ok changelist ->
  exists ref,
    (getVariables (Some frame) name expr depth s).1.1
    = Ok (mkVariable expr
            (default "<unknown>"
               (match reportedValue (Ok changelist) global with
                | Some v => v
                | None => value global
                end))
            (type global) ref).
Proof.
  intros Hhit Hreply.
  unfold getVariables. cbv zeta. rewrite ScopesSpec.bind_get, Hhit.
  fold (@answer G expr).
  unfold mbind, M_bind, bind, send.
  destruct (execute (VarUpdate name) (gdb s)) as [g1 reply]; simpl in Hreply.
  subst reply. simpl.
  destruct changelist as [|update changelist]; simpl.
  - destruct (answer_value expr global (setGdb g1 s)) as (ref & h & ->).
    by exists ref.
  - destruct (String.eqb (update_in_scope update) "true"
              && String.eqb (update_name update) (varname global)); simpl.
    + destruct (answer_value expr (setValue (update_value update) global)
                  (setVariableMap (assignVarValue (frameId frame, threadId frame, depth)
                                     name (update_value update)
                                     (variableMap s)) (setGdb g1 s))) as (ref & h & ->).
      by exists ref.
    + destruct (answer_value expr global (setGdb g1 s)) as (ref & h & ->).
      by exists ref.
Qed.

Lemma getVariables_hit frame name expr depth s global :
  getVar (frameId frame, threadId frame, depth) name (variableMap s) = Some global ->
  let key : VarKey := (frameId frame, threadId frame, depth) in
  let run := getVariables (Some frame) name expr depth s in
  let reply := (execute (VarUpdate name) (gdb s)).2 in
  commandsOf run.2 = [VarUpdate name]
  /\ variableMap run.1.2
     = match reportedValue reply global with
       | Some v => assignVarValue key name v (variableMap s)
       | None => variableMap s
       end.
Proof.
  intros Hhit key run reply. subst key run reply.
  unfold getVariables. cbv zeta. rewrite ScopesSpec.bind_get, Hhit.
  fold (@answer G expr).
  unfold mbind, M_bind, bind, send.
  destruct (execute (VarUpdate name) (gdb s)) as [g1 [changelist|e]]; simpl; [|done].
  destruct changelist as [|update changelist]; simpl.
  - destruct (answer_run expr global (setGdb g1 s)) as (v & h & ->). done.
  - destruct (String.eqb (update_in_scope update) "true"
              && String.eqb (update_name update) (varname global)); simpl.
    + destruct (answer_run expr (setValue (update_value update) global)
                  (setVariableMap (assignVarValue (frameId frame, threadId frame, depth)
                                     name (update_value update)
                                     (variableMap s)) (setGdb g1 s))) as (v & h & ->).
      done.
    + destruct (answer_run expr global (setGdb g1 s)) as (v & h & ->). done.
Qed.

Lemma getVariables_miss frame name expr depth s :
  getVar (frameId frame, threadId frame, depth) name (variableMap s) = None ->
  let key : VarKey := (frameId frame, threadId frame, depth) in
  let run := getVariables (Some frame) name expr depth s in
  commandsOf run.2 = [VarCreate name "current" expr]
  /\ forall r, (execute (VarCreate name "current" expr) (gdb s)).2 = Ok r ->
       variableMap run.1.2 = (addVar key name true false r (variableMap s)).2.
Proof.
  intros Hmiss key run. subst key run.
  unfold getVariables. cbv zeta. rewrite ScopesSpec.bind_get, Hmiss.
  fold (@answer G expr).
  unfold mbind, M_bind, bind, send.
  destruct (execute (VarCreate name "current" expr) (gdb s)) as [g1 [r|e]]; simpl;
    [|split; [done | intros r [=]]].
  match goal with |- context [answer expr ?g ?s'] =>
    destruct (answer_run expr g s') as (v & h & ->) end.
  split; [done |]. intros r' [= <-]. done.
Qed.

Lemma reportedValue_spec (reply : Result (list MIVarUpdate)) (global : VarObjType)
      (v : option string) :
  reportedValue reply global = Some v
  <-> exists update rest,
        reply = Ok (update :: rest)
        /\ update_in_scope update = "true"
        /\ update_name update = varname global
        /\ update_value update = v.
Proof.
  unfold reportedValue. split.
  - destruct reply as [[|update rest]|e]; try done.
    destruct (String.eqb (update_in_scope update) "true") eqn:Hscope; [|done].
    destruct (String.eqb (update_name update) (varname global)) eqn:Hname; [|done].
    simpl. intros [= <-]. exists update, rest.
    apply String.eqb_eq in Hscope, Hname. done.
  - intros (update & rest & -> & Hscope & Hname & <-).
    apply String.eqb_eq in Hscope, Hname. by rewrite Hscope, Hname.
Qed.

(** C5. Resolving a variable under the key (frameId, threadId, depth,
    displayName).  On a hit the only command is an update (so no
    create); a value is reported exactly when the first entry of the
    change list is in scope and carries the cached backend name; the
    cached entry then has the reported value in its [value] field and
    its other fields as before, and the cache is left as it was
    otherwise, the entry keeping its old value; when the update is
    answered, the variable returned carries the value the cache then
    holds.  On a miss the only
    command is a create; when it is answered the answer is cached under
    the key, so that resolving the key again sends an update and no
    create. *)
Theorem variable_cache_protocol (frame : FrameReference) (name expr : string)
        (depth : JS.number) (s : Session G) :
  let key : VarKey := (frameId frame, threadId frame, depth) in
  let run := getVariables (Some frame) name expr depth s in
  (forall global,
      getVar key name (variableMap s) = Some global ->
      let reported := reportedValue (execute (VarUpdate name) (gdb s)).2 global in
      commandsOf run.2 = [VarUpdate name]
      /\ variableMap run.1.2
         = match reported with
           | Some v => assignVarValue key name v (variableMap s)
           | None => variableMap s
           end
      /\ getVar key name (variableMap run.1.2)
         = Some (match reported with
                 | Some v => setValue v global
                 | None => global
                 end)
      /\ (forall v,
            reported = Some v
            <-> exists update rest,
                  (execute (VarUpdate name) (gdb s)).2 = Ok (update :: rest)
                  /\ update_in_scope update = "true"
                  /\ update_name update = varname global
                  /\ update_value update = v)
      /\ value <$> getVar key name (variableMap run.1.2)
         = Some (match reported with
                 | Some v => v
                 | None => value global
                 end)
      /\ getVar key name (variableMap run.1.2)
         = Some (mkVarObjType (varname global) (expression global) (numchild global)
                              (match reported with
                               | Some v => v
                               | None => value global
                               end)
                              (type global) (isVar global) (isChild global))
      /\ (forall changelist,
            (execute (VarUpdate name) (gdb s)).2 = Ok changelist ->
            exists ref,
              run.1.1
              = Ok (mkVariable expr
                      (default "<unknown>"
                         (match reported with
                          | Some v => v
                          | None => value global
                          end))
                      (type global) ref)))
  /\ (getVar key name (variableMap s) = None ->
      commandsOf run.2 = [VarCreate name "current" expr]
      /\ forall r,
          (execute (VarCreate name "current" expr) (gdb s)).2 = Ok r ->
          getVar key name (variableMap run.1.2)
          = Some (mkVarObjType (create_name r) name (create_numchild r)
                               (create_value r) (create_type r) true false)
          /\ forall expr',
              commandsOf (getVariables (Some frame) name expr' depth run.1.2).2
              = [VarUpdate name]).
Proof.
  intros key run. split.
  - intros global Hhit reported.
    destruct (getVariables_hit frame name expr depth s global Hhit) as [Hcmd Hmap].
    fold key run reported in Hcmd, Hmap.
    assert (Hcached : getVar key name (variableMap run.1.2)
                      = Some (match reported with
                              | Some v => setValue v global
                              | None => global
                              end)).
    { rewrite Hmap. destruct reported as [v|]; [|done].
      by apply getVar_assignVarValue. }
    split; [done |]. split; [done |]. split; [done |].
    split; [intros v; apply reportedValue_spec |].
    split; [| split].
    + rewrite Hcached. by destruct reported as [v|].
    + rewrite Hcached. destruct reported as [v|]; [done |]. by destruct global.
    + intros changelist Hreply.
      destruct (getVariables_hit_value frame name expr depth s global changelist
                  Hhit Hreply) as [ref Hret].
      exists ref. subst reported. rewrite Hreply. exact Hret.
  - intros Hmiss.
    destruct (getVariables_miss frame name expr depth s Hmiss) as [Hcmd Hmap].
    fold key run in Hcmd, Hmap.
    split; [done |]. intros r Hr.
    assert (Hcached : getVar key name (variableMap run.1.2)
                      = Some (mkVarObjType (create_name r) name (create_numchild r)
                                           (create_value r) (create_type r) true false)).
    { rewrite (Hmap r Hr). by apply getVar_addVar. }
    split; [done |]. intros expr'.
    by destruct (getVariables_hit frame name expr' depth run.1.2 _ Hcached) as [? _].
Qed.

End Resolver.

Import ReferenceDebugger.

(** The global [counter] resolved twice while the target counts on: a
    create, then an update that brings the new value into the cache. *)
Lemma variable_cache_protocol_example :
  (getVar counterKey "global_var_counter" (variableMap counting) = None
   /\ getVar counterKey "global_var_counter" (variableMap countedOn) = Some cachedCounter)
  /\ commandsOf (getVariables (Some pseudoFrame) "global_var_counter" "counter"
                              (Some (-1)) counting).2
     = [VarCreate "global_var_counter" "current" "counter"]
  /\ commandsOf (getVariables (Some pseudoFrame) "global_var_counter" "counter"
                              (Some (-1)) countedOn).2
     = [VarUpdate "global_var_counter"]
  /\ getVar counterKey "global_var_counter"
            (variableMap (getVariables (Some pseudoFrame) "global_var_counter" "counter"
                                       (Some (-1)) countedOn).1.2)
     = Some (setValue (Some "2") cachedCounter)
  /\ value cachedCounter = Some "1"
  /\ value <$> getVar counterKey "global_var_counter"
                      (variableMap (getVariables (Some pseudoFrame) "global_var_counter"
                                                 "counter" (Some (-1)) countedOn).1.2)
     = Some (Some "2")
  /\ (getVariables (Some pseudoFrame) "global_var_counter" "counter"
                   (Some (-1)) countedOn).1.1
     = Ok (mkVariable "counter" "2" "int" 0).
Proof.
  assert (H1 : getVar counterKey "global_var_counter" (variableMap counting) = None)
    by reflexivity.
  assert (H3 : getVar counterKey "global_var_counter" (variableMap countedOn)
               = Some cachedCounter) by (by vm_compute).
  split; [done |].
  pose proof (variable_cache_protocol pseudoFrame "global_var_counter" "counter"
                (Some (-1)) counting) as [_ Hmiss].
  pose proof (variable_cache_protocol pseudoFrame "global_var_counter" "counter"
                (Some (-1)) countedOn) as [Hhit _].
  destruct (Hmiss H1) as [Hcreate _].
  destruct (Hhit cachedCounter H3) as (Hupdate & _ & Hcached & _ & Hvalue & _).
  split; [exact Hcreate |]. split; [exact Hupdate |].
  split; [etrans; [exact Hcached | by vm_compute] |].
  split; [reflexivity |].
  split; [etrans; [exact Hvalue | by vm_compute] |].
  by vm_compute.
Defined.

End VariablesSpec.

Module ReconcileFacts.
Import CmsisDebugSession.

Lemma find_existsb {A} (f : A -> bool) (l : list A) :
  existsb f l = match List.find f l with Some _ => true | None => false end.
Proof. induction l as [|x l IH]; simpl; [done |]. by destruct (f x). Qed.

Lemma keep_matches gdbbp vsbp :
  negb (lineIs (JS.parseIntOpt (bkpt_line gdbbp)) vsbp) || condDiffers gdbbp vsbp
  = negb (matches gdbbp vsbp).
Proof.
  unfold matches. by destruct (lineIs _ vsbp), (condDiffers gdbbp vsbp).
Qed.

Lemma filterInserts_spec gdbbp breakpoint todo actual messages :
  (filterInserts gdbbp (JS.parseIntOpt (bkpt_line gdbbp)) breakpoint todo actual messages).1
  = (List.filter (fun v => negb (matches gdbbp v)) todo,
     actual ++ map (fun _ => createActual gdbbp) (List.filter (matches gdbbp) todo)).
Proof.
  revert actual messages. induction todo as [|vsbp rest IH]; intros actual messages.
  - simpl. by rewrite app_nil_r.
  - cbn [filterInserts List.filter]. rewrite keep_matches.
    destruct (matches gdbbp vsbp); cbn [negb].
    + rewrite IH. cbn [map]. by rewrite <- app_assoc.
    + specialize (IH actual messages).
      destruct (filterInserts _ _ _ rest actual messages) as [[kept act] msgs].
      simpl in *. by injection IH as -> ->.
Qed.

Lemma visit_spec file breakpoints r gdbbp :
  inserts (visit file breakpoints r gdbbp)
  = (if inFile file gdbbp
     then List.filter (fun v => negb (matches gdbbp v)) (inserts r) else inserts r)
  /\ deletes (visit file breakpoints r gdbbp)
     = (if inFile file gdbbp && negb (lineTaken breakpoints gdbbp)
        then deletes r ++ [bkpt_number gdbbp] else deletes r)
  /\ actual (visit file breakpoints r gdbbp)
     = (if inFile file gdbbp
        then actual r ++ map (fun _ => createActual gdbbp)
                             (List.filter (matches gdbbp) (inserts r))
        else actual r).
Proof.
  unfold visit, inFile, lineTaken. rewrite find_existsb.
  destruct (bool_decide _ && JS.truthy _); [|done].
  pose proof (filterInserts_spec gdbbp
                (List.find (lineIs (JS.parseIntOpt (bkpt_line gdbbp))) breakpoints)
                (inserts r) (actual r) (messages r)) as Hf.
  destruct (filterInserts _ _ _ _ _ _) as [[kept act] msgs].
  simpl in Hf. injection Hf as -> ->. simpl.
  by destruct (List.find _ breakpoints).
Qed.

Lemma filter_all {A} (f : A -> bool) (l : list A) :
  (forall x, f x = true) -> List.filter f l = l.
Proof.
  intros Hf. induction l as [|x l IH]; simpl; [done |]. by rewrite Hf, IH.
Qed.

Lemma filter_filter_andb {A} (f g : A -> bool) (l : list A) :
  List.filter f (List.filter g l) = List.filter (fun x => g x && f x) l.
Proof.
  induction l as [|x l IH]; simpl; [done |].
  destruct (g x); simpl; [|done]. destruct (f x); by rewrite IH.
Qed.

Lemma foldl_visit_inserts file breakpoints body r :
  inserts (foldl (visit file breakpoints) r body)
  = List.filter (unmatched file body) (inserts r).
Proof.
  revert r. induction body as [|j body IH]; intros r.
  - simpl. by rewrite filter_all.
  - simpl. rewrite IH. destruct (visit_spec file breakpoints r j) as (-> & _ & _).
    destruct (inFile file j) eqn:Hj.
    + rewrite filter_filter_andb. apply List.filter_ext. intros d.
      simpl. by rewrite Hj.
    + apply List.filter_ext. intros d. simpl. by rewrite Hj.
Qed.

Lemma foldl_visit_deletes file breakpoints body r :
  deletes (foldl (visit file breakpoints) r body)
  = deletes r
    ++ map bkpt_number
           (List.filter (fun j => inFile file j && negb (lineTaken breakpoints j)) body).
Proof.
  revert r. induction body as [|j body IH]; intros r.
  - simpl. by rewrite app_nil_r.
  - simpl. rewrite IH. destruct (visit_spec file breakpoints r j) as (_ & -> & _).
    destruct (inFile file j && negb (lineTaken breakpoints j)); simpl; [|done].
    by rewrite <- app_assoc.
Qed.

Lemma foldl_visit_actual_mono file breakpoints body r x :
  x ∈ actual r -> x ∈ actual (foldl (visit file breakpoints) r body).
Proof.
  revert r. induction body as [|j body IH]; intros r Hx; [done |].
  simpl. apply IH. destruct (visit_spec file breakpoints r j) as (_ & _ & ->).
  destruct (inFile file j); [|done]. apply elem_of_app. by left.
Qed.

(** The first installed entry of the file that matches a desired
    breakpoint still to insert is pushed to the result. *)
Lemma foldl_visit_actual file breakpoints pre i post r d :
  inFile file i = true ->
  d ∈ inserts r -> matches i d = true -> unmatched file pre d = true ->
  createActual i ∈ actual (foldl (visit file breakpoints) r (pre ++ i :: post)).
Proof.
  intros Hi Hd Hm Hpre. rewrite foldl_app. simpl.
  apply foldl_visit_actual_mono.
  destruct (visit_spec file breakpoints (foldl (visit file breakpoints) r pre) i)
    as (_ & _ & ->).
  rewrite Hi. apply elem_of_app. right.
  rewrite foldl_visit_inserts.
  apply (list_elem_of_fmap_2' (fun _ => createActual i) _ d); [|done].
  apply list_elem_of_In, List.filter_In. split; [|done].
  apply List.filter_In. split; [by apply list_elem_of_In | done].
Qed.

Lemma firstMatch_cons file j body d :
  firstMatch file (j :: body) d
  = if inFile file j && matches j d then Some j else firstMatch file body d.
Proof. done. Qed.

(** What an entry of the file pushes for the desired breakpoints it
    matches, with what the entries after it push for the others. *)
Lemma pushed_first file j body todo :
  inFile file j = true ->
  map (fun _ => createActual j) (List.filter (matches j) todo)
  ++ omap (fun d => createActual <$> firstMatch file body d)
          (List.filter (fun v => negb (matches j v)) todo)
  ≡ₚ omap (fun d => createActual <$> firstMatch file (j :: body) d) todo.
Proof.
  intros Hj. induction todo as [|d todo IH]; [done |].
  cbn [List.filter omap list_omap]. rewrite firstMatch_cons, Hj. simpl.
  destruct (matches j d); simpl.
  - by rewrite IH.
  - destruct (firstMatch file body d) as [i|]; simpl; [|done].
    rewrite <- IH. symmetry. apply Permutation_middle.
Qed.

(** The result of the pass: what it held, and for every desired
    breakpoint still to place the first entry that matches it. *)
Lemma foldl_visit_actual_first file breakpoints body r :
  actual (foldl (visit file breakpoints) r body)
  ≡ₚ actual r ++ omap (fun d => createActual <$> firstMatch file body d) (inserts r).
Proof.
  revert r. induction body as [|j body IH]; intros r.
  - simpl. induction (inserts r) as [|d l IHl]; simpl; [by rewrite app_nil_r | done].
  - cbn [foldl]. rewrite IH.
    destruct (visit_spec file breakpoints r j) as (-> & _ & ->).
    destruct (inFile file j) eqn:Hj.
    + rewrite <- app_assoc. apply Permutation_app_head. by apply pushed_first.
    + apply Permutation_app_head.
      generalize (inserts r). intros todo.
      induction todo as [|d todo IHtodo]; [done |].
      cbn [omap list_omap]. rewrite firstMatch_cons, Hj. simpl.
      destruct (firstMatch file body d); simpl; by rewrite IHtodo.
Qed.

Lemma omap_length_total {A B} (f : A -> option B) (l : list A) :
  (forall x, x ∈ l -> is_Some (f x)) -> length (omap f l) = length l.
Proof.
  induction l as [|x l IH]; intros Hf; [done |]. simpl.
  destruct (Hf x) as [y ->]; [set_solver |]. simpl. f_equal.
  apply IH. intros z Hz. apply Hf. set_solver.
Qed.

End ReconcileFacts.

Module ReconcilerSpec.
Import CmsisDebugSession ReconcileFacts.

Section Pass.
Context {G : Type} `{!Environment G}.

Lemma tryCatch_sendErrorResponse_ok (m : M G unit) (s : Session G) :
  (tryCatch m (sendErrorResponse 1) s).1.1 = Ok tt.
Proof.
  unfold tryCatch. destruct (m s) as [[[[]|e] s1] acts1]; done.
Qed.

(** The request around its [try] block. *)
Lemma setBreakPointsRequest_shape (args : SetBreakpointsArguments) (s : Session G) :
  let inner := tryCatch (tryBody args) (sendErrorResponse 1) (atTry s) in
  setBreakPointsRequest args s
  = if isRunning s
    then (Ok tt, setGdb (execute ExecContinue (gdb inner.1.2)).1 inner.1.2,
          PauseTarget :: inner.2 ++ [Command ExecContinue])
    else (Ok tt, inner.1.2, inner.2).
Proof.
  intros inner. pose proof (tryCatch_sendErrorResponse_ok (tryBody args) (atTry s)) as Hok.
  fold inner in Hok. subst inner.
  unfold setBreakPointsRequest. rewrite ScopesSpec.bind_get.
  fold (tryBody args). unfold atTry in *.
  unfold mbind, M_bind, bind, when, modify, pause, unawaited, send.
  destruct (isRunning s); simpl.
  - destruct (tryCatch _ _ _) as [[[[]|e] s4] acts]; [|done]. simpl.
    by destruct (execute ExecContinue (gdb s4)) as [g5 r5].
  - destruct (tryCatch _ _ _) as [[[[]|e] s4] acts]; [|done]. simpl.
    by rewrite ?app_nil_r.
Qed.
Lemma gdb_registerLogPoint vsbp gdbbp (s : Session G) :
  gdb (registerLogPoint vsbp gdbbp s) = gdb s.
Proof.
  unfold registerLogPoint. destruct (vsbp_logMessage vsbp) as [msg|]; [|done].
  by destruct (JS.truthy (Some msg)).
Qed.

Lemma insertOne_run file vsbp temporary ignoreCount actual (s : Session G) :
  insertOne file vsbp temporary ignoreCount actual s
  = match execute (BreakInsert (insertOptions file vsbp temporary ignoreCount)) (gdb s) with
    | (g', Ok b) =>
        (Ok (actual ++ [createActual b]), registerLogPoint vsbp b (setGdb g' s),
         [Command (BreakInsert (insertOptions file vsbp temporary ignoreCount))])
    | (g', Throw e) =>
        (Throw e, setGdb g' s,
         [Command (BreakInsert (insertOptions file vsbp temporary ignoreCount))])
    end.
Proof.
  unfold insertOne, insertOptions, registerLogPoint.
  unfold mbind, M_bind, bind, send.
  destruct (execute _ (gdb s)) as [g' [b|e]]; [|done].
  destruct (vsbp_logMessage vsbp) as [msg|]; [|done].
  by destruct (JS.truthy (Some msg)).
Qed.

(** One turn of the loop, by what the hit condition decodes to. *)
Lemma insertAll_cons file vsbp rest actual (s : Session G) :
  insertAll file (vsbp :: rest) actual s
  = match decodeHitCondition (vsbp_hitCondition vsbp) with
    | Some (temporary, ignoreCount) =>
        (actual' ← insertOne file vsbp temporary ignoreCount actual;
         insertAll file rest actual') s
    | None =>
        (sendEvent (OutputEvent ("Unable to decode expression: "
                                  +:+ default "" (vsbp_hitCondition vsbp)));;
         insertAll file rest actual) s
    end.
Proof.
  cbn [insertAll]. unfold decodeHitCondition.
  destruct (vsbp_hitCondition vsbp) as [hc|]; [|done].
  by destruct (JS.parseInt _).
Qed.

Context `{!Debugger G}.

Lemma tryBlock_run (args : SetBreakpointsArguments) (s1 : Session G) :
  let file := source_path args in
  let r := reconcile file (default [] (breakpoints args))
                     (logPointMessages s1) (installed (gdb s1)) in
  let s2 := setLogPointMessages (messages r)
                                (setGdb (execute BreakList (gdb s1)).1 s1) in
  tryCatch (tryBody args) (sendErrorResponse 1) s1
  = match insertAll file (inserts r) (actual r) s2 with
    | (Ok actual, s3, acts3) =>
        if bool_decide (deletes r ≠ []) then
          match execute (BreakDelete (deletes r)) (gdb s3) with
          | (g4, Ok _) =>
              (Ok tt, setGdb g4 s3,
               Command BreakList
                 :: acts3 ++ [Command (BreakDelete (deletes r));
                              SendResponse (BreakpointsBody actual)])
          | (g4, Throw e) =>
              (Ok tt, setGdb g4 s3,
               Command BreakList
                 :: acts3 ++ [Command (BreakDelete (deletes r));
                              SendErrorResponse 1 e])
          end
        else (Ok tt, s3,
              Command BreakList :: acts3 ++ [SendResponse (BreakpointsBody actual)])
    | (Throw e, s3, acts3) =>
        (Ok tt, s3, Command BreakList :: acts3 ++ [SendErrorResponse 1 e])
    end.
Proof.
  intros file r s2. subst file r s2.
  destruct (list_answers (gdb s1)) as [Hreply _].
  unfold tryBody, tryCatch.
  unfold mbind at 1, M_bind at 1, bind at 1, send at 1.
  destruct (execute BreakList (gdb s1)) as [g2 reply]. simpl in Hreply. subst reply.
  rewrite ScopesSpec.bind_get.
  unfold mbind at 1, M_bind at 1, bind at 1, modify at 1. simpl.
  unfold mbind at 1, M_bind at 1, bind at 1.
  destruct (insertAll _ _ _ _) as [[[actual|e] s3] acts3]; simpl; [|done].
  destruct (bool_decide _); simpl.
  - unfold mbind, M_bind, bind, send, sendResponse, perform.
    destruct (execute _ (gdb s3)) as [g4 [[]|e]]; simpl.
    + done.
    + by rewrite <- ?app_assoc.
  - done.
Qed.

Lemma filter_none {A} (f : A -> bool) (l : list A) :
  (forall x, x ∈ l -> f x = false) -> List.filter f l = [].
Proof.
  induction l as [|x l IH]; intros Hf; simpl; [done |].
  rewrite Hf by set_solver. apply IH. intros y Hy. apply Hf. set_solver.
Qed.

Lemma gdb_atTry (s : Session G) : installed (gdb (atTry s)) = installed (gdb s).
Proof.
  unfold atTry. destruct (isRunning s); [|done]. simpl. apply interrupt_keeps.
Qed.

Lemma logPointMessages_atTry (s : Session G) : logPointMessages (atTry s) = ∅.
Proof. done. Qed.

Lemma matches_key i j d :
  matches i d = true -> matches j d = true -> installedKey j = installedKey i.
Proof.
  unfold matches, installedKey, lineIs, condDiffers.
  rewrite !andb_true_iff, !negb_true_iff, !negb_false_iff, !bool_decide_eq_true.
  intros [<- <-] [<- <-]. done.
Qed.

(** C1, as the code has it. When the desired breakpoints of the
    request and the installed entries of its file are the same set
    (each desired breakpoint has an installed entry with its line and
    condition and conversely, absent and empty conditions being
    equal), the pass sends no break-insert and no break-delete, the
    table of the debugger is afterwards what it was, and the response
    lists every installed entry of the file that is the first with
    its line and condition.  The response holds, in some order, one
    breakpoint for each desired breakpoint, the one made from the
    first installed entry of the file with its line and condition,
    and nothing else. *)
Theorem equal_sets_send_nothing (args : SetBreakpointsArguments) (s : Session G) :
  let file := source_path args in
  let desired := default [] (breakpoints args) in
  let table := installed (gdb s) in
  (forall d, d ∈ desired ->
     exists i, i ∈ table /\ inFile file i = true /\ matches i d = true) ->
  (forall i, i ∈ table -> inFile file i = true ->
     exists d, d ∈ desired /\ matches i d = true) ->
  let run := setBreakPointsRequest args s in
  List.filter isBreakInsert (commandsOf run.2) = []
  /\ List.filter isBreakDelete (commandsOf run.2) = []
  /\ installed (gdb run.1.2) = table
  /\ exists actual,
      SendResponse (BreakpointsBody actual) ∈ run.2
      /\ (forall pre i post,
           table = pre ++ i :: post -> inFile file i = true ->
           (forall j, j ∈ pre -> inFile file j = true ->
                      installedKey j <> installedKey i) ->
           createActual i ∈ actual)
      /\ actual ≡ₚ omap (fun d => createActual <$> firstMatch file table d) desired
      /\ (forall d, d ∈ desired ->
            exists i, firstMatch file table d = Some i
                      /\ i ∈ table /\ inFile file i = true /\ matches i d = true)
      /\ length actual = length desired.
Proof.
  intros file desired table Hdesired Htable run.
  set (r := reconcile file desired ∅ table).
  assert (Hinserts : inserts r = []).
  { unfold r, reconcile. rewrite foldl_visit_inserts. simpl.
    apply filter_none. intros d Hd.
    destruct (Hdesired d Hd) as (i & Hi & Hf & Hm).
    unfold unmatched. apply not_true_iff_false. intros Hall.
    rewrite forallb_forall in Hall.
    specialize (Hall i (proj1 (list_elem_of_In _ _) Hi)).
    by rewrite Hf, Hm in Hall. }
  assert (Hdeletes : deletes r = []).
  { unfold r, reconcile. rewrite foldl_visit_deletes. simpl.
    rewrite filter_none; [done |]. intros i Hi.
    destruct (inFile file i) eqn:Hf; [|done]. simpl.
    destruct (Htable i Hi Hf) as (d & Hd & Hm).
    apply negb_false_iff. unfold lineTaken. apply existsb_exists.
    exists d. split; [by apply list_elem_of_In |].
    unfold matches in Hm. by apply andb_true_iff in Hm as [? _]. }
  assert (Hinner : tryCatch (tryBody args) (sendErrorResponse 1) (atTry s)
                   = (Ok tt,
                      setLogPointMessages (messages r)
                        (setGdb (execute BreakList (gdb (atTry s))).1 (atTry s)),
                      [Command BreakList; SendResponse (BreakpointsBody (actual r))])).
  { rewrite tryBlock_run. rewrite logPointMessages_atTry, gdb_atTry.
    fold file desired table r. rewrite Hinserts, Hdeletes. done. }
  assert (Hkept : installed (gdb (setLogPointMessages (messages r)
                     (setGdb (execute BreakList (gdb (atTry s))).1 (atTry s))))
                  = table).
  { change (installed (execute BreakList (gdb (atTry s))).1 = table).
    destruct (list_answers (gdb (atTry s))) as [_ ->]. apply gdb_atTry. }
  assert (Hactual : forall pre i post,
             table = pre ++ i :: post -> inFile file i = true ->
             (forall j, j ∈ pre -> inFile file j = true ->
                        installedKey j <> installedKey i) ->
             createActual i ∈ actual r).
  { intros pre i post Hsplit Hf Hfirst.
    destruct (Htable i) as (d & Hd & Hm); [rewrite Hsplit; set_solver | done |].
    unfold r, reconcile. rewrite Hsplit.
    apply (foldl_visit_actual file desired pre i post _ d); [done | done | done |].
    unfold unmatched. apply forallb_forall. intros j Hj.
    apply list_elem_of_In in Hj.
    destruct (inFile file j) eqn:Hfj; [|done]. simpl.
    apply negb_true_iff, not_true_iff_false. intros Hmj.
    by apply (Hfirst j Hj Hfj), (matches_key i j d). }
  assert (Hfirsts : actual r
                    ≡ₚ omap (fun d => createActual <$> firstMatch file table d) desired).
  { unfold r, reconcile. by rewrite foldl_visit_actual_first. }
  assert (Hfound : forall d, d ∈ desired ->
             exists i, firstMatch file table d = Some i
                       /\ i ∈ table /\ inFile file i = true /\ matches i d = true).
  { intros d Hd. destruct (Hdesired d Hd) as (i & Hi & Hf & Hm).
    unfold firstMatch.
    destruct (List.find _ table) as [i'|] eqn:Hfind.
    - apply List.find_some in Hfind as [Hin Hboth].
      apply andb_true_iff in Hboth as [? ?].
      exists i'. by rewrite <- list_elem_of_In in Hin.
    - apply list_elem_of_In in Hi.
      pose proof (List.find_none _ _ Hfind i Hi) as Hno.
      cbv beta in Hno. by rewrite Hf, Hm in Hno. }
  assert (Hlength : length (actual r) = length desired).
  { rewrite Hfirsts. apply omap_length_total. intros d Hd.
    destruct (Hfound d Hd) as (i & -> & _). by eexists. }
  subst run. rewrite setBreakPointsRequest_shape. cbv zeta. rewrite Hinner.
  destruct (isRunning s); simpl.
  - split; [done |]. split; [done |]. split.
    + rewrite continue_keeps. exact Hkept.
    + exists (actual r). split; [set_solver | done].
  - split; [done |]. split; [done |]. split; [exact Hkept |].
    exists (actual r). split; [set_solver | done].
Qed.

(** The insertion loop against a debugger that keeps its table: the
    table grows by new entries under unused numbers, and when the
    loop ends well every desired breakpoint whose hit condition
    decodes has been inserted. *)
Lemma insertAll_laws file todo actual (s : Session G) :
  let run := insertAll file todo actual s in
  Forall loopAction run.2
  /\ exists new,
      installed (gdb run.1.2) = installed (gdb s) ++ new
      /\ (forall b, b ∈ new -> bkpt_number b ∉ map bkpt_number (installed (gdb s)))
      /\ (forall actual', run.1.1 = Ok actual' ->
           forall d t ic, d ∈ todo ->
             decodeHitCondition (vsbp_hitCondition d) = Some (t, ic) ->
             Command (BreakInsert (insertOptions file d t ic)) ∈ run.2
             /\ exists b, b ∈ new /\ bkpt_fullname b = Some file
                          /\ bkpt_line b = Some (JS.toString (vsbp_line d))
                          /\ bkpt_cond b = vsbp_condition d).
Proof.
  revert actual s. induction todo as [|vsbp rest IH]; intros actual s run.
  - subst run. simpl. split; [constructor |]. exists []. rewrite app_nil_r.
    split; [done |]. split; [intros b Hb; by apply elem_of_nil in Hb |].
    intros _ _ d t ic Hd. by apply elem_of_nil in Hd.
  - subst run. rewrite insertAll_cons.
    destruct (decodeHitCondition (vsbp_hitCondition vsbp)) as [[t0 ic0]|] eqn:Hdec.
    + unfold mbind, M_bind, bind. rewrite insertOne_run.
      pose proof (insert_appends file (vsbp_line vsbp) (vsbp_condition vsbp)
                    t0 ic0 (gdb s)) as Hlaw.
      fold (insertOptions file vsbp t0 ic0) in Hlaw.
      destruct (execute _ (gdb s)) as [g' [b|e]].
      * destruct Hlaw as (Hgrow & Hfile & Hline & Hcond & Hfresh).
        specialize (IH (actual ++ [createActual b])
                       (registerLogPoint vsbp b (setGdb g' s))).
        cbv zeta in IH. rewrite gdb_registerLogPoint in IH.
        change (gdb (setGdb g' s)) with g' in IH.
        destruct (insertAll file rest _ _) as [[res s3] acts3].
        simpl in *. destruct IH as (Hacts & new & Hnew & Hfreshnew & Hall).
        split; [by constructor |].
        exists (b :: new). split; [rewrite Hnew, Hgrow; by rewrite <- app_assoc |].
        split.
        { intros b' Hb'. apply elem_of_cons in Hb' as [->|Hb']; [done |].
          intros Hin. apply (Hfreshnew b' Hb'). rewrite Hgrow, map_app.
          apply elem_of_app. by left. }
        intros actual' Hres d t ic Hd Hdecd.
        apply elem_of_cons in Hd as [->|Hd].
        { rewrite Hdec in Hdecd. injection Hdecd as <- <-.
          split; [apply elem_of_cons; by left |].
          exists b. split; [apply elem_of_cons; by left | done]. }
        destruct (Hall actual' Hres d t ic Hd Hdecd) as (Hcmd & b' & Hb' & Hdesc).
        split; [apply elem_of_cons; by right |].
        exists b'. split; [apply elem_of_cons; by right | done].
      * simpl. split; [by repeat constructor |]. exists [].
        rewrite app_nil_r. split; [done |].
        split; [intros b Hb; by apply elem_of_nil in Hb | done].
    + unfold mbind, M_bind, bind, sendEvent, perform.
      specialize (IH actual s). cbv zeta in IH.
      destruct (insertAll file rest actual s) as [[res s3] acts3].
      simpl in *. destruct IH as (Hacts & new & Hnew & Hfreshnew & Hall).
      split; [by constructor |]. exists new. split; [done |]. split; [done |].
      intros actual' Hres d t ic Hd Hdecd.
      apply elem_of_cons in Hd as [->|Hd]; [congruence |].
      destruct (Hall actual' Hres d t ic Hd Hdecd) as (Hcmd & Hb).
      split; [apply elem_of_cons; by right | done].
Qed.

Lemma NoDup_fmap_eq {A B} (f : A -> B) (l : list A) (x y : A) :
  NoDup (map f l) -> x ∈ l -> y ∈ l -> f x = f y -> x = y.
Proof.
  induction l as [|a l IH]; intros Hnd Hx Hy Hf; [by apply elem_of_nil in Hx |].
  simpl in Hnd. apply NoDup_cons in Hnd as [Hna Hnd].
  apply elem_of_cons in Hx as [->|Hx]; apply elem_of_cons in Hy as [->|Hy].
  - done.
  - destruct Hna. rewrite Hf. by apply list_elem_of_fmap_2.
  - destruct Hna. rewrite <- Hf. by apply list_elem_of_fmap_2.
  - by apply IH.
Qed.

Lemma loopAction_not_delete acts ids :
  Forall loopAction acts -> Command (BreakDelete ids) ∉ acts.
Proof.
  intros Hall Hin. rewrite Forall_forall in Hall. by apply (Hall _ Hin).
Qed.

Lemma loopAction_not_response acts body :
  Forall loopAction acts -> SendResponse body ∉ acts.
Proof.
  intros Hall Hin. rewrite Forall_forall in Hall. by apply (Hall _ Hin).
Qed.

(** The request and its [try] block differ by the pause and the
    resume. *)
Lemma request_vs_tryBlock (args : SetBreakpointsArguments) (s : Session G) :
  let inner := tryCatch (tryBody args) (sendErrorResponse 1) (atTry s) in
  let run := setBreakPointsRequest args s in
  installed (gdb run.1.2) = installed (gdb inner.1.2)
  /\ forall a, a <> PauseTarget -> a <> Command ExecContinue ->
               (a ∈ run.2 <-> a ∈ inner.2).
Proof.
  intros inner run. subst run. rewrite setBreakPointsRequest_shape.
  cbv zeta. fold inner. destruct (isRunning s); simpl; [|done].
  split; [apply continue_keeps |]. intros a Hp Hc.
  rewrite elem_of_cons, elem_of_app, list_elem_of_singleton. tauto.
Qed.

(** C9, as the code has it. An installed entry of the file whose line
    is the line of some desired breakpoint is never deleted, whatever
    the conditions: no break-delete names it and it is in the table of
    the debugger after the pass.  A desired breakpoint at that line
    that no installed entry matches by line and condition, and whose
    hit condition (if any) decodes, is inserted; when the pass ends
    with its response the table then holds, next to the old entry, a
    new entry at the same line with the desired condition. *)
Theorem line_match_keeps_mismatch_adds (args : SetBreakpointsArguments)
        (s : Session G) (i : MIBreakpointInfo) (d : SourceBreakpoint) :
  let file := source_path args in
  let desired := default [] (breakpoints args) in
  let table := installed (gdb s) in
  let run := setBreakPointsRequest args s in
  NoDup (map bkpt_number table) ->
  i ∈ table -> inFile file i = true ->
  d ∈ desired -> lineIs (JS.parseIntOpt (bkpt_line i)) d = true ->
  (forall ids, Command (BreakDelete ids) ∈ run.2 -> bkpt_number i ∉ ids)
  /\ i ∈ installed (gdb run.1.2)
  /\ (forall t ic actual,
        unmatched file table d = true ->
        decodeHitCondition (vsbp_hitCondition d) = Some (t, ic) ->
        SendResponse (BreakpointsBody actual) ∈ run.2 ->
        Command (BreakInsert (insertOptions file d t ic)) ∈ run.2
        /\ exists b,
            b ∈ installed (gdb run.1.2) /\ (b ∉ table)
            /\ bkpt_fullname b = Some file
            /\ JS.parseIntOpt (bkpt_line b) = JS.parseIntOpt (bkpt_line i)
            /\ bkpt_cond b = vsbp_condition d).
Proof.
  intros file desired table run Hnodup Hi Hfi Hd Hline.
  set (r := reconcile file desired ∅ table).
  set (s2 := setLogPointMessages (messages r)
               (setGdb (execute BreakList (gdb (atTry s))).1 (atTry s))).
  assert (Hs2 : installed (gdb s2) = table).
  { change (installed (execute BreakList (gdb (atTry s))).1 = table).
    destruct (list_answers (gdb (atTry s))) as [_ ->]. apply gdb_atTry. }
  assert (Hdel : bkpt_number i ∉ deletes r).
  { unfold r, reconcile. rewrite foldl_visit_deletes. simpl.
    intros Hin. apply list_elem_of_fmap in Hin as (j & Hnum & Hj).
    apply list_elem_of_In, List.filter_In in Hj as [Hj Hcond].
    apply list_elem_of_In in Hj.
    assert (Hji : j = i) by (by apply (NoDup_fmap_eq bkpt_number table)).
    subst j.
    apply andb_true_iff in Hcond as [_ Hnot]. apply negb_true_iff in Hnot.
    apply not_true_iff_false in Hnot. apply Hnot.
    unfold lineTaken. apply existsb_exists. exists d.
    split; [by apply list_elem_of_In | done]. }
  assert (Hsub : forall n, n ∈ deletes r -> n ∈ map bkpt_number table).
  { unfold r, reconcile. rewrite foldl_visit_deletes. simpl.
    intros n Hn. apply list_elem_of_fmap in Hn as (j & -> & Hj).
    apply list_elem_of_fmap_2.
    apply list_elem_of_In, List.filter_In in Hj as [Hj _].
    by apply list_elem_of_In. }
  assert (Hins : unmatched file table d = true -> d ∈ inserts r).
  { intros Hun. unfold r, reconcile. rewrite foldl_visit_inserts. simpl.
    apply list_elem_of_In, List.filter_In. split; [by apply list_elem_of_In | done]. }
  pose proof (insertAll_laws file (inserts r) (actual r) s2) as Hloop.
  cbv zeta in Hloop. rewrite Hs2 in Hloop.
  pose proof (tryBlock_run args (atTry s)) as Hinner. cbv zeta in Hinner.
  rewrite logPointMessages_atTry, gdb_atTry in Hinner.
  fold file desired table r s2 in Hinner.
  destruct (request_vs_tryBlock args s) as [Hgdb Hmem].
  fold run in Hgdb, Hmem. rewrite Hgdb.
  assert (Hlift : forall a, a <> PauseTarget -> a <> Command ExecContinue ->
                            a ∈ run.2 ->
                            a ∈ (tryCatch (tryBody args) (sendErrorResponse 1) (atTry s)).2).
  { intros a Hp Hc Ha. by apply Hmem. }
  assert (Hback : forall a, a <> PauseTarget -> a <> Command ExecContinue ->
                            a ∈ (tryCatch (tryBody args) (sendErrorResponse 1) (atTry s)).2 ->
                            a ∈ run.2).
  { intros a Hp Hc Ha. by apply Hmem. }
  clear Hgdb Hmem. revert Hlift Hback. rewrite Hinner. clear Hinner.
  destruct (insertAll file (inserts r) (actual r) s2) as [[res s3] acts3].
  simpl in Hloop. destruct Hloop as (Hacts & new & Hnew & Hfresh & Hall).
  assert (Hsurvive : forall b, b ∈ table ++ new -> bkpt_number b ∉ deletes r ->
            b ∈ List.filter (fun b => negb (bool_decide (bkpt_number b ∈ deletes r)))
                  (table ++ new)).
  { intros b Hb Hnb. apply list_elem_of_In, List.filter_In.
    split; [by apply list_elem_of_In |].
    apply negb_true_iff, bool_decide_eq_false. done. }
  assert (Hnewdel : forall b, b ∈ new -> bkpt_number b ∉ deletes r).
  { intros b Hb Hin. by apply (Hfresh b Hb), Hsub. }
  assert (Hnewtable : forall b, b ∈ new -> b ∉ table).
  { intros b Hb Hin. apply (Hfresh b Hb). by apply list_elem_of_fmap_2. }
  (* the table after the [try] block holds the old entry and the new ones *)
  set (inner := match res with Ok _ => _ | Throw _ => _ end).
  assert (Hfinal : forall b, (b = i \/ b ∈ new) -> b ∈ installed (gdb inner.1.2)).
  { intros b Hb.
    assert (Hin : b ∈ table ++ new).
    { apply elem_of_app. destruct Hb as [->|Hb]; [by left | by right]. }
    assert (Hnd : bkpt_number b ∉ deletes r).
    { destruct Hb as [->|Hb]; [done | by apply Hnewdel]. }
    subst inner. destruct res as [actual|e]; [|simpl; by rewrite Hnew].
    destruct (bool_decide (deletes r ≠ [])); [|simpl; by rewrite Hnew].
    pose proof (delete_removes (deletes r) (gdb s3)) as Hlaw.
    destruct (execute (BreakDelete (deletes r)) (gdb s3)) as [g4 [[]|e]]; simpl;
      rewrite Hlaw, Hnew; [by apply Hsurvive | done]. }
  assert (Hdeleted : forall ids, Command (BreakDelete ids) ∈ inner.2 -> ids = deletes r).
  { intros ids Hin. subst inner. destruct res as [actual|e].
    - destruct (bool_decide (deletes r ≠ [])).
      + destruct (execute (BreakDelete (deletes r)) (gdb s3)) as [g4 [[]|e]]; simpl in Hin;
          apply elem_of_cons in Hin as [[=]|Hin];
          apply elem_of_app in Hin as [Hin|Hin];
          try (by destruct (loopAction_not_delete _ _ Hacts Hin));
          apply elem_of_cons in Hin as [[= ->]|Hin]; try done;
          by apply list_elem_of_singleton in Hin.
      + simpl in Hin. apply elem_of_cons in Hin as [[=]|Hin].
        apply elem_of_app in Hin as [Hin|Hin];
          [by destruct (loopAction_not_delete _ _ Hacts Hin) |].
        by apply list_elem_of_singleton in Hin.
    - simpl in Hin. apply elem_of_cons in Hin as [[=]|Hin].
      apply elem_of_app in Hin as [Hin|Hin];
        [by destruct (loopAction_not_delete _ _ Hacts Hin) |].
      by apply list_elem_of_singleton in Hin. }
  assert (Hresponded : forall actual, SendResponse (BreakpointsBody actual) ∈ inner.2 ->
                                      exists actual', res = Ok actual').
  { intros actual Hin. subst inner. destruct res as [actual'|e]; [by eexists |].
    simpl in Hin. apply elem_of_cons in Hin as [[=]|Hin].
    apply elem_of_app in Hin as [Hin|Hin];
      [by destruct (loopAction_not_response _ _ Hacts Hin) |].
    by apply list_elem_of_singleton in Hin. }
  assert (Hloopacts : forall a, a ∈ acts3 -> a ∈ inner.2).
  { intros a Ha. subst inner. destruct res as [actual|e].
    - destruct (bool_decide (deletes r ≠ [])).
      + destruct (execute (BreakDelete (deletes r)) (gdb s3)) as [g4 [[]|e]]; simpl;
          apply elem_of_cons; right; apply elem_of_app; by left.
      + simpl. apply elem_of_cons; right; apply elem_of_app; by left.
    - simpl. apply elem_of_cons; right; apply elem_of_app; by left. }
  clearbody inner. intros Hlift Hback.
  split; [|split].
  - intros ids Hin. apply Hlift in Hin; [|done..].
    by rewrite (Hdeleted ids Hin).
  - apply Hfinal. by left.
  - intros t ic actual Hun Hdec Hresp.
    apply Hlift in Hresp; [|done..].
    destruct (Hresponded actual Hresp) as [actual' ->].
    destruct (Hall actual' eq_refl d t ic (Hins Hun) Hdec)
      as (Hcmd & b & Hb & Hbfile & Hbline & Hbcond).
    split; [apply Hback; [done | done | by apply Hloopacts] |].
    exists b. split; [apply Hfinal; by right |].
    split; [by apply Hnewtable |]. split; [done |]. split; [|done].
    rewrite Hbline. simpl. rewrite JSFacts.parseInt_toString.
    unfold lineIs in Hline. by apply bool_decide_eq_true in Hline.
Qed.

End Pass.

Import ReferenceDebugger ReferenceDebuggerFacts.

(** Two breakpoints desired, both installed, a third in another file. *)
Lemma equal_sets_send_nothing_example :
  ((forall d, d ∈ [line10empty; line20when] ->
      exists i, i ∈ [at10; at20when; elsewhere]
                /\ inFile "main.c" i = true /\ matches i d = true)
   /\ (forall i, i ∈ [at10; at20when; elsewhere] -> inFile "main.c" i = true ->
         exists d, d ∈ [line10empty; line20when] /\ matches i d = true))
  /\ List.filter isBreakInsert
       (commandsOf (setBreakPointsRequest (request [line10empty; line20when])
                                          (debugging [at10; at20when; elsewhere])).2)
     = []
  /\ List.filter isBreakDelete
       (commandsOf (setBreakPointsRequest (request [line10empty; line20when])
                                          (debugging [at10; at20when; elsewhere])).2)
     = []
  /\ installed (gdb (setBreakPointsRequest (request [line10empty; line20when])
                                           (debugging [at10; at20when; elsewhere])).1.2)
     = [at10; at20when; elsewhere]
  /\ exists actual,
      SendResponse (BreakpointsBody actual)
        ∈ (setBreakPointsRequest (request [line10empty; line20when])
                                 (debugging [at10; at20when; elsewhere])).2
      /\ actual ≡ₚ [createActual at10; createActual at20when]
      /\ length actual = 2%nat.
Proof.
  assert (H1 : forall d, d ∈ [line10empty; line20when] ->
             exists i, i ∈ [at10; at20when; elsewhere]
                       /\ inFile "main.c" i = true /\ matches i d = true).
  { intros d Hd. apply elem_of_cons in Hd as [->|Hd].
    - exists at10. split; [apply elem_of_cons; by left | by split].
    - apply list_elem_of_singleton in Hd as ->. exists at20when.
      split; [apply elem_of_cons; right; apply elem_of_cons; by left | by split]. }
  assert (H2 : forall i, i ∈ [at10; at20when; elsewhere] -> inFile "main.c" i = true ->
             exists d, d ∈ [line10empty; line20when] /\ matches i d = true).
  { intros i Hi Hf. apply elem_of_cons in Hi as [->|Hi].
    - exists line10empty. split; [apply elem_of_cons; by left | done].
    - apply elem_of_cons in Hi as [->|Hi].
      + exists line20when.
        split; [apply elem_of_cons; right; apply elem_of_cons; by left | done].
      + apply list_elem_of_singleton in Hi as ->. discriminate Hf. }
  split; [done |].
  pose proof (equal_sets_send_nothing (request [line10empty; line20when])
                (debugging [at10; at20when; elsewhere]) H1 H2)
    as (Hins & Hdel & Hkept & actual & Hsent & _ & Hfirsts & _ & Hlength).
  split; [exact Hins |]. split; [exact Hdel |]. split; [exact Hkept |].
  exists actual. split; [exact Hsent |]. split; [exact Hfirsts | exact Hlength].
Defined.

(** C1 as the specification words it fails: with two installed entries
    at line 10 under the same (absent) condition and line 10 desired,
    the two sets are equal, yet the response lists the first entry
    only. *)
Lemma equal_sets_duplicate_not_listed :
  (forall d, d ∈ [line10] ->
     exists i, i ∈ [at10; at10again] /\ inFile "main.c" i = true /\ matches i d = true)
  /\ (forall i, i ∈ [at10; at10again] -> inFile "main.c" i = true ->
        exists d, d ∈ [line10] /\ matches i d = true)
  /\ (setBreakPointsRequest (request [line10]) (debugging [at10; at10again])).2
     = [Command BreakList; SendResponse (BreakpointsBody [createActual at10])]
  /\ createActual at10again ∉ [createActual at10].
Proof.
  split; [|split; [|split]].
  - intros d Hd. apply list_elem_of_singleton in Hd as ->.
    exists at10. split; [apply elem_of_cons; by left | by split].
  - intros i Hi _. exists line10.
    split; [by apply list_elem_of_singleton |].
    apply elem_of_cons in Hi as [->|Hi]; [done |].
    by apply list_elem_of_singleton in Hi as ->.
  - by vm_compute.
  - intros Hin. apply list_elem_of_singleton in Hin. discriminate Hin.
Qed.

(** Line 10 is installed under condition [x] and desired under [y]. *)
Lemma line_match_keeps_mismatch_adds_example :
  (NoDup (map bkpt_number [at10when])
   /\ at10when ∈ [at10when] /\ inFile "main.c" at10when = true
   /\ line10whenY ∈ [line10whenY]
   /\ lineIs (JS.parseIntOpt (bkpt_line at10when)) line10whenY = true
   /\ unmatched "main.c" [at10when] line10whenY = true
   /\ decodeHitCondition (vsbp_hitCondition line10whenY) = Some (false, None)
   /\ SendResponse (BreakpointsBody [mkBreakpoint (Some 2) (Some 10) true])
      ∈ (setBreakPointsRequest (request [line10whenY]) (debugging [at10when])).2)
  /\ at10when
     ∈ installed (gdb (setBreakPointsRequest (request [line10whenY])
                                             (debugging [at10when])).1.2)
  /\ exists b,
      b ∈ installed (gdb (setBreakPointsRequest (request [line10whenY])
                                                (debugging [at10when])).1.2)
      /\ (b ∉ [at10when])
      /\ bkpt_fullname b = Some "main.c"
      /\ JS.parseIntOpt (bkpt_line b) = JS.parseIntOpt (bkpt_line at10when)
      /\ bkpt_cond b = Some "y".
Proof.
  assert (H1 : NoDup (map bkpt_number [at10when])) by (repeat constructor; set_solver).
  assert (H2 : at10when ∈ [at10when]) by (by apply list_elem_of_singleton).
  assert (H3 : inFile "main.c" at10when = true) by reflexivity.
  assert (H4 : line10whenY ∈ [line10whenY]) by (by apply list_elem_of_singleton).
  assert (H5 : lineIs (JS.parseIntOpt (bkpt_line at10when)) line10whenY = true)
    by reflexivity.
  assert (H6 : unmatched "main.c" [at10when] line10whenY = true) by reflexivity.
  assert (H7 : decodeHitCondition (vsbp_hitCondition line10whenY) = Some (false, None))
    by reflexivity.
  assert (H8 : SendResponse (BreakpointsBody [mkBreakpoint (Some 2) (Some 10) true])
               ∈ (setBreakPointsRequest (request [line10whenY]) (debugging [at10when])).2).
  { vm_compute. apply elem_of_cons; right. apply elem_of_cons; right.
    by apply list_elem_of_singleton. }
  split; [done |].
  pose proof (line_match_keeps_mismatch_adds (request [line10whenY]) (debugging [at10when])
                at10when line10whenY H1 H2 H3 H4 H5) as (_ & Hkept & Hadds).
  split; [exact Hkept |].
  destruct (Hadds false None _ H6 H7 H8) as (_ & b & Hb).
  by exists b.
Defined.

(** C9 as the specification words it fails.  Line 10 is installed under
    condition [x] and desired under [y] with a hit count that does not
    decode: the old entry stays, nothing is inserted, and the table holds
    one breakpoint at the line, not two.  And with line 10 installed
    under [x] and under [y] and desired under [y], the desired breakpoint
    differs in condition from the first entry but is matched by the
    second: it is not installed as a new breakpoint. *)
Lemma mismatch_with_undecodable_hit_count_adds_nothing :
  (lineIs (JS.parseIntOpt (bkpt_line at10when)) line10whenYabc = true
   /\ condDiffers at10when line10whenYabc = true
   /\ (setBreakPointsRequest (request [line10whenYabc]) (debugging [at10when])).2
      = [Command BreakList;
         SendEvent (OutputEvent "Unable to decode expression: abc");
         SendResponse (BreakpointsBody [])]
   /\ installed (gdb (setBreakPointsRequest (request [line10whenYabc])
                                            (debugging [at10when])).1.2)
      = [at10when])
  /\ (lineIs (JS.parseIntOpt (bkpt_line at10when)) line10whenY = true
      /\ condDiffers at10when line10whenY = true
      /\ (setBreakPointsRequest (request [line10whenY])
                                (debugging [at10when; at10whenY])).2
         = [Command BreakList; SendResponse (BreakpointsBody [createActual at10whenY])]
      /\ installed (gdb (setBreakPointsRequest (request [line10whenY])
                                               (debugging [at10when; at10whenY])).1.2)
         = [at10when; at10whenY]).
Proof. by vm_compute. Qed.

End ReconcilerSpec.

Module HitConditionSpec.
Import CmsisDebugSession ReconcilerSpec.
Import JS.

Lemma removeAll_pretty_N_go (x : N) (s : string) :
  removeAll ignoreCountRegex (pretty_N_go x s)
  = pretty_N_go x (removeAll ignoreCountRegex s).
Proof.
  revert s. induction x as [x IH] using (well_founded_induction N.lt_wf_0).
  intros s. destruct (decide (0 < x)%N) as [Hx|Hx].
  - rewrite (pretty_N_go_step x s), (pretty_N_go_step x (removeAll ignoreCountRegex s))
      by done.
    rewrite IH by (apply N.div_lt; lia). f_equal.
    assert (Hd : (x `mod` 10 < 10)%N) by (apply N.mod_lt; lia).
    JSFacts.each_digit (x `mod` 10)%N Hd; reflexivity.
  - assert (x = 0%N) as -> by lia. by rewrite !pretty_N_go_0.
Qed.

(** A bare count: the text of a number that is not negative. *)
Lemma bare_count (n : Z) :
  0 <= n ->
  parseInt (removeAll ignoreCountRegex (toString n)) = Some n
  /\ startsWith ">" (toString n) = false.
Proof.
  intros Hn. destruct n as [|p|p]; [done | | lia].
  assert (Hstrip : removeAll ignoreCountRegex (toString (Z.pos p)) = toString (Z.pos p)).
  { unfold toString, pretty, pretty_Z, pretty, pretty_positive, pretty, pretty_N.
    rewrite decide_False by done. by rewrite removeAll_pretty_N_go. }
  rewrite Hstrip. split; [apply JSFacts.parseInt_toString |].
  unfold toString, pretty, pretty_Z, pretty, pretty_positive, pretty, pretty_N.
  rewrite decide_False by done.
  destruct (JSFacts.pretty_N_go_head (N.pos p) "") as (d & rest & Hd & ->); [lia |].
  JSFacts.each_digit d Hd; reflexivity.
Qed.

Lemma removeAll_blank (ws t : string) :
  isBlank ws = true ->
  removeAll ignoreCountRegex (ws +:+ t) = removeAll ignoreCountRegex t.
Proof.
  induction ws as [|c ws IH]; intros Hws; [done |].
  simpl in Hws. apply andb_true_iff in Hws as [Hc Hws].
  rewrite JSFacts.append_cons. simpl. unfold ignoreCountRegex at 1. rewrite Hc.
  simpl. by apply IH.
Qed.

(** A count behind ['>'], white space allowed in between. *)
Lemma prefixed_count (n : Z) (ws : string) :
  0 <= n -> isBlank ws = true ->
  parseInt (removeAll ignoreCountRegex (">" +:+ ws +:+ toString n)) = Some n
  /\ startsWith ">" (">" +:+ ws +:+ toString n) = true.
Proof.
  intros Hn Hws. split.
  2: { unfold startsWith.
       change (">" +:+ ws +:+ toString n) with (String ">"%char (ws +:+ toString n)).
       simpl. by destruct (ws +:+ toString n). }
  change (">" +:+ ws +:+ toString n) with (String ">"%char (ws +:+ toString n)).
  change (removeAll ignoreCountRegex (String ">"%char (ws +:+ toString n)))
    with (removeAll ignoreCountRegex (ws +:+ toString n)).
  rewrite removeAll_blank by done. by apply bare_count.
Qed.

Section Loop.
Context {G : Type} `{!Environment G}.

(** The turn of the loop for a hit condition in which [parseInt] reads
    a number once white space and ['>'] are removed. *)
Lemma hit_condition_number (file : string) (vsbp : SourceBreakpoint)
      (rest : list SourceBreakpoint) (actual : list Breakpoint)
      (s : Session G) (hc : string) (n : Z) :
  vsbp_hitCondition vsbp = Some hc ->
  parseInt (removeAll ignoreCountRegex hc) = Some n ->
  insertAll file (vsbp :: rest) actual s
  = (actual' ← insertOne file vsbp (negb (startsWith ">" hc)) (Some n) actual;
     insertAll file rest actual') s
  /\ head (insertAll file (vsbp :: rest) actual s).2
     = Some (Command (BreakInsert
                        (insertOptions file vsbp (negb (startsWith ">" hc)) (Some n)))).
Proof.
  intros Hhc Hn.
  assert (Hrun : insertAll file (vsbp :: rest) actual s
                 = (actual' ← insertOne file vsbp (negb (startsWith ">" hc)) (Some n) actual;
                    insertAll file rest actual') s).
  { rewrite insertAll_cons. unfold decodeHitCondition. by rewrite Hhc, Hn. }
  split; [exact Hrun |]. rewrite Hrun. unfold mbind, M_bind, bind.
  rewrite insertOne_run. destruct (execute _ (gdb s)) as [g' [b|e]]; [|done].
  by destruct (insertAll file rest _ _) as [[??]?].
Qed.

(** C2, as the code has it. A desired breakpoint that reaches the
    insertion loop with a hit-count string.  A bare count: the turn is
    the insertion of a temporary breakpoint (the count is its
    ignore-count too), then the rest of the loop.  A count behind ['>']:
    the turn is the insertion of a persistent breakpoint with that
    ignore-count, then the rest of the loop.  A string in which
    [parseInt] reads no number once white space and ['>'] are removed:
    the turn sends one diagnostic, inserts nothing, and the loop goes on
    with the remaining entries from the same session and result. *)
Theorem hit_condition_forms (file : string) (vsbp : SourceBreakpoint)
        (rest : list SourceBreakpoint) (actual : list Breakpoint)
        (s : Session G) (hc : string) :
  vsbp_hitCondition vsbp = Some hc ->
  let run := insertAll file (vsbp :: rest) actual s in
  (forall n, 0 <= n -> hc = toString n ->
     run = (actual' ← insertOne file vsbp true (Some n) actual;
            insertAll file rest actual') s
     /\ head run.2
        = Some (Command (BreakInsert (insertOptions file vsbp true (Some n)))))
  /\ (forall n ws, 0 <= n -> isBlank ws = true -> hc = ">" +:+ ws +:+ toString n ->
        run = (actual' ← insertOne file vsbp false (Some n) actual;
               insertAll file rest actual') s
        /\ head run.2
           = Some (Command (BreakInsert (insertOptions file vsbp false (Some n)))))
  /\ (parseInt (removeAll ignoreCountRegex hc) = NaN ->
        run = let '(res, s', acts) := insertAll file rest actual s in
              (res, s',
               SendEvent (OutputEvent ("Unable to decode expression: " +:+ hc)) :: acts)).
Proof.
  intros Hhc run. split; [|split].
  - intros n Hn Heq. destruct (bare_count n Hn) as [Hparse Hstart].
    rewrite <- Heq in Hparse, Hstart.
    pose proof (hit_condition_number file vsbp rest actual s hc n Hhc Hparse) as Hturn.
    rewrite Hstart in Hturn. exact Hturn.
  - intros n ws Hn Hws Heq. destruct (prefixed_count n ws Hn Hws) as [Hparse Hstart].
    rewrite <- Heq in Hparse, Hstart.
    pose proof (hit_condition_number file vsbp rest actual s hc n Hhc Hparse) as Hturn.
    rewrite Hstart in Hturn. exact Hturn.
  - intros Hnan. subst run. rewrite insertAll_cons. unfold decodeHitCondition.
    rewrite Hhc, Hnan. simpl. unfold mbind, M_bind, bind, sendEvent, perform.
    by destruct (insertAll file rest actual s) as [[??]?].
Qed.
End Loop.

Import ReferenceDebugger.

(** Hit counts [7] and [> 7] on breakpoints not yet installed. *)
Lemma hit_condition_forms_example :
  (vsbp_hitCondition line10hit7 = Some "7" /\ 0 <= 7 /\ "7" = JS.toString 7
   /\ vsbp_hitCondition line20above7 = Some "> 7" /\ isBlank " " = true
   /\ "> 7" = ">" +:+ " " +:+ JS.toString 7)
  /\ head (insertAll "main.c" [line10hit7] [] (debugging [])).2
     = Some (Command (BreakInsert (mkMIBreakInsertOptions "main.c:10" None true (Some 7))))
  /\ head (insertAll "main.c" [line20above7] [] (debugging [])).2
     = Some (Command (BreakInsert (mkMIBreakInsertOptions "main.c:20" None false (Some 7)))).
Proof.
  assert (H1 : vsbp_hitCondition line10hit7 = Some "7") by reflexivity.
  assert (H2 : 0 <= 7) by lia.
  assert (H3 : "7" = JS.toString 7) by reflexivity.
  assert (H4 : vsbp_hitCondition line20above7 = Some "> 7") by reflexivity.
  assert (H5 : isBlank " " = true) by reflexivity.
  assert (H6 : "> 7" = ">" +:+ " " +:+ JS.toString 7) by reflexivity.
  split; [done |]. split.
  - exact (proj2 (proj1 (hit_condition_forms "main.c" line10hit7 [] [] (debugging [])
                                             "7" H1)
                        7 H2 H3)).
  - exact (proj2 (proj1 (proj2 (hit_condition_forms "main.c" line20above7 [] []
                                                    (debugging []) "> 7" H4))
                        7 " " H2 H5 H6)).
Defined.

(** C2 as the specification words it fails. The hit count [3abc] is
    neither a bare count nor a count behind ['>'], yet the breakpoint
    is inserted (temporary, ignore-count 3) and no diagnostic is sent;
    and the hit count [abc] of a desired breakpoint that an installed
    entry matches is never looked at: no diagnostic either. *)
Lemma other_forms_are_not_all_refused :
  ((forall n, "3abc" <> JS.toString n)
   /\ (forall n ws, "3abc" <> ">" +:+ ws +:+ JS.toString n))
  /\ (setBreakPointsRequest (request [line10hit3abc]) (debugging [])).2
     = [Command BreakList;
        Command (BreakInsert (mkMIBreakInsertOptions "main.c:10" None true (Some 3)));
        SendResponse (BreakpointsBody [mkBreakpoint (Some 1) (Some 10) true])]
  /\ (setBreakPointsRequest (request [line10hitabc]) (debugging [at10])).2
     = [Command BreakList; SendResponse (BreakpointsBody [createActual at10])].
Proof.
  split; [split |].
  - intros n Hn. pose proof (JSFacts.parseInt_toString n) as Hp.
    rewrite <- Hn in Hp. vm_compute in Hp. injection Hp as <-. discriminate Hn.
  - intros n ws Hn. discriminate Hn.
  - split; by vm_compute.
Qed.

End HitConditionSpec.

Module SupervisorSpec.
Import AbstractServer.

Lemma settlements_app l1 l2 : settlements (l1 ++ l2) = settlements l1 ++ settlements l2.
Proof. apply List.filter_app. Qed.

Lemma errorsOf_app l1 l2 : errorsOf (l1 ++ l2) = errorsOf l1 ++ errorsOf l2.
Proof. apply omap_app. Qed.

Lemma eventsOn_app event l1 l2 :
  eventsOn event (l1 ++ l2) = eventsOn event l1 ++ eventsOn event l2.
Proof. apply omap_app. Qed.

(** What [onSpawnError] does, by whether a start is pending. *)
Lemma onSpawnError_cases error s :
  match launchReject s with
  | Some p =>
      launchResolve (onSpawnError error s) = None
      /\ launchReject (onSpawnError error s) = None
      /\ timer (onSpawnError error s) = None
      /\ log (onSpawnError error s)
         = log s ++ match timer s with Some t => [ClearTimeout t] | None => [] end
                 ++ [LaunchReject p error]
  | None => onSpawnError error s = s
  end
  /\ outBuffer (onSpawnError error s) = outBuffer s
  /\ errBuffer (onSpawnError error s) = errBuffer s.
Proof.
  unfold onSpawnError, clearTimer.
  destruct (launchReject s) as [p|]; [|done].
  destruct (timer s) as [t|] eqn:Ht; simpl; rewrite <- ?app_assoc, ?Ht; done.
Qed.

Section Supervisor.
Context `{ConcreteServer} `{ErrorListeners}.

(** What [handleData] does to the pending start. *)
Lemma handleData_cases data s :
  match launchResolve s with
  | Some p =>
      if serverStarted data
      then launchResolve (handleData data s) = None
           /\ launchReject (handleData data s) = None
           /\ timer (handleData data s) = None
           /\ settlements (log (handleData data s)) = settlements (log s) ++ [LaunchResolve p]
           /\ clearedTimers (log (handleData data s))
              = clearedTimers (log s) ++ match timer s with Some t => [t] | None => [] end
      else launchResolve (handleData data s) = launchResolve s
           /\ launchReject (handleData data s) = launchReject s
           /\ timer (handleData data s) = timer s
           /\ settlements (log (handleData data s)) = settlements (log s)
           /\ clearedTimers (log (handleData data s)) = clearedTimers (log s)
  | None =>
      launchResolve (handleData data s) = launchResolve s
      /\ launchReject (handleData data s) = launchReject s
      /\ timer (handleData data s) = timer s
      /\ settlements (log (handleData data s)) = settlements (log s)
      /\ clearedTimers (log (handleData data s)) = clearedTimers (log s)
  end.
Proof.
  rewrite AbstractServerSpec.handleData_log. unfold handleData, clearTimer.
  destruct (launchResolve s) as [p|] eqn:Hp, (serverStarted data), (timer s) as [t|] eqn:Ht,
    (serverError data); simpl;
    rewrite ?settlements_app, ?AbstractServerSpec.clearedTimers_app; simpl;
    rewrite ?app_nil_r, ?Hp, ?Ht; done.
Qed.

(** [onData] passes the pending start through [handleData] at most
    once and writes nothing else that settles or clears. *)
Lemma onData_cases chunk event s :
  (exists data,
      launchResolve (onData chunk event s) = launchResolve (handleData data s)
      /\ launchReject (onData chunk event s) = launchReject (handleData data s)
      /\ timer (onData chunk event s) = timer (handleData data s)
      /\ settlements (log (onData chunk event s)) = settlements (log (handleData data s))
      /\ clearedTimers (log (onData chunk event s)) = clearedTimers (log (handleData data s)))
  \/ (launchResolve (onData chunk event s) = launchResolve s
      /\ launchReject (onData chunk event s) = launchReject s
      /\ timer (onData chunk event s) = timer s
      /\ settlements (log (onData chunk event s)) = settlements (log s)
      /\ clearedTimers (log (onData chunk event s)) = clearedTimers (log s)).
Proof.
  unfold onData.
  destruct (JS.lastIndexOf JS.LF _) as [e|]; [left | right; by destruct event].
  set (s1 := setBuffer event (buffer event s +:+ chunk) s).
  set (data := JS.substring 0 e (buffer event s1)).
  exists data.
  pose proof (handleData_cases data (emit (EmitData event data) s1)) as H1.
  pose proof (handleData_cases data s) as H2.
  assert (Hf : launchResolve (emit (EmitData event data) s1) = launchResolve s
               /\ launchReject (emit (EmitData event data) s1) = launchReject s
               /\ timer (emit (EmitData event data) s1) = timer s
               /\ settlements (log (emit (EmitData event data) s1)) = settlements (log s)
               /\ clearedTimers (log (emit (EmitData event data) s1)) = clearedTimers (log s)).
  { subst s1. destruct event; simpl;
      rewrite settlements_app, AbstractServerSpec.clearedTimers_app; simpl;
      rewrite !app_nil_r; done. }
  destruct Hf as (Hr & Hj & Ht & Hs & Hc).
  rewrite Hr, Ht, Hs, Hc in H1. rewrite Hj in H1.
  assert (Hset : forall b x,
             launchResolve (setBuffer event b x) = launchResolve x
             /\ launchReject (setBuffer event b x) = launchReject x
             /\ timer (setBuffer event b x) = timer x
             /\ log (setBuffer event b x) = log x).
  { intros b x. by destruct event. }
  assert (Hleft : forall x : Server,
             x = handleData data (emit (EmitData event data) s1) ->
             launchResolve x = launchResolve (handleData data s)
             /\ launchReject x = launchReject (handleData data s)
             /\ timer x = timer (handleData data s)
             /\ settlements (log x) = settlements (log (handleData data s))
             /\ clearedTimers (log x) = clearedTimers (log (handleData data s))).
  { intros x ->.
    destruct (launchResolve s) as [p|]; [destruct (serverStarted data) |];
      destruct H1 as (-> & -> & -> & -> & ->), H2 as (-> & -> & -> & -> & ->); done. }
  destruct (handleDataThrows data); [by apply Hleft |].
  destruct (Hset (JS.substringFrom (e + 1)
                    (buffer event (handleData data (emit (EmitData event data) s1))))
                 (handleData data (emit (EmitData event data) s1)))
    as (-> & -> & -> & ->).
  by apply Hleft.
Qed.

(** One callback: either it settles nothing and revives no promise, or
    a start was pending and it settles it, once, leaving none pending. *)
Lemma dispatch_settles c s :
  (settlements (log (dispatch c s)) = settlements (log s)
   /\ (launchResolve s = None -> launchResolve (dispatch c s) = None)
   /\ (launchReject s = None -> launchReject (dispatch c s) = None))
  \/ ((launchResolve s <> None \/ launchReject s <> None)
      /\ (exists e, settlements (log (dispatch c s)) = settlements (log s) ++ [e])
      /\ launchResolve (dispatch c s) = None
      /\ launchReject (dispatch c s) = None).
Proof.
  assert (Hdata : forall data,
            (settlements (log (handleData data s)) = settlements (log s)
             /\ (launchResolve s = None -> launchResolve (handleData data s) = None)
             /\ (launchReject s = None -> launchReject (handleData data s) = None))
            \/ ((launchResolve s <> None \/ launchReject s <> None)
                /\ (exists e, settlements (log (handleData data s)) = settlements (log s) ++ [e])
                /\ launchResolve (handleData data s) = None
                /\ launchReject (handleData data s) = None)).
  { intros data. pose proof (handleData_cases data s) as Hc.
    destruct (launchResolve s) as [p|] eqn:Hp; [destruct (serverStarted data) |].
    - right. destruct Hc as (? & ? & _ & ? & _). split; [by left |]. split; [by eexists | done].
    - left. destruct Hc as (-> & -> & _ & -> & _). done.
    - left. destruct Hc as (-> & -> & _ & -> & _). done. }
  assert (Hspawn : forall error,
            (settlements (log (onSpawnError error s)) = settlements (log s)
             /\ (launchResolve s = None -> launchResolve (onSpawnError error s) = None)
             /\ (launchReject s = None -> launchReject (onSpawnError error s) = None))
            \/ ((launchResolve s <> None \/ launchReject s <> None)
                /\ (exists e, settlements (log (onSpawnError error s))
                              = settlements (log s) ++ [e])
                /\ launchResolve (onSpawnError error s) = None
                /\ launchReject (onSpawnError error s) = None)).
  { intros error. destruct (onSpawnError_cases error s) as [Hc _].
    destruct (launchReject s) as [p|] eqn:Hp.
    - right. destruct Hc as (? & ? & _ & Hlog). split; [by right |].
      split; [|done]. exists (LaunchReject p error). rewrite Hlog, !settlements_app.
      destruct (timer s); simpl; by rewrite ?app_nil_r.
    - left. by rewrite Hc. }
  assert (Hchunk : forall chunk event,
            (settlements (log (onData chunk event s)) = settlements (log s)
             /\ (launchResolve s = None -> launchResolve (onData chunk event s) = None)
             /\ (launchReject s = None -> launchReject (onData chunk event s) = None))
            \/ ((launchResolve s <> None \/ launchReject s <> None)
                /\ (exists e, settlements (log (onData chunk event s))
                              = settlements (log s) ++ [e])
                /\ launchResolve (onData chunk event s) = None
                /\ launchReject (onData chunk event s) = None)).
  { intros chunk event.
    destruct (onData_cases chunk event s) as [(data & -> & -> & _ & -> & _)
                                             |(-> & -> & _ & -> & _)];
      [apply Hdata | by left]. }
  destruct c as [code signal|error|chunk|chunk|]; simpl.
  - left. unfold onExit. destruct (codeTruthy code); simpl;
      rewrite !settlements_app; simpl; rewrite ?app_nil_r; done.
  - apply Hspawn.
  - apply Hchunk.
  - apply Hchunk.
  - apply Hspawn.
Qed.

(** X1. Whatever callbacks arrive, and in whatever order, the start
    promise is settled (resolved or rejected) at most once; and when no
    start is pending nothing is settled at all. *)
Theorem start_settled_at_most_once (cbs : list Callback) (s : Server) :
  exists new,
    settlements (log (receive cbs s)) = settlements (log s) ++ new
    /\ (length new <= 1)%nat
    /\ (launchResolve s = None -> launchReject s = None -> new = []).
Proof.
  revert s. induction cbs as [|c cbs IH]; intros s.
  { exists []. rewrite app_nil_r. split; [done |]. split; [simpl; lia | done]. }
  change (receive (c :: cbs) s) with (receive cbs (dispatch c s)).
  destruct (IH (dispatch c s)) as (new & Hlog & Hlen & Hnone).
  destruct (dispatch_settles c s) as [(Hsame & Hr & Hj)|(Hpending & [e He] & Hr & Hj)].
  - exists new. rewrite Hlog, Hsame. split; [done |]. split; [done |].
    intros Hr0 Hj0. apply Hnone; [by apply Hr | by apply Hj].
  - exists (e :: new). rewrite Hlog, He, <- app_assoc.
    rewrite (Hnone Hr Hj). split; [done |]. split; [simpl; lia |].
    intros Hr0 Hj0. destruct Hpending as [Hp|Hp]; by destruct Hp.
Qed.

(** The state of the start after one callback. *)
Lemma dispatch_start c s :
  (launchResolve (dispatch c s) = launchResolve s
   /\ launchReject (dispatch c s) = launchReject s
   /\ timer (dispatch c s) = timer s
   /\ settlements (log (dispatch c s)) = settlements (log s)
   /\ clearedTimers (log (dispatch c s)) = clearedTimers (log s))
  \/ (quiet (dispatch c s)
      /\ clearedTimers (log (dispatch c s))
         = clearedTimers (log s) ++ match timer s with Some t => [t] | None => [] end
      /\ ((exists p, launchResolve s = Some p
                     /\ settlements (log (dispatch c s))
                        = settlements (log s) ++ [LaunchResolve p])
          \/ (exists p error, launchReject s = Some p
                              /\ settlements (log (dispatch c s))
                                 = settlements (log s) ++ [LaunchReject p error]))).
Proof.
  assert (Hdata : forall data,
            (launchResolve (handleData data s) = launchResolve s
             /\ launchReject (handleData data s) = launchReject s
             /\ timer (handleData data s) = timer s
             /\ settlements (log (handleData data s)) = settlements (log s)
             /\ clearedTimers (log (handleData data s)) = clearedTimers (log s))
            \/ (quiet (handleData data s)
                /\ clearedTimers (log (handleData data s))
                   = clearedTimers (log s) ++ match timer s with Some t => [t] | None => [] end
                /\ ((exists p, launchResolve s = Some p
                               /\ settlements (log (handleData data s))
                                  = settlements (log s) ++ [LaunchResolve p])
                    \/ (exists p error, launchReject s = Some p
                                        /\ settlements (log (handleData data s))
                                           = settlements (log s) ++ [LaunchReject p error])))).
  { intros data. pose proof (handleData_cases data s) as Hc.
    destruct (launchResolve s) as [p|] eqn:Hp; [destruct (serverStarted data) |].
    - right. destruct Hc as (? & ? & ? & ? & ?). split; [done |]. split; [done |].
      left. by exists p.
    - by left.
    - by left. }
  assert (Hspawn : forall error,
            (launchResolve (onSpawnError error s) = launchResolve s
             /\ launchReject (onSpawnError error s) = launchReject s
             /\ timer (onSpawnError error s) = timer s
             /\ settlements (log (onSpawnError error s)) = settlements (log s)
             /\ clearedTimers (log (onSpawnError error s)) = clearedTimers (log s))
            \/ (quiet (onSpawnError error s)
                /\ clearedTimers (log (onSpawnError error s))
                   = clearedTimers (log s) ++ match timer s with Some t => [t] | None => [] end
                /\ ((exists p, launchResolve s = Some p
                               /\ settlements (log (onSpawnError error s))
                                  = settlements (log s) ++ [LaunchResolve p])
                    \/ (exists p error', launchReject s = Some p
                                         /\ settlements (log (onSpawnError error s))
                                            = settlements (log s) ++ [LaunchReject p error'])))).
  { intros error. destruct (onSpawnError_cases error s) as [Hc _].
    destruct (launchReject s) as [p|] eqn:Hp.
    - right. destruct Hc as (? & ? & ? & Hlog). split; [done |].
      rewrite Hlog, !settlements_app, !AbstractServerSpec.clearedTimers_app.
      split; [destruct (timer s); simpl; by rewrite ?app_nil_r |].
      right. exists p, error. split; [done |].
      destruct (timer s); simpl; by rewrite ?app_nil_r.
    - left. by rewrite Hc. }
  assert (Hchunk : forall chunk event,
            (launchResolve (onData chunk event s) = launchResolve s
             /\ launchReject (onData chunk event s) = launchReject s
             /\ timer (onData chunk event s) = timer s
             /\ settlements (log (onData chunk event s)) = settlements (log s)
             /\ clearedTimers (log (onData chunk event s)) = clearedTimers (log s))
            \/ (quiet (onData chunk event s)
                /\ clearedTimers (log (onData chunk event s))
                   = clearedTimers (log s) ++ match timer s with Some t => [t] | None => [] end
                /\ ((exists p, launchResolve s = Some p
                               /\ settlements (log (onData chunk event s))
                                  = settlements (log s) ++ [LaunchResolve p])
                    \/ (exists p error, launchReject s = Some p
                                        /\ settlements (log (onData chunk event s))
                                           = settlements (log s) ++ [LaunchReject p error])))).
  { intros chunk event. unfold quiet.
    destruct (onData_cases chunk event s) as [(data & -> & -> & -> & -> & ->)|?];
      [apply Hdata | by left]. }
  destruct c as [code signal|error|chunk|chunk|]; simpl.
  - left. unfold onExit. destruct (codeTruthy code); simpl;
      rewrite !settlements_app, !AbstractServerSpec.clearedTimers_app; simpl;
      rewrite ?app_nil_r; done.
  - apply Hspawn.
  - apply Hchunk.
  - apply Hchunk.
  - apply Hspawn.
Qed.

(** Once no start is pending and no timer is armed, callbacks settle
    and clear nothing. *)
Lemma receive_quiet cbs s :
  quiet s ->
  quiet (receive cbs s)
  /\ settlements (log (receive cbs s)) = settlements (log s)
  /\ clearedTimers (log (receive cbs s)) = clearedTimers (log s).
Proof.
  revert s. induction cbs as [|c cbs IH]; intros s Hq; [done |].
  change (receive (c :: cbs) s) with (receive cbs (dispatch c s)).
  destruct Hq as (Hr & Hj & Ht).
  destruct (dispatch_start c s) as [(Hr1 & Hj1 & Ht1 & Hs1 & Hc1)|(_ & _ & [Hs|Hs])].
  - rewrite <- Hs1, <- Hc1. apply IH. unfold quiet. by rewrite Hr1, Hj1, Ht1.
  - destruct Hs as (p & Hp & _). by rewrite Hr in Hp.
  - destruct Hs as (p & error & Hp & _). by rewrite Hj in Hp.
Qed.

(** While the start is pending, callbacks leave it pending or settle
    it once. *)
Lemma receive_pending cbs s p t :
  pendingOn p t s ->
  (pendingOn p t (receive cbs s)
   /\ settlements (log (receive cbs s)) = settlements (log s)
   /\ clearedTimers (log (receive cbs s)) = clearedTimers (log s))
  \/ (quiet (receive cbs s)
      /\ clearedTimers (log (receive cbs s)) = clearedTimers (log s) ++ [t]
      /\ exists e, settlements (log (receive cbs s)) = settlements (log s) ++ [e]
                   /\ (e = LaunchResolve p \/ exists error, e = LaunchReject p error)).
Proof.
  revert s. induction cbs as [|c cbs IH]; intros s Hp; [by left |].
  change (receive (c :: cbs) s) with (receive cbs (dispatch c s)).
  destruct Hp as (Hr & Hj & Ht).
  destruct (dispatch_start c s) as [(Hr1 & Hj1 & Ht1 & Hs1 & Hc1)|(Hq & Hc1 & Hs)].
  - rewrite <- Hs1, <- Hc1. apply IH. unfold pendingOn. by rewrite Hr1, Hj1, Ht1.
  - right. destruct (receive_quiet cbs _ Hq) as (Hq2 & -> & ->).
    rewrite Hc1, Ht. split; [done |]. split; [done |].
    destruct Hs as [(p' & Hp' & ->)|(p' & error & Hp' & ->)].
    + rewrite Hr in Hp'. injection Hp' as <-. eexists. split; [done | by left].
    + rewrite Hj in Hp'. injection Hp' as <-. eexists. split; [done |].
      right. by exists error.
Qed.

(** X2. After [spawn], whatever callbacks arrive: either the start is
    still pending on its promise with its timer armed, and nothing was
    settled or cleared; or no start is pending, the promise was settled
    exactly once and the timer was cleared exactly once.  When the
    first to arrive is a failure (an exception of [spawn] itself, an
    [error] of the process, the startup timer), the promise is rejected
    with it, whatever follows. *)
Theorem spawn_lifecycle (p t : nat) (s0 : Server) (cbs : list Callback) :
  (let s := receive cbs (spawn p t s0) in
   (pendingOn p t s
    /\ settlements (log s) = settlements (log s0)
    /\ clearedTimers (log s) = clearedTimers (log s0))
   \/ (quiet s
       /\ clearedTimers (log s) = clearedTimers (log s0) ++ [t]
       /\ exists e, settlements (log s) = settlements (log s0) ++ [e]
                    /\ (e = LaunchResolve p \/ exists error, e = LaunchReject p error)))
  /\ (forall error,
        settlements (log (receive (ProcessError error :: cbs) (spawn p t s0)))
        = settlements (log s0) ++ [LaunchReject p error])
  /\ settlements (log (receive (TimerFired :: cbs) (spawn p t s0)))
     = settlements (log s0) ++ [LaunchReject p TIMEOUT_MESSAGE].
Proof.
  set (s1 := spawn p t s0).
  assert (Hp : pendingOn p t s1) by done.
  assert (Hfail : forall error,
            settlements (log (receive cbs (onSpawnError error s1)))
            = settlements (log s0) ++ [LaunchReject p error]).
  { intros error.
    destruct (onSpawnError_cases error s1) as [(Hr & Hj & Ht & Hlog) _].
    assert (Hq : quiet (onSpawnError error s1)) by done.
    destruct (receive_quiet cbs _ Hq) as (_ & -> & _).
    rewrite Hlog. simpl. rewrite settlements_app. done. }
  split; [| split; [exact Hfail | exact (Hfail TIMEOUT_MESSAGE)]].
  cbv zeta.
  destruct (receive_pending cbs s1 p t Hp) as [(? & ? & ?)|(? & ? & ?)];
    [by left | by right].
Qed.

(** X3. Lines handed to [handleData]: every line [serverError] flags
    yields one [error] event with its first line, in order, whether a
    start is pending or not, and no other line yields one. *)
Theorem error_lines_reported (lines : list string) (s : Server) :
  errorsOf (log (feed lines s))
  = errorsOf (log s) ++ map (JS.splitHead EOL) (List.filter serverError lines).
Proof.
  revert s. induction lines as [|l lines IH]; intros s.
  { simpl. by rewrite app_nil_r. }
  change (feed (l :: lines) s) with (feed lines (handleData l s)).
  rewrite IH, AbstractServerSpec.handleData_log, !errorsOf_app. simpl.
  assert (Hnone : errorsOf
                    match launchResolve s with
                    | Some p =>
                        if serverStarted l
                        then match timer s with Some t => [ClearTimeout t] | None => [] end
                             ++ [LaunchResolve p]
                        else []
                    | None => []
                    end = []).
  { destruct (launchResolve s), (serverStarted l), (timer s); done. }
  rewrite Hnone. destruct (serverError l); simpl; by rewrite <- ?app_assoc, ?app_nil_r.
Qed.

End Supervisor.

(** **** The two streams *)

Lemma append_nil_r (s : string) : s +:+ "" = s.
Proof. induction s as [|a s IH]; [done |]. rewrite JSFacts.append_cons. by rewrite IH. Qed.

Lemma append_eq_nil (a b : string) : a +:+ b = "" -> a = "" /\ b = "".
Proof. by destruct a. Qed.

Lemma terminated_app (a b : list string) :
  terminated (a ++ b) = terminated a +:+ terminated b.
Proof.
  induction a as [|d a IH]; [done |]. simpl. rewrite IH.
  rewrite JSFacts.append_assoc. by rewrite JSFacts.append_cons.
Qed.

Lemma line_end_unique (a x line : string) :
  JS.lastIndexOf JS.LF line = None ->
  a +:+ String JS.LF x = line +:+ String JS.LF "" ->
  a = line /\ x = "".
Proof.
  revert line. induction a as [|c a IH]; intros line Hline Heq.
  - destruct line as [|c' line].
    + rewrite !JSFacts.append_nil in Heq. by injection Heq as ->.
    + rewrite JSFacts.append_nil, JSFacts.append_cons in Heq. injection Heq as <- _.
      apply JSFacts.lastIndexOf_None_cons in Hline as [Hne _]. done.
  - destruct line as [|c' line].
    + rewrite JSFacts.append_nil, JSFacts.append_cons in Heq. injection Heq as _ Heq.
      by destruct a.
    + rewrite !JSFacts.append_cons in Heq. injection Heq as <- Heq.
      apply JSFacts.lastIndexOf_None_cons in Hline as [_ Hline].
      destruct (IH line Hline Heq) as [-> ->]. done.
Qed.

Section Streams.
Context `{ConcreteServer} `{ErrorListeners}.

Lemma eventsOn_handleData event data s :
  eventsOn event (log (handleData data s)) = eventsOn event (log s).
Proof.
  rewrite AbstractServerSpec.handleData_log.
  destruct (launchResolve s), (serverStarted data), (timer s), (serverError data);
    rewrite !eventsOn_app; simpl; rewrite ?app_nil_r; done.
Qed.

Lemma buffer_setBuffer_other event other b s :
  event <> other -> buffer event (setBuffer other b s) = buffer event s.
Proof. by destruct event, other. Qed.

(** [onData] when the buffer and the chunk hold a newline: the state
    [handleData] leaves, trimmed when [handleData] returns. *)
Lemma onData_some chunk event s data rest :
  buffer event s +:+ chunk = data +:+ String JS.LF rest ->
  JS.lastIndexOf JS.LF rest = None ->
  onData chunk event s
  = let s' := handleData data
                (emit (EmitData event data)
                      (setBuffer event (buffer event s +:+ chunk) s)) in
    if handleDataThrows data then s' else setBuffer event rest s'.
Proof.
  intros Hsplit Hrest. unfold onData.
  rewrite AbstractServerSpec.buffer_setBuffer, Hsplit.
  rewrite (JSFacts.lastIndexOf_app _ _ _ Hrest).
  rewrite JSFacts.substring_app_l.
  rewrite AbstractServerSpec.buffer_handleData, AbstractServerSpec.buffer_emit,
    AbstractServerSpec.buffer_setBuffer.
  rewrite JSFacts.substringFrom_app. by rewrite <- Hsplit.
Qed.

Lemma onData_none chunk event s :
  JS.lastIndexOf JS.LF (buffer event s +:+ chunk) = None ->
  onData chunk event s = setBuffer event (buffer event s +:+ chunk) s.
Proof.
  intros Hnone. unfold onData. by rewrite AbstractServerSpec.buffer_setBuffer, Hnone.
Qed.

(** The stream of a chunk that completes a line: one event, and the
    buffer trimmed unless [handleData] throws. *)
Lemma onData_stream_some chunk event s data rest :
  buffer event s +:+ chunk = data +:+ String JS.LF rest ->
  JS.lastIndexOf JS.LF rest = None ->
  eventsOn event (log (onData chunk event s)) = eventsOn event (log s) ++ [data]
  /\ buffer event (onData chunk event s)
     = if handleDataThrows data then data +:+ String JS.LF rest else rest.
Proof.
  intros Hsplit Hrest. rewrite (onData_some _ _ _ _ _ Hsplit Hrest). cbv zeta.
  assert (Hevents : eventsOn event
                      (log (handleData data
                              (emit (EmitData event data)
                                    (setBuffer event (buffer event s +:+ chunk) s))))
                    = eventsOn event (log s) ++ [data]).
  { rewrite eventsOn_handleData. simpl.
    rewrite eventsOn_app, AbstractServerSpec.log_setBuffer. by destruct event. }
  destruct (handleDataThrows data).
  - split; [exact Hevents |].
    rewrite AbstractServerSpec.buffer_handleData, AbstractServerSpec.buffer_emit,
      AbstractServerSpec.buffer_setBuffer. exact Hsplit.
  - rewrite AbstractServerSpec.log_setBuffer.
    split; [exact Hevents | apply AbstractServerSpec.buffer_setBuffer].
Qed.

Lemma onData_stream_none chunk event s :
  JS.lastIndexOf JS.LF (buffer event s +:+ chunk) = None ->
  eventsOn event (log (onData chunk event s)) = eventsOn event (log s)
  /\ buffer event (onData chunk event s) = buffer event s +:+ chunk.
Proof.
  intros Hnone. rewrite (onData_none _ _ _ Hnone).
  by rewrite AbstractServerSpec.log_setBuffer, AbstractServerSpec.buffer_setBuffer.
Qed.

(** A chunk on the other stream leaves this one alone. *)
Lemma onData_other chunk event other s :
  event <> other ->
  eventsOn event (log (onData chunk other s)) = eventsOn event (log s)
  /\ buffer event (onData chunk other s) = buffer event s.
Proof.
  intros Hne.
  destruct (JS.lastIndexOf JS.LF (buffer other s +:+ chunk)) as [e|] eqn:He.
  - destruct (JSFacts.lastIndexOf_Some _ _ _ He) as [Hsplit Hrest].
    rewrite (onData_some _ _ _ _ _ Hsplit Hrest). cbv zeta.
    assert (Hstate : eventsOn event
                       (log (handleData (JS.substring 0 e (buffer other s +:+ chunk))
                               (emit (EmitData other
                                        (JS.substring 0 e (buffer other s +:+ chunk)))
                                     (setBuffer other (buffer other s +:+ chunk) s))))
                     = eventsOn event (log s)
                     /\ buffer event
                          (handleData (JS.substring 0 e (buffer other s +:+ chunk))
                             (emit (EmitData other
                                      (JS.substring 0 e (buffer other s +:+ chunk)))
                                   (setBuffer other (buffer other s +:+ chunk) s)))
                        = buffer event s).
    { rewrite eventsOn_handleData, AbstractServerSpec.buffer_handleData,
        AbstractServerSpec.buffer_emit, (buffer_setBuffer_other event other) by done.
      split; [|done]. simpl. rewrite eventsOn_app, AbstractServerSpec.log_setBuffer.
      destruct event, other; simpl; by rewrite ?app_nil_r. }
    destruct (handleDataThrows _); [exact Hstate |].
    rewrite AbstractServerSpec.log_setBuffer, (buffer_setBuffer_other event other) by done.
    exact Hstate.
  - rewrite (onData_none _ _ _ He).
    by rewrite AbstractServerSpec.log_setBuffer, (buffer_setBuffer_other event other).
Qed.

(** A callback that brings no chunk for the stream leaves it alone. *)
Lemma dispatch_frame c event s :
  match c, event with
  | StdoutData _, stdout | StderrData _, stderr => True
  | _, _ =>
      eventsOn event (log (dispatch c s)) = eventsOn event (log s)
      /\ buffer event (dispatch c s) = buffer event s
  end.
Proof.
  assert (Hspawn : forall error,
            eventsOn event (log (onSpawnError error s)) = eventsOn event (log s)
            /\ buffer event (onSpawnError error s) = buffer event s).
  { intros error. destruct (onSpawnError_cases error s) as (Hc & Ho & He).
    split; [|by destruct event].
    destruct (launchReject s) as [p|]; [|by rewrite Hc].
    destruct Hc as (_ & _ & _ & ->). rewrite !eventsOn_app.
    destruct (timer s), event; simpl; by rewrite ?app_nil_r. }
  assert (Hexit : forall code signal,
            eventsOn event (log (onExit code signal s)) = eventsOn event (log s)
            /\ buffer event (onExit code signal s) = buffer event s).
  { intros code signal. unfold onExit. split.
    - destruct (codeTruthy code), event; simpl;
        rewrite !eventsOn_app; simpl; rewrite ?app_nil_r; done.
    - by destruct (codeTruthy code), event. }
  destruct c as [code signal|error|chunk|chunk|], event; try done;
    try apply Hspawn; try apply Hexit; by apply onData_other.
Qed.

(** One callback on a stream whose buffer and chunk hold no newline:
    nothing is emitted and the chunk is kept. *)
Lemma dispatch_keeps c event s :
  JS.lastIndexOf JS.LF (buffer event s +:+ chunkOn event c) = None ->
  eventsOn event (log (dispatch c s)) = eventsOn event (log s)
  /\ buffer event (dispatch c s) = buffer event s +:+ chunkOn event c.
Proof.
  intros Hnone. pose proof (dispatch_frame c event s) as Hframe.
  destruct c as [code signal|error|chunk|chunk|], event;
    try (rewrite append_nil_r; exact Hframe);
    by apply onData_stream_none.
Qed.

(** One callback that completes a line of a buffer without newline. *)
Lemma dispatch_emits c event s data rest :
  JS.lastIndexOf JS.LF (buffer event s) = None ->
  buffer event s +:+ chunkOn event c = data +:+ String JS.LF rest ->
  JS.lastIndexOf JS.LF rest = None ->
  eventsOn event (log (dispatch c s)) = eventsOn event (log s) ++ [data]
  /\ buffer event (dispatch c s)
     = if handleDataThrows data then data +:+ String JS.LF rest else rest.
Proof.
  intros Hclean Hsplit Hrest.
  assert (Hno : buffer event s +:+ "" = data +:+ String JS.LF rest -> False).
  { rewrite append_nil_r. intros Heq. rewrite Heq in Hclean.
    by rewrite (JSFacts.lastIndexOf_app _ _ _ Hrest) in Hclean. }
  destruct c as [code signal|error|chunk|chunk|], event;
    try (by destruct (Hno Hsplit));
    by apply onData_stream_some.
Qed.

(** One callback: what is emitted for a stream and handled without
    exception, with what is kept, makes up the buffer and the chunk. *)
Lemma dispatch_stream c event s :
  exists new,
    eventsOn event (log (dispatch c s)) = eventsOn event (log s) ++ new
    /\ buffer event s +:+ chunkOn event c
       = terminated (List.filter handleDataReturns new) +:+ buffer event (dispatch c s)
    /\ (JS.lastIndexOf JS.LF (buffer event s) = None ->
        forallb handleDataReturns new = true ->
        JS.lastIndexOf JS.LF (buffer event (dispatch c s)) = None).
Proof.
  assert (Hchunk : forall chunk,
            exists new,
              eventsOn event (log (onData chunk event s)) = eventsOn event (log s) ++ new
              /\ buffer event s +:+ chunk
                 = terminated (List.filter handleDataReturns new)
                   +:+ buffer event (onData chunk event s)
              /\ (JS.lastIndexOf JS.LF (buffer event s) = None ->
                  forallb handleDataReturns new = true ->
                  JS.lastIndexOf JS.LF (buffer event (onData chunk event s)) = None)).
  { intros chunk.
    destruct (JS.lastIndexOf JS.LF (buffer event s +:+ chunk)) as [e|] eqn:He.
    - destruct (JSFacts.lastIndexOf_Some _ _ _ He) as [Hsplit Hrest].
      destruct (onData_stream_some _ _ _ _ _ Hsplit Hrest) as [Hev Hbuf].
      eexists [_]. split; [exact Hev |]. rewrite Hbuf.
      unfold handleDataReturns. simpl.
      destruct (handleDataThrows _); simpl.
      + split; [exact Hsplit | done].
      + split; [|done].
        rewrite JSFacts.append_assoc, JSFacts.append_cons, JSFacts.append_nil.
        exact Hsplit.
    - destruct (onData_stream_none _ _ _ He) as [Hev Hbuf].
      exists []. rewrite app_nil_r, Hbuf. done. }
  pose proof (dispatch_frame c event s) as Hframe.
  destruct c as [code signal|error|chunk|chunk|], event;
    try apply Hchunk;
    (destruct Hframe as [Hev Hbuf]; exists [];
     rewrite app_nil_r, append_nil_r, Hev, Hbuf; done).
Qed.

Lemma receive_stream (cbs : list Callback) (event : Stream) (s : Server) :
  exists new,
    eventsOn event (log (receive cbs s)) = eventsOn event (log s) ++ new
    /\ buffer event s +:+ received event cbs
       = terminated (List.filter handleDataReturns new) +:+ buffer event (receive cbs s)
    /\ (JS.lastIndexOf JS.LF (buffer event s) = None ->
        forallb handleDataReturns new = true ->
        JS.lastIndexOf JS.LF (buffer event (receive cbs s)) = None).
Proof.
  revert s. induction cbs as [|c cbs IH]; intros s.
  { exists []. simpl. by rewrite app_nil_r, append_nil_r. }
  change (receive (c :: cbs) s) with (receive cbs (dispatch c s)).
  change (received event (c :: cbs)) with (chunkOn event c +:+ received event cbs).
  destruct (dispatch_stream c event s) as (new1 & He1 & Hb1 & Hn1).
  destruct (IH (dispatch c s)) as (new2 & He2 & Hb2 & Hn2).
  exists (new1 ++ new2). split; [by rewrite He2, He1, app_assoc |].
  split.
  - rewrite <- JSFacts.append_assoc, Hb1, JSFacts.append_assoc, Hb2.
    by rewrite List.filter_app, terminated_app, JSFacts.append_assoc.
  - intros Hclean Hall. rewrite forallb_app in Hall.
    apply andb_true_iff in Hall as [Hall1 Hall2].
    apply Hn2; [by apply Hn1 | done].
Qed.

(** X4. From an empty buffer, however the output of a stream is cut
    into chunks and whatever else arrives in between: the data of the
    events emitted for the stream and handled without exception, each
    with the newline that ended it, followed by what the buffer
    retains, spell exactly the text received; and when every one was
    handled without exception the buffer holds no newline. *)
Theorem stream_reassembly (cbs : list Callback) (event : Stream) (s : Server) :
  buffer event s = "" ->
  exists new,
    eventsOn event (log (receive cbs s)) = eventsOn event (log s) ++ new
    /\ received event cbs
       = terminated (List.filter handleDataReturns new) +:+ buffer event (receive cbs s)
    /\ (forallb handleDataReturns new = true ->
        JS.lastIndexOf JS.LF (buffer event (receive cbs s)) = None).
Proof.
  intros Hempty. destruct (receive_stream cbs event s) as (new & He & Hb & Hn).
  exists new. split; [exact He |]. split.
  - rewrite <- Hb, Hempty. apply JSFacts.append_nil.
  - apply Hn. by rewrite Hempty.
Qed.

(** Callbacks that bring nothing for a stream leave it alone. *)
Lemma receive_nothing (cbs : list Callback) (event : Stream) (s : Server) :
  JS.lastIndexOf JS.LF (buffer event s) = None ->
  received event cbs = "" ->
  eventsOn event (log (receive cbs s)) = eventsOn event (log s)
  /\ buffer event (receive cbs s) = buffer event s.
Proof.
  revert s. induction cbs as [|c cbs IH]; intros s Hclean Hnone; [done |].
  change (receive (c :: cbs) s) with (receive cbs (dispatch c s)).
  change (received event (c :: cbs)) with (chunkOn event c +:+ received event cbs)
    in Hnone.
  apply append_eq_nil in Hnone as [Hc Hrest].
  destruct (dispatch_keeps c event s) as [Hev Hbuf].
  { by rewrite Hc, append_nil_r. }
  rewrite Hc, append_nil_r in Hbuf.
  destruct (IH (dispatch c s)) as [-> ->]; [by rewrite Hbuf | done |].
  by rewrite Hev, Hbuf.
Qed.

Lemma receive_line (cbs : list Callback) (event : Stream) (line : string) (s : Server) :
  JS.lastIndexOf JS.LF line = None ->
  handleDataThrows line = false ->
  JS.lastIndexOf JS.LF (buffer event s) = None ->
  buffer event s +:+ received event cbs = line +:+ String JS.LF "" ->
  eventsOn event (log (receive cbs s)) = eventsOn event (log s) ++ [line]
  /\ buffer event (receive cbs s) = "".
Proof.
  intros Hline Hreturns. revert s.
  induction cbs as [|c cbs IH]; intros s Hclean Htext.
  { simpl in Htext. rewrite append_nil_r in Htext. rewrite Htext in Hclean.
    by rewrite (JSFacts.lastIndexOf_app JS.LF line "") in Hclean. }
  change (receive (c :: cbs) s) with (receive cbs (dispatch c s)).
  change (received event (c :: cbs)) with (chunkOn event c +:+ received event cbs)
    in Htext.
  rewrite <- JSFacts.append_assoc in Htext.
  destruct (JS.lastIndexOf JS.LF (buffer event s +:+ chunkOn event c)) as [e|] eqn:He.
  - destruct (JSFacts.lastIndexOf_Some _ _ _ He) as [Hsplit Hrest].
    set (data := JS.substring 0 e (buffer event s +:+ chunkOn event c)) in *.
    set (rest := JS.substringFrom (e + 1) (buffer event s +:+ chunkOn event c)) in *.
    rewrite Hsplit, JSFacts.append_assoc, JSFacts.append_cons in Htext.
    destruct (line_end_unique _ _ _ Hline Htext) as [Hdata Htail].
    apply append_eq_nil in Htail as [Hnil Hno].
    destruct (dispatch_emits c event s data rest Hclean Hsplit Hrest) as [Hev Hbuf].
    rewrite Hdata, Hreturns, Hnil in Hbuf. rewrite Hdata in Hev.
    destruct (receive_nothing cbs event (dispatch c s)) as [-> ->];
      [by rewrite Hbuf | done |]. done.
  - destruct (dispatch_keeps c event s He) as [Hev Hbuf].
    rewrite <- Hev. apply IH; by rewrite Hbuf.
Qed.

(** X5. A line that reaches a stream in pieces, the buffer being
    empty before, and that [handleData] handles without exception:
    whatever the pieces and whatever arrives in between on the other
    stream or from the process, the line goes out whole in one event
    when its newline comes, and the buffer is empty again. *)
Theorem line_in_pieces_goes_out_whole (cbs : list Callback) (event : Stream)
        (line : string) (s : Server) :
  buffer event s = "" ->
  JS.lastIndexOf JS.LF line = None ->
  handleDataThrows line = false ->
  received event cbs = line +:+ String JS.LF "" ->
  eventsOn event (log (receive cbs s)) = eventsOn event (log s) ++ [line]
  /\ buffer event (receive cbs s) = "".
Proof.
  intros Hempty Hline Hreturns Hcbs.
  apply receive_line; [done | done | by rewrite Hempty |].
  by rewrite Hempty, JSFacts.append_nil.
Qed.

(** X6. Data that [handleData] throws on is not removed from the
    buffer: the next chunk that completes a line on the stream emits it
    again, with the newline and the text that followed it. *)
Theorem error_data_is_emitted_again (chunk next : string) (event : Stream)
        (s : Server) (data rest more rest' : string) :
  buffer event s +:+ chunk = data +:+ String JS.LF rest ->
  JS.lastIndexOf JS.LF rest = None ->
  handleDataThrows data = true ->
  rest +:+ next = more +:+ String JS.LF rest' ->
  JS.lastIndexOf JS.LF rest' = None ->
  buffer event (onData chunk event s) = data +:+ String JS.LF rest
  /\ eventsOn event (log (onData next event (onData chunk event s)))
     = eventsOn event (log s) ++ [data; data +:+ String JS.LF more].
Proof.
  intros Hsplit Hrest Hthrows Hnext Hrest'.
  destruct (onData_stream_some _ _ _ _ _ Hsplit Hrest) as [Hev Hbuf].
  rewrite Hthrows in Hbuf. split; [exact Hbuf |].
  assert (Hsplit' : buffer event (onData chunk event s) +:+ next
                    = (data +:+ String JS.LF more) +:+ String JS.LF rest').
  { rewrite Hbuf, !JSFacts.append_assoc, !JSFacts.append_cons. by rewrite Hnext. }
  destruct (onData_stream_some _ _ _ _ _ Hsplit' Hrest') as [Hev' _].
  rewrite Hev', Hev, <- app_assoc. done.
Qed.

End Streams.

(** Two chunks that cut a line in two: the events spell [a] and [bc],
    and [d] waits in the buffer. *)
Lemma stream_reassembly_example :
  buffer stdout idle = ""
  /\ eventsOn stdout (log (receive (H := exampleServer) (H0 := sessionListeners)
                                  twoChunks idle)) = ["a"; "bc"]
  /\ buffer stdout (receive (H := exampleServer) (H0 := sessionListeners)
                           twoChunks idle) = "d"
  /\ exists new,
      eventsOn stdout (log (receive (H := exampleServer) (H0 := sessionListeners)
                                    twoChunks idle))
      = eventsOn stdout (log idle) ++ new
      /\ received stdout twoChunks
         = terminated (List.filter (handleDataReturns (H := exampleServer)
                                                      (H0 := sessionListeners)) new)
           +:+ buffer stdout (receive (H := exampleServer) (H0 := sessionListeners)
                                      twoChunks idle)
      /\ (forallb (handleDataReturns (H := exampleServer) (H0 := sessionListeners)) new
          = true ->
          JS.lastIndexOf JS.LF
            (buffer stdout (receive (H := exampleServer) (H0 := sessionListeners)
                                    twoChunks idle)) = None).
Proof.
  assert (H1 : buffer stdout idle = "") by reflexivity.
  split; [exact H1 |]. split; [reflexivity |]. split; [reflexivity |].
  exact (@stream_reassembly exampleServer sessionListeners twoChunks stdout idle H1).
Defined.

(** The banner in two pieces goes out as one event. *)
Lemma line_in_pieces_goes_out_whole_example :
  (buffer stdout idle = ""
   /\ JS.lastIndexOf JS.LF "GDB server started" = None
   /\ handleDataThrows (H := exampleServer) (H0 := sessionListeners)
        "GDB server started" = false
   /\ received stdout bannerInPieces = "GDB server started" +:+ String JS.LF "")
  /\ eventsOn stdout (log (receive (H := exampleServer) (H0 := sessionListeners)
                                  bannerInPieces idle))
     = eventsOn stdout (log idle) ++ ["GDB server started"]
  /\ buffer stdout (receive (H := exampleServer) (H0 := sessionListeners)
                           bannerInPieces idle) = "".
Proof.
  assert (H1 : buffer stdout idle = "") by reflexivity.
  assert (H2 : JS.lastIndexOf JS.LF "GDB server started" = None) by reflexivity.
  assert (H3 : handleDataThrows (H := exampleServer) (H0 := sessionListeners)
                 "GDB server started" = false) by reflexivity.
  assert (H4 : received stdout bannerInPieces = "GDB server started" +:+ String JS.LF "")
    by reflexivity.
  split; [done |].
  exact (@line_in_pieces_goes_out_whole exampleServer sessionListeners bannerInPieces
           stdout "GDB server started" idle H1 H2 H3 H4).
Defined.

(** Under the listener of the debug session an error line goes out
    twice: alone, and again in front of the line that follows it. *)
Lemma error_data_is_emitted_again_example :
  (buffer stdout idle +:+ errorLineAndMore = ":ERROR: no probe" +:+ String JS.LF "c"
   /\ JS.lastIndexOf JS.LF "c" = None
   /\ handleDataThrows (H := exampleServer) (H0 := sessionListeners)
        ":ERROR: no probe" = true
   /\ "c" +:+ endOfLine = "cd" +:+ String JS.LF ""
   /\ JS.lastIndexOf JS.LF "" = None)
  /\ buffer stdout (onData (H := exampleServer) (H0 := sessionListeners)
                          errorLineAndMore stdout idle)
     = ":ERROR: no probe" +:+ String JS.LF "c"
  /\ eventsOn stdout
       (log (onData (H := exampleServer) (H0 := sessionListeners) endOfLine stdout
               (onData (H := exampleServer) (H0 := sessionListeners)
                       errorLineAndMore stdout idle)))
     = [":ERROR: no probe"; ":ERROR: no probe" +:+ String JS.LF "cd"].
Proof.
  assert (H1 : buffer stdout idle +:+ errorLineAndMore
               = ":ERROR: no probe" +:+ String JS.LF "c") by reflexivity.
  assert (H2 : JS.lastIndexOf JS.LF "c" = None) by reflexivity.
  assert (H3 : handleDataThrows (H := exampleServer) (H0 := sessionListeners)
                 ":ERROR: no probe" = true) by reflexivity.
  assert (H4 : "c" +:+ endOfLine = "cd" +:+ String JS.LF "") by reflexivity.
  assert (H5 : JS.lastIndexOf JS.LF "" = None) by reflexivity.
  split; [done |].
  exact (@error_data_is_emitted_again exampleServer sessionListeners errorLineAndMore
           endOfLine stdout idle _ _ _ _ H1 H2 H3 H4 H5).
Defined.

End SupervisorSpec.

Module ActionFacts.
Import CmsisDebugSession.


Lemma commandsOf_app l1 l2 : commandsOf (l1 ++ l2) = commandsOf l1 ++ commandsOf l2.
Proof. apply omap_app. Qed.


End ActionFacts.

Module RequestSpec.
Import CmsisDebugSession ReconcileFacts ReconcilerSpec ActionFacts.

Section Request.
Context {G : Type} `{!Environment G}.

(** The [try] block and its [catch], whatever the debugger answers. *)
Lemma tryBody_run (args : SetBreakpointsArguments) (s1 : Session G) :
  let file := source_path args in
  tryCatch (tryBody args) (sendErrorResponse 1) s1
  = match execute BreakList (gdb s1) with
    | (g2, Throw e) =>
        (Ok tt, setGdb g2 s1, [Command BreakList; SendErrorResponse 1 e])
    | (g2, Ok body) =>
        let r := reconcile file (default [] (breakpoints args))
                           (logPointMessages s1) body in
        let s2 := setLogPointMessages (messages r) (setGdb g2 s1) in
        match insertAll file (inserts r) (actual r) s2 with
        | (Ok actual, s3, acts3) =>
            if bool_decide (deletes r ≠ []) then
              match execute (BreakDelete (deletes r)) (gdb s3) with
              | (g4, Ok _) =>
                  (Ok tt, setGdb g4 s3,
                   Command BreakList
                     :: acts3 ++ [Command (BreakDelete (deletes r));
                                  SendResponse (BreakpointsBody actual)])
              | (g4, Throw e) =>
                  (Ok tt, setGdb g4 s3,
                   Command BreakList
                     :: acts3 ++ [Command (BreakDelete (deletes r));
                                  SendErrorResponse 1 e])
              end
            else (Ok tt, s3,
                  Command BreakList :: acts3 ++ [SendResponse (BreakpointsBody actual)])
        | (Throw e, s3, acts3) =>
            (Ok tt, s3, Command BreakList :: acts3 ++ [SendErrorResponse 1 e])
        end
    end.
Proof.
  intros file. subst file.
  unfold tryBody, tryCatch.
  unfold mbind at 1, M_bind at 1, bind at 1, send at 1.
  destruct (execute BreakList (gdb s1)) as [g2 [body|e]]; [|done].
  rewrite ScopesSpec.bind_get.
  unfold mbind at 1, M_bind at 1, bind at 1, modify at 1. simpl.
  unfold mbind at 1, M_bind at 1, bind at 1.
  destruct (insertAll _ _ _ _) as [[[actual|e] s3] acts3]; simpl; [|done].
  destruct (bool_decide _); simpl.
  - unfold mbind, M_bind, bind, send, sendResponse, perform.
    destruct (execute _ (gdb s3)) as [g4 [[]|e]]; simpl.
    + done.
    + by rewrite <- ?app_assoc.
  - done.
Qed.

(** The loop inserts and reports, nothing else. *)
Lemma insertAll_actions file todo actual (s : Session G) :
  Forall loopAction (insertAll file todo actual s).2.
Proof.
  revert actual s. induction todo as [|vsbp rest IH]; intros actual s; [constructor |].
  rewrite insertAll_cons.
  destruct (decodeHitCondition (vsbp_hitCondition vsbp)) as [[t ic]|].
  - unfold mbind, M_bind, bind. rewrite insertOne_run.
    destruct (execute _ (gdb s)) as [g' [b|e]]; [|by repeat constructor].
    specialize (IH (actual ++ [createActual b]) (registerLogPoint vsbp b (setGdb g' s))).
    destruct (insertAll file rest _ _) as [[res s3] acts3]. by constructor.
  - unfold mbind, M_bind, bind, sendEvent, perform.
    specialize (IH actual s).
    destruct (insertAll file rest actual s) as [[res s3] acts3]. by constructor.
Qed.

(** The actions of the [try] block with its [catch]: the listing, the
    loop, at most one deletion, one answer. *)
Lemma inner_actions (args : SetBreakpointsArguments) (s1 : Session G) :
  exists loop dels a,
    (tryCatch (tryBody args) (sendErrorResponse 1) s1).2
    = Command BreakList :: loop ++ map (fun ids => Command (BreakDelete ids)) dels ++ [a]
    /\ Forall loopAction loop
    /\ (length dels <= 1)%nat
    /\ ((exists actual, a = SendResponse (BreakpointsBody actual))
        \/ (exists e, a = SendErrorResponse 1 e))
    /\ (forall body, (execute BreakList (gdb s1)).2 = Ok body ->
          Forall (fun ids =>
                    ids = map bkpt_number
                              (stale (source_path args) (default [] (breakpoints args)) body)
                    /\ ids <> []) dels)
    /\ (forall e, (execute BreakList (gdb s1)).2 = Throw e ->
          loop = [] /\ dels = [] /\ a = SendErrorResponse 1 e).
Proof.
  rewrite tryBody_run. cbv zeta.
  destruct (execute BreakList (gdb s1)) as [g2 [body|e]].
  2: { exists [], [], (SendErrorResponse 1 e). simpl.
       split; [done |]. split; [constructor |]. split; [lia |].
       split; [right; by eexists |]. split; [done |]. by intros ? [= <-]. }
  set (r := reconcile _ _ _ body).
  assert (Hdel : deletes r
                 = map bkpt_number
                       (stale (source_path args) (default [] (breakpoints args)) body)).
  { unfold r, reconcile, stale. by rewrite foldl_visit_deletes. }
  pose proof (insertAll_actions (source_path args) (inserts r) (actual r)
                (setLogPointMessages (messages r) (setGdb g2 s1))) as Hloop.
  destruct (insertAll _ _ _ _) as [[[actual|e] s3] acts3]; simpl in Hloop.
  - destruct (bool_decide (deletes r ≠ [])) eqn:Hne.
    + apply bool_decide_eq_true in Hne.
      destruct (execute _ (gdb s3)) as [g4 [[]|e]]; simpl.
      * exists acts3, [deletes r], (SendResponse (BreakpointsBody actual)).
        split; [done |]. split; [done |]. split; [simpl; lia |].
        split; [left; by eexists |]. split; [|done].
        intros ? [= <-]. constructor; [|constructor]. by rewrite <- Hdel.
      * exists acts3, [deletes r], (SendErrorResponse 1 e).
        split; [done |]. split; [done |]. split; [simpl; lia |].
        split; [right; by eexists |]. split; [|done].
        intros ? [= <-]. constructor; [|constructor]. by rewrite <- Hdel.
    + exists acts3, [], (SendResponse (BreakpointsBody actual)). simpl.
      split; [done |]. split; [done |]. split; [lia |].
      split; [left; by eexists |]. split; [by constructor | done].
  - exists acts3, [], (SendErrorResponse 1 e). simpl.
    split; [done |]. split; [done |]. split; [lia |].
    split; [right; by eexists |]. split; [by constructor | done].
Qed.






Lemma loop_no_delete loop :
  Forall loopAction loop -> List.filter isBreakDelete (commandsOf loop) = [].
Proof.
  induction 1 as [|a loop Ha _ IH]; [done |].
  destruct a as [|[]|[]| | |]; simpl in *; done.
Qed.

(** The deletions of the request are those of its [try] block. *)
Lemma request_deletions (args : SetBreakpointsArguments) (s : Session G) :
  List.filter isBreakDelete (commandsOf (setBreakPointsRequest args s).2)
  = List.filter isBreakDelete
      (commandsOf (tryCatch (tryBody args) (sendErrorResponse 1) (atTry s)).2).
Proof.
  rewrite setBreakPointsRequest_shape. cbv zeta.
  destruct (isRunning s); simpl; [|done].
  rewrite commandsOf_app, List.filter_app. simpl. by rewrite app_nil_r.
Qed.

(** X9. The pass deletes at most once, and what it deletes are the
    entries the debugger listed for the file of the request whose line
    no desired breakpoint is at: never an entry of another file, never
    an entry at a desired line. *)
Theorem deletes_stale_entries_of_the_file (args : SetBreakpointsArguments)
        (s : Session G) (body : list MIBreakpointInfo) :
  (execute BreakList (gdb (atTry s))).2 = Ok body ->
  let file := source_path args in
  let desired := default [] (breakpoints args) in
  let run := setBreakPointsRequest args s in
  (List.filter isBreakDelete (commandsOf run.2) = []
   \/ (stale file desired body <> []
       /\ List.filter isBreakDelete (commandsOf run.2)
          = [BreakDelete (map bkpt_number (stale file desired body))]))
  /\ (forall j, j ∈ stale file desired body ->
        j ∈ body /\ bkpt_fullname j = Some file
        /\ forall d, d ∈ desired -> Some (vsbp_line d) <> JS.parseIntOpt (bkpt_line j)).
Proof.
  intros Hlist file desired run. split.
  - subst run. rewrite request_deletions.
    destruct (inner_actions args (atTry s)) as (loop & dels & a & -> & Hloop & Hlen & Ha & Hdel & _).
    specialize (Hdel body Hlist). fold file desired in Hdel.
    change (commandsOf (?x :: ?l)) with (BreakList :: commandsOf l).
    rewrite !commandsOf_app.
    change (List.filter isBreakDelete (BreakList :: ?l)) with (List.filter isBreakDelete l).
    rewrite !List.filter_app, loop_no_delete by done.
    assert (Hans : List.filter isBreakDelete (commandsOf [a]) = []).
    { by destruct Ha as [[? ->]|[? ->]]. }
    rewrite Hans, app_nil_r. simpl.
    destruct dels as [|ids [|ids' dels]]; [by left | | simpl in Hlen; lia].
    apply Forall_cons in Hdel as [[-> Hne] _]. right. split; [|done].
    intros Hnil. by rewrite Hnil in Hne.
  - intros j Hj. unfold stale in Hj.
    apply list_elem_of_In, List.filter_In in Hj as [Hj Hcond].
    apply list_elem_of_In in Hj. apply andb_true_iff in Hcond as [Hfile Hline].
    split; [done |]. unfold inFile in Hfile. apply andb_true_iff in Hfile as [Hfile _].
    apply bool_decide_eq_true in Hfile. split; [done |].
    intros d Hd Heq. apply negb_true_iff in Hline. unfold lineTaken in Hline.
    apply not_true_iff_false in Hline. apply Hline, existsb_exists.
    exists d. split; [by apply list_elem_of_In |].
    unfold lineIs. by apply bool_decide_eq_true.
Qed.

(** X10. When the listing fails, the request is answered with an error
    response of code 1 that carries the message of the debugger; nothing
    is inserted or deleted; the log-point table is left empty; and a
    target that was paused for the request is resumed all the same. *)
Theorem failed_listing_answers_error (args : SetBreakpointsArguments)
        (s : Session G) (e : string) :
  (execute BreakList (gdb (atTry s))).2 = Throw e ->
  let run := setBreakPointsRequest args s in
  run.2 = (if isRunning s then [PauseTarget] else [])
            ++ [Command BreakList; SendErrorResponse 1 e]
            ++ (if isRunning s then [Command ExecContinue] else [])
  /\ logPointMessages run.1.2 = ∅.
Proof.
  intros Hlist run. subst run. rewrite setBreakPointsRequest_shape. cbv zeta.
  rewrite tryBody_run. cbv zeta.
  destruct (execute BreakList (gdb (atTry s))) as [g2 [body|e']]; [done |].
  simpl in Hlist. injection Hlist as ->.
  by destruct (isRunning s).
Qed.

(** **** The log-point table *)

Lemma filterInserts_no_message gdbbp line breakpoint todo actual messages :
  match breakpoint with
  | Some b => JS.truthy (vsbp_logMessage b) = false
  | None => True
  end ->
  (filterInserts gdbbp line breakpoint todo actual messages).2 = messages.
Proof.
  intros Hb. revert actual. induction todo as [|vsbp rest IH]; intros actual; [done |].
  simpl. destruct (negb (lineIs line vsbp) || condDiffers gdbbp vsbp).
  - specialize (IH actual).
    by destruct (filterInserts gdbbp line breakpoint rest actual messages) as [[??]?].
  - destruct breakpoint as [b|]; [|apply IH].
    destruct (vsbp_logMessage b) as [msg|]; [|apply IH].
    simpl in Hb. rewrite Hb. apply IH.
Qed.

Lemma reconcile_no_message file breakpoints table body :
  (forall d, d ∈ breakpoints -> JS.truthy (vsbp_logMessage d) = false) ->
  messages (reconcile file breakpoints table body) = table.
Proof.
  intros Hnone. unfold reconcile.
  assert (Hr : messages (mkReconciliation breakpoints [] [] table) = table) by done.
  revert Hr. generalize (mkReconciliation breakpoints [] [] table).
  induction body as [|gdbbp body IH]; intros r Hr; [done |].
  simpl. apply IH. unfold visit.
  destruct (bool_decide _ && _); [|done].
  pose proof (filterInserts_no_message gdbbp (JS.parseIntOpt (bkpt_line gdbbp))
                (List.find (lineIs (JS.parseIntOpt (bkpt_line gdbbp))) breakpoints)
                (inserts r) (actual r) (messages r)) as Hf.
  destruct (List.find _ breakpoints) as [b|] eqn:Hfind.
  - apply List.find_some in Hfind as [Hin _]. apply list_elem_of_In in Hin.
    specialize (Hf (Hnone b Hin)).
    destruct (filterInserts _ _ _ _ _ _) as [[??]?]. simpl in *. by rewrite Hf.
  - specialize (Hf I).
    destruct (filterInserts _ _ _ _ _ _) as [[??]?]. simpl in *. by rewrite Hf.
Qed.

Lemma insertAll_no_message file todo actual (s : Session G) :
  (forall d, d ∈ todo -> JS.truthy (vsbp_logMessage d) = false) ->
  logPointMessages (insertAll file todo actual s).1.2 = logPointMessages s.
Proof.
  revert actual s. induction todo as [|vsbp rest IH]; intros actual s Hnone; [done |].
  assert (Hrest : forall d, d ∈ rest -> JS.truthy (vsbp_logMessage d) = false).
  { intros d Hd. apply Hnone. by apply elem_of_cons; right. }
  assert (Hhere : forall b (x : Session G),
             logPointMessages (registerLogPoint vsbp b x) = logPointMessages x).
  { intros b x. unfold registerLogPoint.
    pose proof (Hnone vsbp ltac:(by apply elem_of_cons; left)) as Hv.
    destruct (vsbp_logMessage vsbp) as [msg|]; [|done]. by rewrite Hv. }
  rewrite insertAll_cons.
  destruct (decodeHitCondition (vsbp_hitCondition vsbp)) as [[t ic]|].
  - unfold mbind, M_bind, bind. rewrite insertOne_run.
    destruct (execute _ (gdb s)) as [g' [b|e]]; [|done].
    specialize (IH (actual ++ [createActual b]) (registerLogPoint vsbp b (setGdb g' s)) Hrest).
    destruct (insertAll file rest _ _) as [[res s3] acts3]. simpl in *.
    by rewrite IH, Hhere.
  - unfold mbind, M_bind, bind, sendEvent, perform.
    specialize (IH actual s Hrest).
    by destruct (insertAll file rest actual s) as [[res s3] acts3].
Qed.

Lemma inserts_desired file breakpoints table body d :
  d ∈ inserts (reconcile file breakpoints table body) -> d ∈ breakpoints.
Proof.
  unfold reconcile. rewrite foldl_visit_inserts. simpl. intros Hd.
  apply list_elem_of_In, List.filter_In in Hd as [Hd _]. by apply list_elem_of_In.
Qed.

(** X11. The log-point table is rebuilt by every request: a request
    none of whose breakpoints has a log message leaves no log point,
    whatever was registered before and for whatever file, and every
    breakpoint hit is then reported as a stop. *)
Theorem request_without_messages_leaves_no_log_point
        (args : SetBreakpointsArguments) (s : Session G) :
  (forall d, d ∈ default [] (breakpoints args) ->
             JS.truthy (vsbp_logMessage d) = false) ->
  let s' := (setBreakPointsRequest args s).1.2 in
  logPointMessages s' = ∅
  /\ forall result,
      stop_reason result = "breakpoint-hit" ->
      handleGDBStopped result s'
      = (Ok tt, s',
         [SendEvent (StoppedEvent "breakpoint" (getThreadId result)
                                  (getAllThreadsStopped result))]).
Proof.
  intros Hnone s'.
  assert (Hempty : logPointMessages s' = ∅).
  { subst s'. rewrite setBreakPointsRequest_shape. cbv zeta.
    assert (Hinner : logPointMessages
                       (tryCatch (tryBody args) (sendErrorResponse 1) (atTry s)).1.2 = ∅).
    { rewrite tryBody_run. cbv zeta.
      destruct (execute BreakList (gdb (atTry s))) as [g2 [body|e]]; [|done].
      rewrite reconcile_no_message by done.
      pose proof (insertAll_no_message (source_path args)
                    (inserts (reconcile (source_path args) (default [] (breakpoints args))
                                        (logPointMessages (atTry s)) body))
                    (actual (reconcile (source_path args) (default [] (breakpoints args))
                                       (logPointMessages (atTry s)) body))
                    (setLogPointMessages (logPointMessages (atTry s)) (setGdb g2 (atTry s))))
        as Hloop.
      specialize (Hloop ltac:(intros d Hd; by apply Hnone, (inserts_desired _ _ _ _ _ Hd))).
      destruct (insertAll _ _ _ _) as [[[actual|e] s3] acts3]; simpl in Hloop; [|done].
      destruct (bool_decide _); [|done].
      by destruct (execute _ (gdb s3)) as [g4 [[]|e]]. }
    by destruct (isRunning s). }
  split; [exact Hempty |]. intros result Hreason.
  unfold handleGDBStopped. rewrite Hreason.
  change (String.eqb "breakpoint-hit" "exited"
          || String.eqb "breakpoint-hit" "exited-normally") with false.
  change (String.eqb "breakpoint-hit" "breakpoint-hit") with true.
  cbv iota. rewrite ScopesSpec.bind_get, Hempty, lookup_empty. done.
Qed.

(** **** The response *)

Lemma reconcile_lengths file breakpoints table body :
  let r := reconcile file breakpoints table body in
  (length (actual r) + length (inserts r))%nat = length breakpoints
  /\ Forall (fun b => bp_verified b = true) (actual r).
Proof.
  unfold reconcile.
  assert (Hr : (length (actual (mkReconciliation breakpoints [] [] table))
                + length (inserts (mkReconciliation breakpoints [] [] table)))%nat
               = length breakpoints
               /\ Forall (fun b => bp_verified b = true)
                         (actual (mkReconciliation breakpoints [] [] table))).
  { split; [done | constructor]. }
  revert Hr. generalize (mkReconciliation breakpoints [] [] table).
  induction body as [|j body IH]; intros r Hr; [done |].
  simpl. apply IH. destruct Hr as [Hlen Hver].
  destruct (visit_spec file breakpoints r j) as (-> & _ & ->).
  destruct (inFile file j); [|done]. split.
  - rewrite length_app, length_map, <- Hlen.
    clear. induction (inserts r) as [|d l IH]; simpl; [lia |].
    destruct (matches j d); simpl; lia.
  - apply Forall_app. split; [done |].
    apply Forall_forall. intros b Hb. by apply list_elem_of_fmap in Hb as (? & -> & _).
Qed.

Lemma insertAll_length file todo actual (s : Session G) actual' :
  (forall d, d ∈ todo -> decodeHitCondition (vsbp_hitCondition d) <> None) ->
  Forall (fun b => bp_verified b = true) actual ->
  (insertAll file todo actual s).1.1 = Ok actual' ->
  length actual' = (length actual + length todo)%nat
  /\ Forall (fun b => bp_verified b = true) actual'.
Proof.
  revert actual s. induction todo as [|vsbp rest IH]; intros actual s Hdec Hver.
  { simpl. intros [= <-]. split; [lia | done]. }
  assert (Hrest : forall d, d ∈ rest -> decodeHitCondition (vsbp_hitCondition d) <> None).
  { intros d Hd. apply Hdec. by apply elem_of_cons; right. }
  pose proof (Hdec vsbp ltac:(by apply elem_of_cons; left)) as Hv.
  rewrite insertAll_cons.
  destruct (decodeHitCondition (vsbp_hitCondition vsbp)) as [[t ic]|]; [|done].
  unfold mbind, M_bind, bind. rewrite insertOne_run.
  destruct (execute _ (gdb s)) as [g' [b|e]]; [|done].
  specialize (IH (actual ++ [createActual b]) (registerLogPoint vsbp b (setGdb g' s)) Hrest).
  destruct (insertAll file rest _ _) as [[res s3] acts3]. simpl in *.
  intros Hres. destruct IH as [Hlen Hall]; [|done |].
  - apply Forall_app. split; [done | by repeat constructor].
  - split; [|done]. rewrite Hlen, length_app. simpl. lia.
Qed.

(** The response of a request is the result of its loop. *)
Lemma request_response (args : SetBreakpointsArguments) (s : Session G)
      (actual : list Breakpoint) :
  SendResponse (BreakpointsBody actual) ∈ (setBreakPointsRequest args s).2 ->
  exists g2 body,
    execute BreakList (gdb (atTry s)) = (g2, Ok body)
    /\ let r := reconcile (source_path args) (default [] (breakpoints args)) ∅ body in
       (insertAll (source_path args) (inserts r) (CmsisDebugSession.actual r)
                  (setLogPointMessages (messages r) (setGdb g2 (atTry s)))).1.1
       = Ok actual.
Proof.
  rewrite setBreakPointsRequest_shape. cbv zeta. intros Hin.
  assert (Hinner : SendResponse (BreakpointsBody actual)
                   ∈ (tryCatch (tryBody args) (sendErrorResponse 1) (atTry s)).2).
  { destruct (isRunning s); simpl in Hin; [|done].
    apply elem_of_cons in Hin as [[=]|Hin].
    apply elem_of_app in Hin as [Hin|Hin]; [done |].
    by apply list_elem_of_singleton in Hin. }
  clear Hin. revert Hinner. rewrite tryBody_run. cbv zeta.
  destruct (execute BreakList (gdb (atTry s))) as [g2 [body|e]].
  2: { simpl. intros Hin. apply elem_of_cons in Hin as [[=]|Hin].
       by apply list_elem_of_singleton in Hin. }
  exists g2, body. split; [done |]. revert Hinner.
  change (logPointMessages (atTry s)) with (∅ : gmap string string).
  pose proof (insertAll_actions (source_path args)
                (inserts (reconcile (source_path args) (default [] (breakpoints args)) ∅ body))
                (CmsisDebugSession.actual
                   (reconcile (source_path args) (default [] (breakpoints args)) ∅ body))
                (setLogPointMessages
                   (messages (reconcile (source_path args) (default [] (breakpoints args))
                                        ∅ body))
                   (setGdb g2 (atTry s)))) as Hloop.
  destruct (insertAll _ _ _ _) as [[[actual'|e] s3] acts3]; simpl in *.
  - destruct (bool_decide _).
    + destruct (execute _ (gdb s3)) as [g4 [[]|e]]; simpl; intros Hin;
        apply elem_of_cons in Hin as [[=]|Hin];
        apply elem_of_app in Hin as [Hin|Hin];
        try (by destruct (loopAction_not_response _ _ Hloop Hin));
        apply elem_of_cons in Hin as [[=]|Hin];
        apply list_elem_of_singleton in Hin; by simplify_eq.
    + simpl. intros Hin. apply elem_of_cons in Hin as [[=]|Hin].
      apply elem_of_app in Hin as [Hin|Hin];
        [by destruct (loopAction_not_response _ _ Hloop Hin) |].
      apply list_elem_of_singleton in Hin. by simplify_eq.
  - intros Hin. apply elem_of_cons in Hin as [[=]|Hin].
    apply elem_of_app in Hin as [Hin|Hin];
      [by destruct (loopAction_not_response _ _ Hloop Hin) |].
    by apply list_elem_of_singleton in Hin.
Qed.

(** X12. When every hit condition of the request decodes, its response
    lists one breakpoint for each desired breakpoint, all verified:
    those an installed entry matched and those inserted. *)
Theorem response_lists_every_desired (args : SetBreakpointsArguments)
        (s : Session G) (actual : list Breakpoint) :
  (forall d, d ∈ default [] (breakpoints args) ->
             decodeHitCondition (vsbp_hitCondition d) <> None) ->
  SendResponse (BreakpointsBody actual) ∈ (setBreakPointsRequest args s).2 ->
  length actual = length (default [] (breakpoints args))
  /\ Forall (fun b => bp_verified b = true) actual.
Proof.
  intros Hdec Hin.
  destruct (request_response args s actual Hin) as (g2 & body & _ & Hloop).
  cbv zeta in Hloop.
  destruct (reconcile_lengths (source_path args) (default [] (breakpoints args)) ∅ body)
    as [Hlen Hver].
  apply insertAll_length in Hloop as [Hlen' Hver']; [| |done].
  - split; [|done]. rewrite Hlen'. exact Hlen.
  - intros d Hd. by apply Hdec, (inserts_desired _ _ _ _ _ Hd).
Qed.

(** A hit condition that does not decode costs a diagnostic and no
    command. *)
Lemma insertAll_undecodable file todo actual (s : Session G) :
  (forall d, d ∈ todo -> decodeHitCondition (vsbp_hitCondition d) = None) ->
  insertAll file todo actual s
  = (Ok actual, s,
     map (fun d => SendEvent (OutputEvent ("Unable to decode expression: "
                                            +:+ default "" (vsbp_hitCondition d)))) todo).
Proof.
  induction todo as [|vsbp rest IH]; intros Hdec; [done |].
  rewrite insertAll_cons, (Hdec vsbp) by (by apply elem_of_cons; left).
  unfold mbind, M_bind, bind, sendEvent, perform.
  rewrite IH; [done |]. intros d Hd. apply Hdec. by apply elem_of_cons; right.
Qed.

Lemma filter_all_in {A} (f : A -> bool) (l : list A) :
  (forall x, x ∈ l -> f x = true) -> List.filter f l = l.
Proof.
  induction l as [|x l IH]; intros Hf; simpl; [done |].
  rewrite Hf by (by apply elem_of_cons; left). f_equal. apply IH.
  intros y Hy. apply Hf. by apply elem_of_cons; right.
Qed.

Lemma forallb_false {A} (f : A -> bool) (l : list A) :
  forallb f l = false -> exists x, x ∈ l /\ f x = false.
Proof.
  induction l as [|x l IH]; simpl; [done |].
  destruct (f x) eqn:Hx; simpl.
  - intros Hl. destruct (IH Hl) as (y & Hy & Hfy). exists y.
    split; [by apply elem_of_cons; right | done].
  - intros _. exists x. split; [by apply elem_of_cons; left | done].
Qed.

(** An entry inserted for a desired breakpoint is of the file and
    matches the breakpoint. *)
Lemma inserted_matches file (b : MIBreakpointInfo) (d : SourceBreakpoint) :
  bkpt_fullname b = Some file ->
  bkpt_line b = Some (JS.toString (vsbp_line d)) ->
  bkpt_cond b = vsbp_condition d ->
  inFile file b = true /\ matches b d = true
  /\ lineIs (JS.parseIntOpt (bkpt_line b)) d = true.
Proof.
  intros Hfile Hline Hcond.
  assert (Hl : lineIs (JS.parseIntOpt (bkpt_line b)) d = true).
  { rewrite Hline. simpl. rewrite JSFacts.parseInt_toString.
    by apply bool_decide_eq_true. }
  split; [|split; [|done]].
  - unfold inFile. rewrite Hfile, Hline, JSFacts.toString_truthy.
    by rewrite bool_decide_eq_true_2.
  - unfold matches. rewrite Hl. unfold condDiffers. rewrite Hcond.
    by rewrite bool_decide_eq_true_2.
Qed.

Section Lawful.
Context `{!Debugger G}.

(** The loop against a debugger that keeps its table: what the table
    gains, where each new entry comes from, and that every desired
    breakpoint that decodes has got one. *)
Lemma insertAll_new file todo actual (s : Session G) :
  let run := insertAll file todo actual s in
  exists new,
    installed (gdb run.1.2) = installed (gdb s) ++ new
    /\ (forall b, b ∈ new -> bkpt_number b ∉ map bkpt_number (installed (gdb s)))
    /\ (forall b, b ∈ new ->
          exists d, d ∈ todo /\ bkpt_fullname b = Some file
                    /\ bkpt_line b = Some (JS.toString (vsbp_line d))
                    /\ bkpt_cond b = vsbp_condition d)
    /\ (forall actual', run.1.1 = Ok actual' ->
          forall d, d ∈ todo -> decodeHitCondition (vsbp_hitCondition d) <> None ->
            exists b, b ∈ new /\ bkpt_fullname b = Some file
                      /\ bkpt_line b = Some (JS.toString (vsbp_line d))
                      /\ bkpt_cond b = vsbp_condition d).
Proof.
  revert actual s. induction todo as [|vsbp rest IH]; intros actual s run.
  - subst run. simpl. exists []. rewrite app_nil_r.
    split; [done |]. split; [intros b Hb; by apply elem_of_nil in Hb |].
    split; [intros b Hb; by apply elem_of_nil in Hb |].
    intros _ _ d Hd. by apply elem_of_nil in Hd.
  - subst run. rewrite insertAll_cons.
    destruct (decodeHitCondition (vsbp_hitCondition vsbp)) as [[t0 ic0]|] eqn:Hdec.
    + unfold mbind, M_bind, bind. rewrite insertOne_run.
      pose proof (insert_appends file (vsbp_line vsbp) (vsbp_condition vsbp)
                    t0 ic0 (gdb s)) as Hlaw.
      fold (insertOptions file vsbp t0 ic0) in Hlaw.
      destruct (execute _ (gdb s)) as [g' [b|e]].
      * destruct Hlaw as (Hgrow & Hfile & Hline & Hcond & Hfresh).
        specialize (IH (actual ++ [createActual b])
                       (registerLogPoint vsbp b (setGdb g' s))).
        cbv zeta in IH. rewrite gdb_registerLogPoint in IH.
        change (gdb (setGdb g' s)) with g' in IH.
        destruct (insertAll file rest _ _) as [[res s3] acts3].
        simpl in *. destruct IH as (new & Hnew & Hfreshnew & Horigin & Hall).
        exists (b :: new). split; [rewrite Hnew, Hgrow; by rewrite <- app_assoc |].
        split.
        { intros b' Hb'. apply elem_of_cons in Hb' as [->|Hb']; [done |].
          intros Hin. apply (Hfreshnew b' Hb'). rewrite Hgrow, map_app.
          apply elem_of_app. by left. }
        split.
        { intros b' Hb'. apply elem_of_cons in Hb' as [->|Hb'].
          - exists vsbp. split; [by apply elem_of_cons; left | done].
          - destruct (Horigin b' Hb') as (d & Hd & Hdesc).
            exists d. split; [by apply elem_of_cons; right | done]. }
        intros actual' Hres d Hd Hdecd.
        apply elem_of_cons in Hd as [->|Hd].
        { exists b. split; [apply elem_of_cons; by left | done]. }
        destruct (Hall actual' Hres d Hd Hdecd) as (b' & Hb' & Hdesc).
        exists b'. split; [apply elem_of_cons; by right | done].
      * simpl. rewrite Hlaw. exists []. rewrite app_nil_r. split; [done |].
        split; [intros b Hb; by apply elem_of_nil in Hb |].
        split; [intros b Hb; by apply elem_of_nil in Hb | done].
    + unfold mbind, M_bind, bind, sendEvent, perform.
      specialize (IH actual s). cbv zeta in IH.
      destruct (insertAll file rest actual s) as [[res s3] acts3].
      simpl in *. destruct IH as (new & Hnew & Hfreshnew & Horigin & Hall).
      exists new. split; [done |]. split; [done |]. split.
      { intros b Hb. destruct (Horigin b Hb) as (d & Hd & Hdesc).
        exists d. split; [by apply elem_of_cons; right | done]. }
      intros actual' Hres d Hd Hdecd.
      apply elem_of_cons in Hd as [->|Hd]; [congruence |].
      by apply (Hall actual' Hres d Hd Hdecd).
Qed.

(** What a [try] block that ends with its response leaves in the
    table of the debugger. *)
Lemma tryBlock_contract (args : SetBreakpointsArguments) (s1 : Session G)
      (actual : list Breakpoint) :
  let file := source_path args in
  let desired := default [] (breakpoints args) in
  let inner := tryCatch (tryBody args) (sendErrorResponse 1) s1 in
  NoDup (map bkpt_number (installed (gdb s1))) ->
  SendResponse (BreakpointsBody actual) ∈ inner.2 ->
  (forall d, d ∈ desired -> decodeHitCondition (vsbp_hitCondition d) <> None ->
     exists b, b ∈ installed (gdb inner.1.2)
               /\ inFile file b = true /\ matches b d = true)
  /\ (forall j, j ∈ installed (gdb inner.1.2) -> inFile file j = true ->
        lineTaken desired j = true)
  /\ List.filter (fun j => negb (inFile file j)) (installed (gdb inner.1.2))
     = List.filter (fun j => negb (inFile file j)) (installed (gdb s1)).
Proof.
  intros file desired inner Hnodup. subst inner. rewrite tryBlock_run. cbv zeta.
  fold file desired.
  set (table := installed (gdb s1)) in *.
  set (r := reconcile file desired (logPointMessages s1) table).
  set (s2 := setLogPointMessages (messages r) (setGdb (execute BreakList (gdb s1)).1 s1)).
  assert (Hs2 : installed (gdb s2) = table).
  { change (installed (execute BreakList (gdb s1)).1 = table).
    by destruct (list_answers (gdb s1)) as [_ ->]. }
  assert (Hdeletes : deletes r = map bkpt_number (stale file desired table)).
  { unfold r, reconcile, stale. by rewrite foldl_visit_deletes. }
  assert (Hstale : forall i, i ∈ table -> bkpt_number i ∈ deletes r ->
                             inFile file i = true /\ lineTaken desired i = false).
  { intros i Hi Hin. rewrite Hdeletes in Hin.
    apply list_elem_of_fmap in Hin as (j & Hnum & Hj).
    unfold stale in Hj. apply list_elem_of_In, List.filter_In in Hj as [Hj Hcond].
    apply list_elem_of_In in Hj.
    assert (j = i) as -> by (by apply (NoDup_fmap_eq bkpt_number table)).
    apply andb_true_iff in Hcond as [? Hl]. by apply negb_true_iff in Hl. }
  assert (Hsub : forall n, n ∈ deletes r -> n ∈ map bkpt_number table).
  { rewrite Hdeletes. intros n Hn. apply list_elem_of_fmap in Hn as (j & -> & Hj).
    apply list_elem_of_fmap_2. unfold stale in Hj.
    apply list_elem_of_In, List.filter_In in Hj as [Hj _]. by apply list_elem_of_In. }
  pose proof (insertAll_new file (inserts r) (CmsisDebugSession.actual r) s2) as Hloop.
  pose proof (insertAll_actions file (inserts r) (CmsisDebugSession.actual r) s2) as Hacts.
  cbv zeta in Hloop. rewrite Hs2 in Hloop.
  destruct (insertAll file (inserts r) (CmsisDebugSession.actual r) s2)
    as [[res s3] acts3].
  simpl in Hloop, Hacts. destruct Hloop as (new & Hnew & Hfresh & Horigin & Hall).
  set (keep := fun b => negb (bool_decide (bkpt_number b ∈ deletes r))).
  (* the response tells that the loop and the deletion went well *)
  intros Hresp.
  assert (Hafter : exists actual',
             res = Ok actual'
             /\ installed (gdb (match res with
                                | Ok actual =>
                                    if bool_decide (deletes r ≠ []) then
                                      match execute (BreakDelete (deletes r)) (gdb s3) with
                                      | (g4, Ok _) =>
                                          (Ok tt, setGdb g4 s3,
                                           Command BreakList
                                             :: acts3 ++ [Command (BreakDelete (deletes r));
                                                          SendResponse (BreakpointsBody actual)])
                                      | (g4, Throw e) =>
                                          (Ok tt, setGdb g4 s3,
                                           Command BreakList
                                             :: acts3 ++ [Command (BreakDelete (deletes r));
                                                          SendErrorResponse 1 e])
                                      end
                                    else (Ok tt, s3,
                                          Command BreakList
                                            :: acts3 ++ [SendResponse (BreakpointsBody actual)])
                                | Throw e =>
                                    (Ok tt, s3,
                                     Command BreakList :: acts3 ++ [SendErrorResponse 1 e])
                                end).1.2)
                = List.filter keep (table ++ new)).
  { destruct res as [actual'|e].
    - exists actual'. split; [done |].
      destruct (bool_decide (deletes r ≠ [])) eqn:Hne.
      + pose proof (delete_removes (deletes r) (gdb s3)) as Hlaw.
        destruct (execute (BreakDelete (deletes r)) (gdb s3)) as [g4 [[]|e]].
        * simpl. by rewrite Hlaw, Hnew.
        * exfalso. simpl in Hresp. apply elem_of_cons in Hresp as [[=]|Hresp].
          apply elem_of_app in Hresp as [Hresp|Hresp];
            [by destruct (loopAction_not_response _ _ Hacts Hresp) |].
          apply elem_of_cons in Hresp as [[=]|Hresp].
          by apply list_elem_of_singleton in Hresp.
      + simpl. rewrite Hnew. apply bool_decide_eq_false in Hne.
        assert (Hnil : deletes r = []) by (by destruct (deletes r); [|destruct Hne]).
        symmetry. apply filter_all. intros b. unfold keep. rewrite Hnil.
        apply negb_true_iff, bool_decide_eq_false. by intros ?%elem_of_nil.
    - exfalso. simpl in Hresp. apply elem_of_cons in Hresp as [[=]|Hresp].
      apply elem_of_app in Hresp as [Hresp|Hresp];
        [by destruct (loopAction_not_response _ _ Hacts Hresp) |].
      by apply list_elem_of_singleton in Hresp. }
  destruct Hafter as (actual' & Hres & ->). clear Hresp.
  assert (Hkeepnew : forall b, b ∈ new -> keep b = true).
  { intros b Hb. unfold keep. apply negb_true_iff, bool_decide_eq_false.
    intros Hin. by apply (Hfresh b Hb), Hsub. }
  assert (Hin : forall b, b ∈ table ++ new -> keep b = true ->
                          b ∈ List.filter keep (table ++ new)).
  { intros b Hb Hk. apply list_elem_of_In, List.filter_In.
    split; [by apply list_elem_of_In | done]. }
  split; [|split].
  - intros d Hd Hdec.
    destruct (unmatched file table d) eqn:Hun.
    + assert (Hdi : d ∈ inserts r).
      { unfold r, reconcile. rewrite foldl_visit_inserts. simpl.
        apply list_elem_of_In, List.filter_In. split; [by apply list_elem_of_In | done]. }
      destruct (Hall actual' Hres d Hdi Hdec) as (b & Hb & Hbf & Hbl & Hbc).
      exists b. destruct (inserted_matches file b d Hbf Hbl Hbc) as (? & ? & _).
      split; [|done]. apply Hin; [apply elem_of_app; by right | by apply Hkeepnew].
    + apply forallb_false in Hun as (i & Hi & Hm).
      apply negb_false_iff, andb_true_iff in Hm as [Hfi Hmi].
      exists i. split; [|done]. apply Hin; [apply elem_of_app; by left |].
      unfold keep. apply negb_true_iff, bool_decide_eq_false. intros Hdel.
      destruct (Hstale i Hi Hdel) as [_ Hnot].
      apply not_true_iff_false in Hnot. apply Hnot. unfold lineTaken.
      apply existsb_exists. exists d. split; [by apply list_elem_of_In |].
      unfold matches in Hmi. by apply andb_true_iff in Hmi as [? _].
  - intros j Hj Hfj. apply list_elem_of_In, List.filter_In in Hj as [Hj Hk].
    apply list_elem_of_In, elem_of_app in Hj as [Hj|Hj].
    + destruct (lineTaken desired j) eqn:Hl; [done |]. exfalso.
      unfold keep in Hk. apply negb_true_iff, bool_decide_eq_false in Hk. apply Hk.
      rewrite Hdeletes. apply list_elem_of_fmap_2. unfold stale.
      apply list_elem_of_In, List.filter_In. split; [by apply list_elem_of_In |].
      by rewrite Hfj, Hl.
    + destruct (Horigin j Hj) as (d & Hd & Hbf & Hbl & Hbc).
      destruct (inserted_matches file j d Hbf Hbl Hbc) as (_ & _ & Hline).
      unfold lineTaken. apply existsb_exists. exists d. split; [|done].
      apply list_elem_of_In. by apply (inserts_desired _ _ _ _ _ Hd).
  - rewrite filter_filter_andb, List.filter_app.
    rewrite (filter_none _ new).
    2: { intros b Hb. destruct (Horigin b Hb) as (d & Hd & Hbf & Hbl & Hbc).
         destruct (inserted_matches file b d Hbf Hbl Hbc) as (-> & _ & _).
         by rewrite andb_false_r. }
    rewrite app_nil_r. apply List.filter_ext_in. intros j Hj.
    apply list_elem_of_In in Hj.
    destruct (inFile file j) eqn:Hfj; simpl; [by rewrite andb_false_r |].
    rewrite andb_true_r. unfold keep. apply negb_true_iff, bool_decide_eq_false.
    intros Hdel. destruct (Hstale j Hj Hdel) as [Hf _]. congruence.
Qed.

(** A table that already holds the desired set is left alone. *)
Lemma tryBlock_fixpoint (args : SetBreakpointsArguments) (s1 : Session G) :
  let file := source_path args in
  let desired := default [] (breakpoints args) in
  let inner := tryCatch (tryBody args) (sendErrorResponse 1) s1 in
  (forall d, d ∈ desired -> decodeHitCondition (vsbp_hitCondition d) <> None ->
     exists b, b ∈ installed (gdb s1) /\ inFile file b = true /\ matches b d = true) ->
  (forall j, j ∈ installed (gdb s1) -> inFile file j = true ->
     lineTaken desired j = true) ->
  List.filter isBreakInsert (commandsOf inner.2) = []
  /\ List.filter isBreakDelete (commandsOf inner.2) = []
  /\ installed (gdb inner.1.2) = installed (gdb s1)
  /\ exists actual, SendResponse (BreakpointsBody actual) ∈ inner.2.
Proof.
  intros file desired inner Hhave Hclean. subst inner. rewrite tryBlock_run. cbv zeta.
  fold file desired.
  set (table := installed (gdb s1)) in *.
  set (r := reconcile file desired (logPointMessages s1) table).
  assert (Hdeletes : deletes r = []).
  { unfold r, reconcile. rewrite foldl_visit_deletes. simpl.
    rewrite filter_none; [done |]. intros j Hj.
    destruct (inFile file j) eqn:Hfj; [|done]. simpl.
    by rewrite (Hclean j Hj Hfj). }
  assert (Hinserts : forall d, d ∈ inserts r ->
                               decodeHitCondition (vsbp_hitCondition d) = None).
  { intros d Hd. unfold r, reconcile in Hd. rewrite foldl_visit_inserts in Hd.
    simpl in Hd. apply list_elem_of_In, List.filter_In in Hd as [Hd Hun].
    apply list_elem_of_In in Hd.
    destruct (decodeHitCondition (vsbp_hitCondition d)) as [p|] eqn:Hdec; [|done].
    exfalso. destruct (Hhave d Hd) as (b & Hb & Hfb & Hmb); [by rewrite Hdec |].
    unfold unmatched in Hun. rewrite forallb_forall in Hun.
    specialize (Hun b (proj1 (list_elem_of_In _ _) Hb)). by rewrite Hfb, Hmb in Hun. }
  rewrite (insertAll_undecodable _ _ _ _ Hinserts), Hdeletes. simpl.
  split; [|split; [|split]].
  - rewrite commandsOf_app. simpl. rewrite app_nil_r.
    clear. by induction (inserts r).
  - rewrite commandsOf_app. simpl. rewrite app_nil_r.
    clear. by induction (inserts r).
  - change (installed (execute BreakList (gdb s1)).1 = table).
    by destruct (list_answers (gdb s1)) as [_ ->].
  - eexists. apply elem_of_cons. right. apply elem_of_app. right.
    by apply list_elem_of_singleton.
Qed.

(** The response of the request is that of its [try] block. *)
Lemma response_of_tryBlock (args : SetBreakpointsArguments) (s : Session G) body :
  SendResponse body ∈ (setBreakPointsRequest args s).2
  <-> SendResponse body ∈ (tryCatch (tryBody args) (sendErrorResponse 1) (atTry s)).2.
Proof. by apply (request_vs_tryBlock args s). Qed.

(** X13. The contract of the pass, against a debugger that keeps its
    table under distinct numbers.  When the request ends with its
    response: every desired breakpoint whose hit condition decodes has
    an installed entry of the file at its line and with its condition;
    no installed entry of the file is left at a line nobody desires;
    and the entries of other files are what they were, in order. *)
Theorem pass_establishes_desired_set (args : SetBreakpointsArguments)
        (s : Session G) (actual : list Breakpoint) :
  let file := source_path args in
  let desired := default [] (breakpoints args) in
  let run := setBreakPointsRequest args s in
  NoDup (map bkpt_number (installed (gdb s))) ->
  SendResponse (BreakpointsBody actual) ∈ run.2 ->
  (forall d, d ∈ desired -> decodeHitCondition (vsbp_hitCondition d) <> None ->
     exists b, b ∈ installed (gdb run.1.2)
               /\ inFile file b = true /\ matches b d = true)
  /\ (forall j, j ∈ installed (gdb run.1.2) -> inFile file j = true ->
        exists d, d ∈ desired /\ Some (vsbp_line d) = JS.parseIntOpt (bkpt_line j))
  /\ List.filter (fun j => negb (inFile file j)) (installed (gdb run.1.2))
     = List.filter (fun j => negb (inFile file j)) (installed (gdb s)).
Proof.
  intros file desired run Hnodup Hresp.
  apply response_of_tryBlock in Hresp.
  destruct (request_vs_tryBlock args s) as [Hgdb _]. fold run in Hgdb.
  rewrite <- (gdb_atTry s) in Hnodup.
  destruct (tryBlock_contract args (atTry s) actual Hnodup Hresp) as (Ha & Hb & Hc).
  rewrite Hgdb. fold file desired in Ha, Hb, Hc.
  split; [exact Ha |]. split; [|by rewrite Hc, gdb_atTry].
  intros j Hj Hfj. specialize (Hb j Hj Hfj). unfold lineTaken in Hb.
  apply existsb_exists in Hb as (d & Hd & Hl). exists d.
  split; [by apply list_elem_of_In |]. by apply bool_decide_eq_true in Hl.
Qed.

(** X14. Sending the same request again is a no-op on the debugger:
    after a request that ended with its response, the same request
    inserts nothing, deletes nothing, leaves the table as it is and
    ends with a response again. *)
Theorem same_request_again_changes_nothing (args : SetBreakpointsArguments)
        (s : Session G) (actual : list Breakpoint) :
  let first := setBreakPointsRequest args s in
  let again := setBreakPointsRequest args first.1.2 in
  NoDup (map bkpt_number (installed (gdb s))) ->
  SendResponse (BreakpointsBody actual) ∈ first.2 ->
  List.filter isBreakInsert (commandsOf again.2) = []
  /\ List.filter isBreakDelete (commandsOf again.2) = []
  /\ installed (gdb again.1.2) = installed (gdb first.1.2)
  /\ exists actual', SendResponse (BreakpointsBody actual') ∈ again.2.
Proof.
  intros first again Hnodup Hresp.
  apply response_of_tryBlock in Hresp.
  destruct (request_vs_tryBlock args s) as [Hgdb _]. fold first in Hgdb.
  rewrite <- (gdb_atTry s) in Hnodup.
  destruct (tryBlock_contract args (atTry s) actual Hnodup Hresp) as (Ha & Hb & _).
  rewrite <- Hgdb, <- (gdb_atTry first.1.2) in Ha, Hb.
  destruct (tryBlock_fixpoint args (atTry first.1.2) Ha Hb) as (Hins & Hdel & Hsame & Hagain).
  destruct (request_vs_tryBlock args first.1.2) as [Hgdb2 Hmem]. fold again in Hgdb2, Hmem.
  split; [|split; [|split]].
  - subst again. rewrite setBreakPointsRequest_shape. cbv zeta.
    destruct (isRunning first.1.2); simpl; [|done].
    rewrite commandsOf_app, List.filter_app, Hins. done.
  - subst again. by rewrite request_deletions.
  - by rewrite Hgdb2, Hsame, gdb_atTry.
  - destruct Hagain as [actual' Hin]. exists actual'. by apply response_of_tryBlock.
Qed.

(** X15. A request with no breakpoints clears the file: when it ends
    with its response, the response lists nothing, nothing was inserted,
    and the debugger holds its entries of other files and none of the
    file of the request. *)
Theorem empty_request_clears_the_file (args : SetBreakpointsArguments)
        (s : Session G) (actual : list Breakpoint) :
  let file := source_path args in
  let run := setBreakPointsRequest args s in
  default [] (breakpoints args) = [] ->
  NoDup (map bkpt_number (installed (gdb s))) ->
  SendResponse (BreakpointsBody actual) ∈ run.2 ->
  actual = []
  /\ List.filter isBreakInsert (commandsOf run.2) = []
  /\ installed (gdb run.1.2)
     = List.filter (fun j => negb (inFile file j)) (installed (gdb s)).
Proof.
  intros file run Hnone Hnodup Hresp.
  assert (Hnil : actual = []).
  { destruct (request_response args s actual Hresp) as (g2 & body & _ & Hloop).
    cbv zeta in Hloop. rewrite Hnone in Hloop.
    destruct (reconcile_lengths (source_path args) [] ∅ body) as [Hlen Hver].
    apply insertAll_length in Hloop as [Hlen' _]; [| |done].
    - destruct actual; [done | simpl in *; lia].
    - intros d Hd. apply inserts_desired in Hd. by apply elem_of_nil in Hd. }
  split; [exact Hnil |].
  pose proof Hresp as Hinner. apply response_of_tryBlock in Hinner.
  destruct (request_vs_tryBlock args s) as [Hgdb _]. fold run in Hgdb.
  pose proof Hnodup as Hnodup'. rewrite <- (gdb_atTry s) in Hnodup'.
  destruct (tryBlock_contract args (atTry s) actual Hnodup' Hinner) as (_ & Hb & Hc).
  rewrite Hnone in Hb. fold file in Hb, Hc. split.
  - subst run. rewrite setBreakPointsRequest_shape. cbv zeta.
    assert (Hin : List.filter isBreakInsert
                    (commandsOf (tryCatch (tryBody args) (sendErrorResponse 1) (atTry s)).2)
                  = []).
    { rewrite tryBody_run. cbv zeta.
      destruct (execute BreakList (gdb (atTry s))) as [g2' [body'|e]]; [|done].
      rewrite Hnone.
      assert (Hempty : inserts (reconcile (source_path args) []
                                          (logPointMessages (atTry s)) body') = []).
      { unfold reconcile. by rewrite foldl_visit_inserts. }
      rewrite Hempty. simpl.
      destruct (bool_decide _); [|done].
      by destruct (execute _ _) as [g4 [[]|e]]. }
    destruct (isRunning s); simpl; [|done].
    by rewrite commandsOf_app, List.filter_app, Hin.
  - rewrite Hgdb, <- (gdb_atTry s), <- Hc.
    symmetry. apply filter_all_in. intros j Hj.
    destruct (inFile file j) eqn:Hfj; [|done].
    by specialize (Hb j Hj Hfj).
Qed.

End Lawful.

End Request.

Import ReferenceDebugger ReferenceDebuggerFacts.

(** Line 10 desired in main.c, with entries at lines 10 and 20 there
    and one in another file: the entry at line 20 is deleted, alone. *)
Lemma deletes_stale_entries_of_the_file_example :
  (execute BreakList (gdb (atTry (debugging [at10; at20when; elsewhere])))).2
  = Ok [at10; at20when; elsewhere]
  /\ stale "main.c" [line10] [at10; at20when; elsewhere] = [at20when]
  /\ List.filter isBreakDelete
       (commandsOf (setBreakPointsRequest (request [line10])
                                          (debugging [at10; at20when; elsewhere])).2)
     = [BreakDelete ["2"]].
Proof.
  assert (H1 : (execute BreakList (gdb (atTry (debugging [at10; at20when; elsewhere])))).2
               = Ok [at10; at20when; elsewhere]) by reflexivity.
  split; [exact H1 |]. split; [reflexivity |].
  destruct (deletes_stale_entries_of_the_file
              (request [line10]) (debugging [at10; at20when; elsewhere])
              [at10; at20when; elsewhere] H1) as [[Hnone|[_ Hdel]] _].
  - by vm_compute in Hnone.
  - exact Hdel.
Defined.

(** A request sent to a debugger that has lost its connection. *)
Lemma failed_listing_answers_error_example :
  (execute (Environment := disconnected) BreakList
           (gdb (atTry (Environment0 := disconnected) (debugging [at10])))).2
  = Throw "Not connected"
  /\ (setBreakPointsRequest (Environment0 := disconnected) (request [line10])
                            (debugging [at10])).2
     = [Command BreakList; SendErrorResponse 1 "Not connected"].
Proof.
  assert (H1 : (execute (Environment := disconnected) BreakList
                        (gdb (atTry (Environment0 := disconnected) (debugging [at10])))).2
               = Throw "Not connected") by reflexivity.
  split; [exact H1 |].
  exact (proj1 (@failed_listing_answers_error Gdb disconnected (request [line10])
                  (debugging [at10]) "Not connected" H1)).
Defined.

(** A log point is set at line 20 of main.c; then breakpoints are set
    in util.c, none with a message: the log point is forgotten. *)
Lemma request_without_messages_leaves_no_log_point_example :
  (forall d, d ∈ default [] (breakpoints (requestIn "util.c" [line10])) ->
             JS.truthy (vsbp_logMessage d) = false)
  /\ logPointMessages logging !! "1" = Some "tick"
  /\ logPointMessages (setBreakPointsRequest (requestIn "util.c" [line10]) logging).1.2 = ∅.
Proof.
  assert (H1 : forall d, d ∈ default [] (breakpoints (requestIn "util.c" [line10])) ->
                         JS.truthy (vsbp_logMessage d) = false).
  { intros d Hd. by apply list_elem_of_singleton in Hd as ->. }
  split; [exact H1 |]. split; [by vm_compute |].
  exact (proj1 (request_without_messages_leaves_no_log_point
                  (requestIn "util.c" [line10]) logging H1)).
Defined.

(** Lines 10 and 20 desired, line 10 installed: two breakpoints in
    the response. *)
Lemma response_lists_every_desired_example :
  ((forall d, d ∈ default [] (breakpoints (request [line10; line20when])) ->
              decodeHitCondition (vsbp_hitCondition d) <> None)
   /\ SendResponse (BreakpointsBody [createActual at10; mkBreakpoint (Some 2) (Some 20) true])
      ∈ (setBreakPointsRequest (request [line10; line20when]) (debugging [at10])).2)
  /\ length [createActual at10; mkBreakpoint (Some 2) (Some 20) true] = 2%nat.
Proof.
  assert (H1 : forall d, d ∈ default [] (breakpoints (request [line10; line20when])) ->
                         decodeHitCondition (vsbp_hitCondition d) <> None).
  { intros d Hd. apply elem_of_cons in Hd as [->|Hd]; [done |].
    by apply list_elem_of_singleton in Hd as ->. }
  assert (H2 : SendResponse (BreakpointsBody [createActual at10;
                                              mkBreakpoint (Some 2) (Some 20) true])
               ∈ (setBreakPointsRequest (request [line10; line20when])
                                        (debugging [at10])).2).
  { vm_compute. apply elem_of_cons; right. apply elem_of_cons; right.
    by apply list_elem_of_singleton. }
  split; [done |].
  exact (proj1 (response_lists_every_desired (request [line10; line20when])
                  (debugging [at10]) _ H1 H2)).
Defined.

(** Line 10 desired under condition [y] in main.c, where line 10 is
    installed without condition and line 20 under one, a third entry
    being in another file. *)
Lemma pass_establishes_desired_set_example :
  (NoDup (map bkpt_number (installed (gdb (debugging [at10; at20when; elsewhere]))))
   /\ SendResponse (BreakpointsBody [mkBreakpoint (Some 4) (Some 10) true])
      ∈ (setBreakPointsRequest (request [line10whenY])
                               (debugging [at10; at20when; elsewhere])).2)
  /\ installed (gdb (setBreakPointsRequest (request [line10whenY])
                                           (debugging [at10; at20when; elsewhere])).1.2)
     = [at10; elsewhere; mkMIBreakpointInfo "4" (Some "main.c") (Some "10") (Some "y")]
  /\ List.filter (fun j => negb (inFile "main.c" j))
                 (installed (gdb (setBreakPointsRequest
                                    (request [line10whenY])
                                    (debugging [at10; at20when; elsewhere])).1.2))
     = [elsewhere].
Proof.
  assert (H1 : NoDup (map bkpt_number
                          (installed (gdb (debugging [at10; at20when; elsewhere])))))
    by (apply (bool_decide_unpack _); vm_compute; exact I).
  assert (H2 : SendResponse (BreakpointsBody [mkBreakpoint (Some 4) (Some 10) true])
               ∈ (setBreakPointsRequest (request [line10whenY])
                                        (debugging [at10; at20when; elsewhere])).2).
  { vm_compute. apply elem_of_cons; right. apply elem_of_cons; right.
    apply elem_of_cons; right. by apply list_elem_of_singleton. }
  split; [done |]. split; [by vm_compute |].
  destruct (pass_establishes_desired_set (request [line10whenY])
              (debugging [at10; at20when; elsewhere]) _ H1 H2) as (_ & _ & Hother).
  etrans; [exact Hother | by vm_compute].
Defined.

(** The same request sent twice. *)
Lemma same_request_again_changes_nothing_example :
  (NoDup (map bkpt_number (installed (gdb (debugging [at10; at20when; elsewhere]))))
   /\ SendResponse (BreakpointsBody [mkBreakpoint (Some 4) (Some 10) true])
      ∈ (setBreakPointsRequest (request [line10whenY])
                               (debugging [at10; at20when; elsewhere])).2)
  /\ List.filter isBreakInsert
       (commandsOf (setBreakPointsRequest
                      (request [line10whenY])
                      (setBreakPointsRequest (request [line10whenY])
                                             (debugging [at10; at20when; elsewhere])).1.2).2)
     = []
  /\ List.filter isBreakDelete
       (commandsOf (setBreakPointsRequest
                      (request [line10whenY])
                      (setBreakPointsRequest (request [line10whenY])
                                             (debugging [at10; at20when; elsewhere])).1.2).2)
     = [].
Proof.
  assert (H1 : NoDup (map bkpt_number
                          (installed (gdb (debugging [at10; at20when; elsewhere])))))
    by (apply (bool_decide_unpack _); vm_compute; exact I).
  assert (H2 : SendResponse (BreakpointsBody [mkBreakpoint (Some 4) (Some 10) true])
               ∈ (setBreakPointsRequest (request [line10whenY])
                                        (debugging [at10; at20when; elsewhere])).2).
  { vm_compute. apply elem_of_cons; right. apply elem_of_cons; right.
    apply elem_of_cons; right. by apply list_elem_of_singleton. }
  split; [done |].
  destruct (same_request_again_changes_nothing (request [line10whenY])
              (debugging [at10; at20when; elsewhere]) _ H1 H2) as (Hins & Hdel & _).
  split; [exact Hins | exact Hdel].
Defined.

(** No breakpoint desired in main.c: its two entries go, the entry of
    the other file stays. *)
Lemma empty_request_clears_the_file_example :
  (default [] (breakpoints (request [])) = []
   /\ NoDup (map bkpt_number (installed (gdb (debugging [at10; at20when; elsewhere]))))
   /\ SendResponse (BreakpointsBody [])
      ∈ (setBreakPointsRequest (request []) (debugging [at10; at20when; elsewhere])).2)
  /\ installed (gdb (setBreakPointsRequest (request [])
                                           (debugging [at10; at20when; elsewhere])).1.2)
     = [elsewhere].
Proof.
  assert (H0 : default [] (breakpoints (request [])) = []) by reflexivity.
  assert (H1 : NoDup (map bkpt_number
                          (installed (gdb (debugging [at10; at20when; elsewhere])))))
    by (apply (bool_decide_unpack _); vm_compute; exact I).
  assert (H2 : SendResponse (BreakpointsBody [])
               ∈ (setBreakPointsRequest (request [])
                                        (debugging [at10; at20when; elsewhere])).2).
  { vm_compute. apply elem_of_cons; right. apply elem_of_cons; right.
    by apply list_elem_of_singleton. }
  split; [done |].
  destruct (empty_request_clears_the_file (request [])
              (debugging [at10; at20when; elsewhere]) [] H0 H1 H2) as (_ & _ & Hafter).
  etrans; [exact Hafter | by vm_compute].
Defined.

End RequestSpec.

Module StopClassSpec.
Import CmsisDebugSession.

Section Stops.
Context {G : Type} `{!Environment G}.

(** [handleGDBStopped], branch by branch. *)
Lemma handleGDBStopped_cases (result : StopResult) (s : Session G) :
  handleGDBStopped result s
  = let stopped reason :=
      SendEvent (StoppedEvent reason (getThreadId result) (getAllThreadsStopped result)) in
    if String.eqb (stop_reason result) "exited"
       || String.eqb (stop_reason result) "exited-normally"
    then (Ok tt, s, [SendEvent TerminatedEvent])
    else if String.eqb (stop_reason result) "breakpoint-hit"
    then match logPointMessages s !! bkptnoKey result with
         | Some message =>
             if JS.truthy (Some message)
             then (Ok tt, setGdb (execute ExecContinue (gdb s)).1 s,
                   [SendEvent (OutputEvent message); Command ExecContinue])
             else (Ok tt, s, [stopped "breakpoint"])
         | None => (Ok tt, s, [stopped "breakpoint"])
         end
    else if String.eqb (stop_reason result) "end-stepping-range"
            || String.eqb (stop_reason result) "function-finished"
    then (Ok tt, s, [stopped "step"])
    else if String.eqb (stop_reason result) "signal-received"
    then (Ok tt, s,
          stopped (if JS.truthy (stop_signal_name result)
                   then default "signal" (stop_signal_name result) else "signal")
            :: (if waitPaused s then [ResolveWaitPaused] else []))
    else (Ok tt, s, [stopped "generic"]).
Proof.
  unfold handleGDBStopped. cbv zeta.
  destruct (String.eqb (stop_reason result) "exited"
            || String.eqb (stop_reason result) "exited-normally"); [done |].
  destruct (String.eqb (stop_reason result) "breakpoint-hit").
  { rewrite ScopesSpec.bind_get.
    destruct (logPointMessages s !! bkptnoKey result) as [message|]; [|done].
    destruct (JS.truthy (Some message)); [|done].
    unfold mbind, M_bind, bind, unawaited, send, sendEvent, perform.
    by destruct (execute ExecContinue (gdb s)) as [g r]. }
  destruct (String.eqb (stop_reason result) "end-stepping-range"
            || String.eqb (stop_reason result) "function-finished"); [done |].
  destruct (String.eqb (stop_reason result) "signal-received"); [|done].
  unfold mbind, M_bind, bind, sendStoppedEvent, sendEvent, perform, when, get.
  by destruct (waitPaused s).
Qed.

(** X16. Whatever the stop notification, [handleGDBStopped] does not
    fail, answers no request and sends exactly one event.  It sends a
    command, one exec-continue, exactly for a breakpoint hit whose id
    has a non-empty log message; in every other case it sends no command
    and leaves the session as it is.  The event is the terminated event
    exactly for the reasons exited and exited-normally. *)
Theorem stop_sends_one_event (result : StopResult) (s : Session G) :
  let run := handleGDBStopped result s in
  run.1.1 = Ok tt
  /\ length (eventsOf run.2) = 1%nat
  /\ answersOf run.2 = []
  /\ (commandsOf run.2 = [ExecContinue]
      <-> stop_reason result = "breakpoint-hit"
          /\ exists message, logPointMessages s !! bkptnoKey result = Some message
                             /\ JS.truthy (Some message) = true)
  /\ (commandsOf run.2 = [ExecContinue] \/ (commandsOf run.2 = [] /\ run.1.2 = s))
  /\ (eventsOf run.2 = [TerminatedEvent]
      <-> stop_reason result = "exited" \/ stop_reason result = "exited-normally").
Proof.
  intros run. subst run. rewrite handleGDBStopped_cases. cbv zeta.
  destruct (String.eqb_spec (stop_reason result) "exited") as [He|He].
  { simpl. rewrite He. split; [done |]. split; [done |]. split; [done |].
    split; [split; [done | by intros [? _]] |].
    split; [by right |]. split; [by left | done]. }
  destruct (String.eqb_spec (stop_reason result) "exited-normally") as [Hn|Hn].
  { simpl. rewrite Hn. split; [done |]. split; [done |]. split; [done |].
    split; [split; [done | by intros [? _]] |].
    split; [by right |]. split; [by right | done]. }
  assert (Hnot : ~ (stop_reason result = "exited" \/ stop_reason result = "exited-normally"))
    by tauto.
  simpl orb. cbv iota.
  destruct (String.eqb_spec (stop_reason result) "breakpoint-hit") as [Hb|Hb].
  { destruct (logPointMessages s !! bkptnoKey result) as [message|] eqn:Hm.
    - destruct (JS.truthy (Some message)) eqn:Ht.
      + simpl. split; [done |]. split; [done |]. split; [done |].
        split; [split; [by eauto | done] |].
        split; [by left |]. split; [done | tauto].
      + simpl. split; [done |]. split; [done |]. split; [done |].
        split; [split; [done | intros (_ & m & [= <-] & Hm'); unfold JS.truthy in *; congruence] |].
        split; [by right |]. split; [done | tauto].
    - simpl. split; [done |]. split; [done |]. split; [done |].
      split; [split; [done | by intros (_ & m & ? & _)] |].
      split; [by right |]. split; [done | tauto]. }
  assert (Hquiet : forall acts,
            length (eventsOf acts) = 1%nat -> answersOf acts = [] -> commandsOf acts = [] ->
            eventsOf acts <> [TerminatedEvent] ->
            ((Ok tt, s, acts) : Result unit * Session G * list Action).1.1 = Ok tt
            /\ length (eventsOf ((Ok tt, s, acts) : Result unit * Session G * list Action).2)
               = 1%nat
            /\ answersOf ((Ok tt, s, acts) : Result unit * Session G * list Action).2 = []
            /\ (commandsOf ((Ok tt, s, acts) : Result unit * Session G * list Action).2
                = [ExecContinue]
                <-> stop_reason result = "breakpoint-hit"
                    /\ exists message,
                        logPointMessages s !! bkptnoKey result = Some message
                        /\ JS.truthy (Some message) = true)
            /\ (commandsOf ((Ok tt, s, acts) : Result unit * Session G * list Action).2
                = [ExecContinue]
                \/ (commandsOf ((Ok tt, s, acts) : Result unit * Session G * list Action).2 = []
                    /\ ((Ok tt, s, acts) : Result unit * Session G * list Action).1.2 = s))
            /\ (eventsOf ((Ok tt, s, acts) : Result unit * Session G * list Action).2
                = [TerminatedEvent]
                <-> stop_reason result = "exited" \/ stop_reason result = "exited-normally")).
  { intros acts Hev Hans Hcmd Hterm. simpl. rewrite Hcmd.
    split; [done |]. split; [done |]. split; [done |].
    split; [split; [done | by intros [? _]] |].
    split; [by right |]. split; [done | tauto]. }
  destruct (String.eqb (stop_reason result) "end-stepping-range"
            || String.eqb (stop_reason result) "function-finished"); [by apply Hquiet |].
  destruct (String.eqb (stop_reason result) "signal-received"); [|by apply Hquiet].
  destruct (waitPaused s); by apply Hquiet.
Qed.

(** X17. Only a signal releases a request that waits for the pause:
    [waitPaused] is called exactly for a stop of reason signal-received
    while the session waits, after the stopped event, whose reason is
    the name of the signal, or [signal] when the notification has none. *)
Theorem only_a_signal_releases_the_pause (result : StopResult) (s : Session G) :
  let run := handleGDBStopped result s in
  (ResolveWaitPaused ∈ run.2
   <-> stop_reason result = "signal-received" /\ waitPaused s = true)
  /\ (ResolveWaitPaused ∈ run.2 ->
      run.2 = [SendEvent (StoppedEvent
                            (if JS.truthy (stop_signal_name result)
                             then default "signal" (stop_signal_name result)
                             else "signal")
                            (getThreadId result) (getAllThreadsStopped result));
               ResolveWaitPaused]).
Proof.
  intros run.
  assert (Hsignal : stop_reason result = "signal-received" ->
            run.2 = SendEvent (StoppedEvent
                                 (if JS.truthy (stop_signal_name result)
                                  then default "signal" (stop_signal_name result)
                                  else "signal")
                                 (getThreadId result) (getAllThreadsStopped result))
                      :: (if waitPaused s then [ResolveWaitPaused] else [])).
  { intros Hg. subst run. unfold handleGDBStopped. rewrite Hg.
    change (String.eqb "signal-received" "exited"
            || String.eqb "signal-received" "exited-normally") with false.
    change (String.eqb "signal-received" "breakpoint-hit") with false.
    change (String.eqb "signal-received" "end-stepping-range"
            || String.eqb "signal-received" "function-finished") with false.
    change (String.eqb "signal-received" "signal-received") with true.
    cbv iota.
    unfold mbind, M_bind, bind, sendStoppedEvent, sendEvent, perform, when, get.
    by destruct (waitPaused s). }
  assert (Hother : stop_reason result <> "signal-received" -> ResolveWaitPaused ∉ run.2).
  { intros Hg. subst run. unfold handleGDBStopped.
    destruct (String.eqb (stop_reason result) "exited"
              || String.eqb (stop_reason result) "exited-normally").
    { simpl. by intros ?%list_elem_of_singleton. }
    destruct (String.eqb (stop_reason result) "breakpoint-hit").
    { rewrite ScopesSpec.bind_get.
      destruct (logPointMessages s !! bkptnoKey result) as [message|].
      - destruct (JS.truthy (Some message)).
        + unfold mbind, M_bind, bind, unawaited, send, sendEvent, perform.
          destruct (execute ExecContinue (gdb s)) as [g r]. simpl.
          intros Hin. apply elem_of_cons in Hin as [[=]|Hin].
          by apply list_elem_of_singleton in Hin.
        + simpl. by intros ?%list_elem_of_singleton.
      - simpl. by intros ?%list_elem_of_singleton. }
    destruct (String.eqb (stop_reason result) "end-stepping-range"
              || String.eqb (stop_reason result) "function-finished").
    { simpl. by intros ?%list_elem_of_singleton. }
    destruct (String.eqb_spec (stop_reason result) "signal-received") as [?|_]; [done |].
    simpl. by intros ?%list_elem_of_singleton. }
  assert (Hiff : ResolveWaitPaused ∈ run.2
                 <-> stop_reason result = "signal-received" /\ waitPaused s = true).
  { split.
    - intros Hin.
      destruct (decide (stop_reason result = "signal-received")) as [Hg|Hg];
        [|by destruct (Hother Hg)].
      split; [done |]. rewrite (Hsignal Hg) in Hin.
      apply elem_of_cons in Hin as [[=]|Hin].
      destruct (waitPaused s); [done | by apply elem_of_nil in Hin].
    - intros [Hg Hw]. rewrite (Hsignal Hg), Hw.
      apply elem_of_cons. right. by apply list_elem_of_singleton. }
  split; [exact Hiff |]. intros Hin. apply Hiff in Hin as [Hg Hw].
  by rewrite (Hsignal Hg), Hw.
Qed.

End Stops.
End StopClassSpec.

Module VariablesRequestSpec.
Import CmsisDebugSession ActionFacts.

Section Scopes.
Context {G : Type} `{!Environment G}.

(** A handle outside the reserved ranges goes through the table. *)
Lemma variablesRequest_unreserved (ref : Z) (s : Session G) :
  unreserved ref ->
  variablesRequest ref s = tableBranch ref s.
Proof.
  intros [Hg Hs]. unfold variablesRequest, tableBranch, tryCatch.
  rewrite !ScopesSpec.bind_get.
  assert ((ref =? GLOBAL_HANDLE_ID) = false) as -> by (by apply Z.eqb_neq).
  assert ((STATIC_HANDLES_START <=? ref) && (ref <=? STATIC_HANDLES_FINISH) = false) as ->.
  { apply not_true_iff_false. intros Hin. apply Hs.
    apply andb_true_iff in Hin as [?%Z.leb_le ?%Z.leb_le]. done. }
  reflexivity.
Qed.

Lemma tableBranch_lookup (ref : Z) (s : Session G) :
  tableBranch ref s
  = match Handles_get ref (variableHandles s) with
    | Some (FrameVariableReference frameHandle) => frameBranch frameHandle s
    | Some (ObjectVariableReference frameHandle varobjName) =>
        objectBranch frameHandle varobjName s
    | None => (Ok tt, s, [SendResponse (VariablesBody [])])
    end.
Proof.
  unfold tableBranch, frameBranch, objectBranch, tryCatch.
  rewrite ScopesSpec.bind_get.
  by destruct (Handles_get ref (variableHandles s)) as [[f|f v]|].
Qed.

(** X18. A reference that is none of the reserved handles and that the
    handle table does not hold is answered with an empty list of
    variables, not with an error, and nothing else happens. *)
Theorem unknown_reference_lists_nothing (ref : Z) (s : Session G) :
  unreserved ref ->
  Handles_get ref (variableHandles s) = None ->
  variablesRequest ref s = (Ok tt, s, [SendResponse (VariablesBody [])]).
Proof.
  intros Hu Hnone. rewrite variablesRequest_unreserved by done.
  by rewrite tableBranch_lookup, Hnone.
Qed.


(** **** Resolving variables *)

(** The [return] statement of [getVariables], by whether the variable
    has children. *)
Lemma answer_cases (expr : string) (global : VarObjType) (s : Session G) :
  answer expr global s
  = if hasChildren global
    then (Ok (mkVariable expr (default "<unknown>" (value global)) (type global)
                         (nextHandle (variableHandles s))),
          setVariableHandles
            (Handles_create (ObjectVariableReference (globalHandle s) (varname global))
                            (variableHandles s)).2 s,
          [])
    else (Ok (mkVariable expr (default "<unknown>" (value global)) (type global) 0), s, []).
Proof.
  unfold answer, hasChildren. destruct (JS.parseInt (numchild global)) as [n|]; [|done].
  by destruct (0 <? n).
Qed.

(** X20. The reference of a resolved variable.  A variable without
    children (a child count that is zero, negative or no number) is
    answered with reference 0 and allocates nothing.  A variable with
    children is answered with a new handle of the table, which holds the
    backend name of the variable and the global handle; handed back to
    [variablesRequest], when it lies outside the reserved ranges, it
    lists the children of that variable.  An absent value reads
    [<unknown>]. *)
Theorem children_reference_round_trip (expr : string) (global : VarObjType)
        (s : Session G) :
  let run := answer expr global s in
  exists v,
    run = (Ok v, run.1.2, [])
    /\ var_name v = expr
    /\ var_value v = default "<unknown>" (value global)
    /\ if hasChildren global
       then var_variablesReference v = nextHandle (variableHandles s)
            /\ Handles_get (var_variablesReference v) (variableHandles run.1.2)
               = Some (ObjectVariableReference (globalHandle s) (varname global))
            /\ (unreserved (var_variablesReference v) ->
                variablesRequest (var_variablesReference v) run.1.2
                = objectBranch (globalHandle s) (varname global) run.1.2)
       else var_variablesReference v = 0 /\ run.1.2 = s.
Proof.
  intros run. subst run. rewrite answer_cases.
  destruct (hasChildren global); simpl; eexists; (split; [done |]); simpl; [|done].
  split; [done |]. split; [done |].
  assert (Hget : Handles_get (nextHandle (variableHandles s))
                   (mkHandles (nextHandle (variableHandles s) + 1)
                              (<[nextHandle (variableHandles s)
                                 := ObjectVariableReference (globalHandle s) (varname global)]>
                                 (handleMap (variableHandles s))))
                 = Some (ObjectVariableReference (globalHandle s) (varname global))).
  { unfold Handles_get. simpl. apply lookup_insert_eq. }
  split; [done |]. split; [exact Hget |].
  intros Hu. rewrite variablesRequest_unreserved by done.
  rewrite tableBranch_lookup. simpl. by rewrite Hget.
Qed.




(** Without a frame the first symbol already fails, before any
    command. *)
Lemma forSymbols_no_frame (label : string -> string) (depth : JS.number)
      (symbols : list SymbolInformation) (s : Session G) :
  forSymbols (fun symbol => getVariables None (label (symbol_name symbol))
                                         (symbol_name symbol) depth) symbols s
  = match symbols with
    | [] => (Ok [], s, [])
    | _ :: _ => (Throw "Cannot read property 'frameId' of undefined", s, [])
    end.
Proof. by destruct symbols. Qed.


Lemma variablesRequest_global (s : Session G) :
  variablesRequest GLOBAL_HANDLE_ID s = globalBranch s.
Proof.
  unfold variablesRequest, globalBranch, tryCatch. by rewrite !ScopesSpec.bind_get.
Qed.

Lemma getGlobalVariables_run (s : Session G) :
  getGlobalVariables (globalHandle s) s
  = forSymbols
      (fun symbol =>
         getVariables (globalHandle s ≫= fun h => Handles_get h (frameHandles s))
                      (globalName (symbol_name symbol)) (symbol_name symbol) (Some (-1)))
      symbolTable_getGlobalVariables s.
Proof. unfold getGlobalVariables. by rewrite ScopesSpec.bind_get. Qed.

Lemma globalBranch_run (s : Session G) :
  globalBranch s
  = tryCatch
      (variables ← forSymbols
                     (fun symbol =>
                        getVariables
                          (globalHandle s ≫= fun h => Handles_get h (frameHandles s))
                          (globalName (symbol_name symbol)) (symbol_name symbol)
                          (Some (-1)))
                     symbolTable_getGlobalVariables;
       sendResponse (VariablesBody variables))
      (sendErrorResponse 1) s.
Proof.
  unfold globalBranch, tryCatch. rewrite ScopesSpec.bind_get.
  unfold mbind, M_bind, bind. by rewrite getGlobalVariables_run.
Qed.


(** X22. The Global scope before any stack trace.  As long as no
    frame stands behind the global handle, a request for the Global
    scope sends no command and changes nothing: with global symbols it
    is answered with an error response of code 1, without any with the
    empty list. *)
Theorem globals_without_pseudo_frame (s : Session G) :
  globalHandle s ≫= (fun h => Handles_get h (frameHandles s)) = None ->
  match symbolTable_getGlobalVariables with
  | [] => variablesRequest GLOBAL_HANDLE_ID s
          = (Ok tt, s, [SendResponse (VariablesBody [])])
  | _ :: _ => exists message,
      variablesRequest GLOBAL_HANDLE_ID s = (Ok tt, s, [SendErrorResponse 1 message])
  end.
Proof.
  intros Hf. rewrite variablesRequest_global, globalBranch_run, Hf.
  unfold tryCatch, mbind, M_bind, bind. rewrite forSymbols_no_frame.
  destruct symbolTable_getGlobalVariables as [|symbol rest]; [done |]. by eexists.
Qed.

(** **** The Static scope *)




(** X24. The Static scope of a frame the session does not know: the
    request sends no command and changes nothing, and is answered with
    an error response of code 1. *)
Theorem statics_of_unknown_frame (ref : Z) (s : Session G) :
  STATIC_HANDLES_START <= ref <= STATIC_HANDLES_FINISH ->
  Handles_get (ref - STATIC_HANDLES_START) (frameHandles s) = None ->
  exists message,
    variablesRequest ref s = (Ok tt, s, [SendErrorResponse 1 message]).
Proof.
  intros Hrange Hframe. rewrite ScopesSpec.variablesRequest_static by done.
  unfold staticBranch, tryCatch, getStaticVariables.
  unfold mbind at 1, M_bind at 1, bind at 1. rewrite ScopesSpec.bind_get, Hframe.
  by eexists.
Qed.

(** **** The pseudo-frame of the globals *)

(** X25. [stackTraceRequest] allocates the pseudo-frame of the
    globals before the base method runs: the base method starts from a
    session whose global handle is a new frame handle that stands for
    thread -1 and frame -1, so that from there on the Global scope
    resolves every global symbol under that frame at depth -1. *)
Theorem stack_trace_allocates_the_pseudo_frame (s : Session G) :
  exists s1,
    stackTraceRequest s = super_stackTraceRequest s1
    /\ globalHandle s1 = Some (nextHandle (frameHandles s))
    /\ globalHandle s1 ≫= (fun h => Handles_get h (frameHandles s1))
       = Some (mkFrameReference (-1) (-1))
    /\ nextHandle (frameHandles s1) = nextHandle (frameHandles s) + 1
    /\ getGlobalVariables (globalHandle s1) s1
       = forSymbols
           (fun symbol =>
              getVariables (Some (mkFrameReference (-1) (-1)))
                           (globalName (symbol_name symbol)) (symbol_name symbol)
                           (Some (-1)))
           symbolTable_getGlobalVariables s1.
Proof.
  set (s1 := setGlobalHandle (Some (nextHandle (frameHandles s)))
               (setFrameHandles
                  (Handles_create (mkFrameReference (-1) (-1)) (frameHandles s)).2 s)).
  assert (Hframe : globalHandle s1 ≫= (fun h => Handles_get h (frameHandles s1))
                   = Some (mkFrameReference (-1) (-1))).
  { subst s1. simpl. unfold Handles_get. simpl. apply lookup_insert_eq. }
  exists s1. split; [|split; [reflexivity |split; [exact Hframe |split; [reflexivity |]]]].
  - subst s1. unfold stackTraceRequest, mbind, M_bind, bind, frameHandles_create, modify.
    simpl. by destruct (super_stackTraceRequest _) as [[r s2] acts].
  - by rewrite getGlobalVariables_run, Hframe.
Qed.

End Scopes.

Import ReferenceDebugger.

(** Reference 5 of a new session. *)
Lemma unknown_reference_lists_nothing_example :
  (unreserved 5 /\ Handles_get 5 (variableHandles (newSession emptyGdb)) = None)
  /\ variablesRequest 5 (newSession emptyGdb)
     = (Ok tt, newSession emptyGdb, [SendResponse (VariablesBody [])]).
Proof.
  assert (H1 : unreserved 5).
  { unfold unreserved, GLOBAL_HANDLE_ID, STATIC_HANDLES_START, STATIC_HANDLES_FINISH. lia. }
  assert (H2 : Handles_get 5 (variableHandles (newSession emptyGdb)) = None)
    by reflexivity.
  split; [done |].
  exact (unknown_reference_lists_nothing 5 (newSession emptyGdb) H1 H2).
Defined.


(** The Global scope before the stack trace: an error and no command. *)
Lemma globals_without_pseudo_frame_example :
  globalHandle stopped ≫= (fun h => Handles_get h (frameHandles stopped)) = None
  /\ exists message,
      @variablesRequest Gdb symbolic GLOBAL_HANDLE_ID stopped
      = (Ok tt, stopped, [SendErrorResponse 1 message]).
Proof.
  assert (H1 : globalHandle stopped ≫= (fun h => Handles_get h (frameHandles stopped))
               = None) by reflexivity.
  split; [exact H1 |].
  exact (@globals_without_pseudo_frame Gdb symbolic stopped H1).
Defined.


(** The Static scope of frame 7, which the session has never seen. *)
Lemma statics_of_unknown_frame_example :
  (STATIC_HANDLES_START <= STATIC_HANDLES_START + 7 <= STATIC_HANDLES_FINISH
   /\ Handles_get (STATIC_HANDLES_START + 7 - STATIC_HANDLES_START) (frameHandles traced)
      = None)
  /\ exists message,
      @variablesRequest Gdb symbolic (STATIC_HANDLES_START + 7) traced
      = (Ok tt, traced, [SendErrorResponse 1 message]).
Proof.
  assert (H1 : STATIC_HANDLES_START <= STATIC_HANDLES_START + 7 <= STATIC_HANDLES_FINISH).
  { unfold STATIC_HANDLES_START, STATIC_HANDLES_FINISH. lia. }
  assert (H2 : Handles_get (STATIC_HANDLES_START + 7 - STATIC_HANDLES_START)
                           (frameHandles traced) = None) by reflexivity.
  split; [done |].
  exact (@statics_of_unknown_frame Gdb symbolic (STATIC_HANDLES_START + 7) traced H1 H2).
Defined.

End VariablesRequestSpec.
